(** * aiofreepybox: the session bootstrap of [Freepybox]

    A shallow embedding of [aiofreepybox/aiofreepybox.py]: discovery of the
    appliance, negotiation of host, port, transport and API version, the
    pairing handshake with its polling loop, the credential file and the
    closing of the session; and of the remote control of the player,
    [aiofreepybox/api/remote.py].

    Python values are the JSON scalars the code handles; the client object,
    the file store and the log of observable events form one explicit state
    that every method threads; exceptions are an outcome of the monad, and
    the unbounded [while] loop runs on fuel. *)

From Stdlib Require Import ZArith String Ascii.
From stdpp Require Import gmap strings list fin_maps pretty.

Local Open Scope string_scope.
Local Open Scope Z_scope.

(** ** Python values *)

(** The values that travel through the bootstrap code: [None], booleans,
    integers and strings (what [json] decodes, floats and containers apart). *)
Inductive pyval :=
| VNone
| VBool (b : bool)
| VInt (z : Z)
| VStr (s : string).

#[global] Instance pyval_eq_dec : EqDecision pyval.
Proof. solve_decision. Defined.

(** Dictionaries with string keys, such as [app_desc] and [fbx_desc]. *)
Abbreviation dict := (gmap string pyval).

(** [bool(v)]: what [not v] and [if v] test. *)
Definition py_truthy (v : pyval) : bool :=
  match v with
  | VNone => false
  | VBool b => b
  | VInt z => negb (z =? 0)
  | VStr s => negb (bool_decide (s = ""))
  end.

(** Python's [==] identifies [True] with [1] and [False] with [0]. *)
Definition py_norm (v : pyval) : pyval :=
  match v with
  | VBool b => VInt (if b then 1 else 0)
  | _ => v
  end.

Definition py_eqb (a b : pyval) : bool := bool_decide (py_norm a = py_norm b).

(** [d1 == d2] on dictionaries: same keys, values equal by [==]. *)
Definition dict_eqb (d1 d2 : dict) : bool :=
  bool_decide (py_norm <$> d1 = py_norm <$> d2).

(** [str(v)], as the f-strings format it. *)
Definition py_str (v : pyval) : string :=
  match v with
  | VNone => "None"
  | VBool true => "True"
  | VBool false => "False"
  | VInt z => pretty z
  | VStr s => s
  end.

(** ** Strings *)

(** A [string] is the [str] with the same characters, one by one: the model
    has the texts whose code points are below 256. *)

(** [s[1:]] *)
Definition drop_first (s : string) : string :=
  match s with
  | EmptyString => EmptyString
  | String _ t => t
  end.

(** [s.split(".")[0]]: the part before the first dot. *)
Fixpoint before_dot (s : string) : string :=
  match s with
  | EmptyString => EmptyString
  | String c t => if bool_decide (c = "."%char) then EmptyString
                  else String c (before_dot t)
  end.

(** [a < b] on [str]: lexicographic. *)
Definition str_lt (a b : string) : bool := String.ltb a b.

(** The blanks of [int]: the ASCII blanks of C, and the two blanks of
    Latin-1, which [int] first turns into spaces. The separators 28 to 31,
    blanks for [str.strip], are none for [int]. *)
Definition is_space (c : ascii) : bool :=
  let n := nat_of_ascii c in
  ((9 <=? n) && (n <=? 13) || (n =? 32) || (n =? 133) || (n =? 160))%nat.

Definition is_digit (c : ascii) : bool :=
  let n := nat_of_ascii c in ((48 <=? n) && (n <=? 57))%nat.

Definition digit_value (c : ascii) : Z := Z.of_nat (nat_of_ascii c) - 48.

Fixpoint lstrip (l : list ascii) : list ascii :=
  match l with
  | c :: l' => if is_space c then lstrip l' else l
  | [] => []
  end.

(** The longest prefix of digits with single underscores between them: its
    value, the number of its digits and what follows it; [None] for two
    underscores in a row and for an underscore at its end. *)
Fixpoint scan_digits (l : list ascii) (acc : Z) (digits : nat)
    (after_underscore : bool) : option (Z * nat * list ascii) :=
  match l with
  | c :: l' =>
      if is_digit c then scan_digits l' (10 * acc + digit_value c) (S digits) false
      else if bool_decide (c = "_"%char) then
        if after_underscore then None else scan_digits l' acc digits true
      else if after_underscore then None else Some (acc, digits, l)
  | [] => if after_underscore then None else Some (acc, digits, [])
  end.

(** [sys.get_int_max_str_digits()], at its default. *)
Definition _INT_MAX_STR_DIGITS : nat := 4300.

(** What [int] makes of a [str]: a value, or one of its two [ValueError]. *)
Inductive int_result :=
| IntValue (z : Z)
| IntInvalid
| IntTooLong (digits : nat).

(** The text after the blanks and the sign: the digits are counted, and
    the limit is checked, before the rest is looked at. *)
Definition int_digits (l : list ascii) : int_result :=
  match l with
  | "_"%char :: _ => IntInvalid
  | _ =>
      match scan_digits l 0 0 false with
      | None => IntInvalid
      | Some (z, digits, rest) =>
          if (_INT_MAX_STR_DIGITS <? digits)%nat then IntTooLong digits
          else if (digits =? 0)%nat then IntInvalid
          else match lstrip rest with
               | [] => IntValue z
               | _ => IntInvalid
               end
      end
  end.

(** [int(s)] on a [str], as CPython 3.11 reads it: blanks, an optional
    sign, decimal digits, blanks. *)
Definition int_parse (s : string) : int_result :=
  match lstrip (list_ascii_of_string s) with
  | "-"%char :: l =>
      match int_digits l with IntValue z => IntValue (- z) | r => r end
  | "+"%char :: l => int_digits l
  | l => int_digits l
  end.

(** The value of [int(s)]; [None] stands for the [ValueError]. *)
Definition int_of_str (s : string) : option Z :=
  match int_parse s with IntValue z => Some z | _ => None end.

Definition hex_digit (n : nat) : ascii :=
  ascii_of_nat (if (n <? 10)%nat then 48 + n else 87 + n).

(** A character that [repr] writes as it is. *)
Definition is_printable (c : ascii) : bool :=
  let n := nat_of_ascii c in
  ((32 <=? n) && (n <=? 126) || (161 <=? n) && negb (n =? 173))%nat.

Definition repr_char (quote : ascii) (c : ascii) : list ascii :=
  let n := nat_of_ascii c in
  if bool_decide (c = quote) || bool_decide (c = "\"%char) then ["\"%char; c]
  else if (n =? 9)%nat then ["\"%char; "t"%char]
  else if (n =? 10)%nat then ["\"%char; "n"%char]
  else if (n =? 13)%nat then ["\"%char; "r"%char]
  else if is_printable c then [c]
  else ["\"%char; "x"%char; hex_digit (n / 16); hex_digit (n mod 16)].

(** [repr(s)]: in double quotes when [s] has a single quote and no double
    quote, in single quotes otherwise. *)
Definition py_repr (s : string) : list ascii :=
  let l := list_ascii_of_string s in
  let quote := if bool_decide ("'"%char ∈ l) && negb (bool_decide (ascii_of_nat 34 ∈ l))
               then ascii_of_nat 34 else "'"%char in
  quote :: concat (map (repr_char quote) l) ++ [quote].

(** The message of the [ValueError] of [int(s)]; its format cuts [repr(s)]
    after 200 characters. *)
Definition int_message (s : string) : string :=
  match int_parse s with
  | IntTooLong digits =>
      "Exceeds the limit (" +:+ pretty _INT_MAX_STR_DIGITS
      +:+ " digits) for integer string conversion: value has " +:+ pretty digits
      +:+ " digits; use sys.set_int_max_str_digits() to increase the limit"
  | _ =>
      "invalid literal for int() with base 10: "
      +:+ string_of_list_ascii (take 200 (py_repr s))
  end.

(** ** Constants of the module *)

Definition _DEFAULT_API_VERSION : string := "v6".
Definition _DEFAULT_DEVICE_NAME : string := "Freebox Server".
Definition _DEFAULT_HOST : string := "mafreebox.freebox.fr".
Definition _DEFAULT_HTTP_PORT : string := "80".
Definition _DEFAULT_HTTPS_PORT : string := "443".
Definition _DEFAULT_SSL : bool := true.
Definition _DEFAULT_UNKNOWN : string := "None".

(** ** Host and port fallback *)

(** [_disc_set_host_and_port]: the transport marker is ["s"] or [""]. *)
Definition _disc_set_host_and_port (host port : pyval) : pyval * pyval * string :=
  let s := if _DEFAULT_SSL && negb (py_eqb port (VStr _DEFAULT_HTTP_PORT))
           then "s" else "" in
  if negb (py_truthy host) && negb (py_truthy port) then
    (VStr _DEFAULT_HOST,
     VStr (if _DEFAULT_SSL then _DEFAULT_HTTPS_PORT else _DEFAULT_HTTP_PORT), s)
  else if negb (py_truthy port) then
    (host, VStr _DEFAULT_HTTP_PORT, "")
  else if negb (py_truthy host) then
    (VStr _DEFAULT_HOST, port, s)
  else (host, port, s).

(** ** Exceptions, events and state *)

(** What [discover] returns: the description of the appliance, [None], or
    (through [err.args[0]] of a [ValueError] of [int]) a text. *)
Inductive found :=
| FDesc (d : dict)
| FNone
| FText (s : string).

(** The exceptions. [GaiError] is [socket.gaierror]; [ClientError] stands
    for the errors of the HTTP client of the remote control that [set_key]
    does not catch. *)
Inductive exn :=
| InvalidTokenError (msg : string)
| NotOpenError (msg : string)
| AuthorizationError (msg : string)
| HttpRequestError (msg : string)
| ValueError (arg : option found)
| KeyError (key : string)
| IndexError
| TypeError
| AttributeError
| JSONDecodeError
| GaiError
| OverflowError
| ClientError.

Inductive log_level := DEBUG | INFO | WARNING | ERROR.

(** Observable actions of the client; a status request is logged with the
    status the appliance answers. *)
Inductive event :=
| ELog (level : log_level) (msg : string)
| EPrint (msg : string)
| ESleep (ms : nat)
| ESocket (host : pyval) (port : Z)
| ENewSession (ssl : bool)
| ECloseSession
| EGetApiVersion (url : string)
| EPostAuthorize (url : string) (body : dict)
| EGetStatus (url : string) (status : string)
| EWriteFile (file : string) (d : dict).

(** A key of the connector's pool, [_session._connector._conns]. *)
Record conn_key := ConnKey { ck_host : string; ck_port : Z; ck_is_ssl : bool }.

#[global] Instance conn_key_eq_dec : EqDecision conn_key.
Proof. solve_decision. Defined.

(** An [aiohttp.ClientSession]: whether it is closed, and the keys of the
    connections its connector keeps alive, oldest first. A connection whose
    answer was read stays in the pool until the session is closed, and its
    key has the host as the caller wrote it. *)
Record session := Session { closed : bool; conns : list conn_key }.

(** Modelled from the spec: the request sender [Access] of
    [aiofreepybox/access.py], taken at its constructor only, which binds the
    session to the base URL, the application token and the application id. *)
Record access := Access { acc_base_url : string; acc_app_token : pyval; acc_app_id : pyval }.

(** The content of a file that can be opened and read as text: a JSON
    object of scalars, another JSON value (a list, a text, a number, [true],
    [false] or [null]), or a text that is no JSON. The store keeps the object
    that [json.load] decodes: [json.dump] followed by [json.load] is taken as
    the identity on a dictionary of scalars. *)
Inductive file :=
| FJson (d : dict)
| FJsonOther
| FGarbage.

(** The [Freepybox] object, the file store and the events so far, oldest
    first. *)
Record state := State {
  api_version : string;
  app_desc : dict;
  fbx_desc : option dict;
  fbx_url : string;
  token_file : string;
  _session : option session;
  _access : option access;
  files : gmap string file;
  trace : list event
}.

Definition set_api_version (v : string) (st : state) : state :=
  State v (app_desc st) (fbx_desc st) (fbx_url st) (token_file st)
        (_session st) (_access st) (files st) (trace st).
Definition set_fbx_desc (d : option dict) (st : state) : state :=
  State (api_version st) (app_desc st) d (fbx_url st) (token_file st)
        (_session st) (_access st) (files st) (trace st).
Definition set_fbx_url (u : string) (st : state) : state :=
  State (api_version st) (app_desc st) (fbx_desc st) u (token_file st)
        (_session st) (_access st) (files st) (trace st).
Definition set_session (s : option session) (st : state) : state :=
  State (api_version st) (app_desc st) (fbx_desc st) (fbx_url st) (token_file st)
        s (_access st) (files st) (trace st).
Definition set_access (a : option access) (st : state) : state :=
  State (api_version st) (app_desc st) (fbx_desc st) (fbx_url st) (token_file st)
        (_session st) a (files st) (trace st).
Definition set_files (f : gmap string file) (st : state) : state :=
  State (api_version st) (app_desc st) (fbx_desc st) (fbx_url st) (token_file st)
        (_session st) (_access st) f (trace st).
Definition set_trace (t : list event) (st : state) : state :=
  State (api_version st) (app_desc st) (fbx_desc st) (fbx_url st) (token_file st)
        (_session st) (_access st) (files st) t.

(** [Freepybox(app_desc, token_file, api_version)] over a file store. *)
Definition init (desc : dict) (tfile : string) (version : string)
    (fs : gmap string file) : state :=
  State version desc None "" tfile None None fs [].

(** ** The appliance and the libraries *)

Inductive probe_reply :=
| PSslError (msg : string)
| PNotJson
| PJson (d : dict).

(** The answer to [POST login/authorize/]: [resp.get("success")], the two
    fields of [resp["result"]], and [json.dumps(resp)]. *)
Record authorize_reply := AuthorizeReply {
  ar_success : pyval;
  ar_app_token : pyval;
  ar_track_id : pyval;
  ar_dump : string
}.

(** What [sock.connect_ex((host, port))] does with a host that is a [str]:
    it returns [0] or an error number, or it raises [socket.gaierror] when
    the name does not resolve, [OverflowError] when the port is not in
    0..65535, or [TypeError] when the name cannot be encoded. *)
Inductive sock_result :=
| SockCode (code : Z)
| SockGaiError
| SockOverflowError
| SockTypeError.

(** Everything outside the client. A request is answered from its rank
    among the requests of its kind, and from its arguments.
    [pool_after n k pool] is the pool of the connector once the answer to
    the [n]-th probe has been read as JSON, where [pool] is the pool before
    the request and [k] is the host, the port and the scheme as the client
    wrote them in the URL: the connector chooses the key under which it
    keeps the connection, and whether it keeps it. *)
Record env := Env {
  is_ipv4 : pyval -> bool;
  is_ipv6 : pyval -> bool;
  connect_ex : nat -> pyval -> Z -> sock_result;
  get_api_version : nat -> string -> probe_reply;
  post_authorize : nat -> string -> dict -> authorize_reply;
  get_status : nat -> string -> string;
  pool_after : nat -> conn_key -> list conn_key -> list conn_key
}.

Definition is_socket (e : event) : bool :=
  match e with ESocket _ _ => true | _ => false end.
Definition is_probe (e : event) : bool :=
  match e with EGetApiVersion _ => true | _ => false end.
Definition is_authorize (e : event) : bool :=
  match e with EPostAuthorize _ _ => true | _ => false end.
Definition is_status (e : event) : bool :=
  match e with EGetStatus _ _ => true | _ => false end.
Definition is_sleep (e : event) : bool :=
  match e with ESleep _ => true | _ => false end.
Definition is_print (e : event) : bool :=
  match e with EPrint _ => true | _ => false end.
Definition is_write (e : event) : bool :=
  match e with EWriteFile _ _ => true | _ => false end.

(** How many events of a kind the trace holds. *)
Definition count (p : event -> bool) (t : list event) : nat :=
  length (filter (fun e => p e = true) t).

(** The events of a kind, in order. *)
Definition only (p : event -> bool) (t : list event) : list event :=
  filter (fun e => p e = true) t.

(** ** The monad: state, exceptions, fuel *)

Inductive outcome (A : Type) :=
| Done (a : A)
| Raised (e : exn)
| Unfinished.
Arguments Done {A} a.
Arguments Raised {A} e.
Arguments Unfinished {A}.

Definition M (A : Type) : Type := state -> outcome A * state.

#[global] Instance M_ret : MRet M := fun A a st => (Done a, st).
#[global] Instance M_bind : MBind M := fun A B f c st =>
  match c st with
  | (Done a, st') => f a st'
  | (Raised e, st') => (Raised e, st')
  | (Unfinished, st') => (Unfinished, st')
  end.

Definition raise {A} (e : exn) : M A := fun st => (Raised e, st).
Definition unfinished {A} : M A := fun st => (Unfinished, st).
Definition get : M state := fun st => (Done st, st).
Definition modify (f : state -> state) : M unit := fun st => (Done tt, f st).
Definition emit (e : event) : M unit := modify (fun st => set_trace (trace st ++ [e]) st).
Definition log (l : log_level) (msg : string) : M unit := emit (ELog l msg).

(** [try: c except <handled>: h] *)
Definition try_except {A} (c : M A) (handled : exn -> bool) (h : exn -> M A) : M A :=
  fun st =>
    match c st with
    | (Raised e, st') => if handled e then h e st' else (Raised e, st')
    | r => r
    end.

Definition is_ValueError (e : exn) : bool :=
  match e with ValueError _ => true | _ => false end.
Definition is_HttpRequestError (e : exn) : bool :=
  match e with HttpRequestError _ => true | _ => false end.

(** [d[k]] *)
Definition getitem (d : dict) (k : string) : M pyval :=
  match d !! k with
  | Some v => mret v
  | None => raise (KeyError k)
  end.

(** [int(v)] *)
Definition py_int (v : pyval) : M Z :=
  match v with
  | VNone => raise TypeError
  | VBool b => mret (if b then 1 else 0)
  | VInt z => mret z
  | VStr s =>
      match int_of_str s with
      | Some z => mret z
      | None => raise (ValueError (Some (FText (int_message s))))
      end
  end.

(** ** The methods of [Freepybox] *)

Section Freepybox.

(** The appliance and the libraries the client runs against. *)
Variable E : env.

(** [sock.connect_ex((host, port))]; the socket takes a [str] for host.
    The errors that it raises are no [ValueError]: nothing in [discover] or
    in [_open_init] catches them. *)
Definition socket_connect_ex (host : pyval) (port : Z) : M Z :=
  st ← get;
  match host with
  | VStr _ =>
      emit (ESocket host port);;
      match connect_ex E (count is_socket (trace st)) host port with
      | SockCode result => mret result
      | SockGaiError => raise GaiError
      | SockOverflowError => raise OverflowError
      | SockTypeError => raise TypeError
      end
  | _ => raise TypeError
  end.

(** The port of the URL [f"http{s}://{host}:{port}/..."], when it has one. *)
Definition url_port (port : pyval) : option Z :=
  match port with
  | VStr p => int_of_str p
  | VInt z => Some z
  | _ => None
  end.

(** [self._session.close()]: the connector drops its pool. *)
Definition session_close : M unit :=
  modify (set_session (Some (Session true [])));;
  emit ECloseSession.

(** [asyncio.sleep], in milliseconds. *)
Definition sleep (ms : nat) : M unit := emit (ESleep ms).

(** [_is_app_desc_valid] *)
Definition _is_app_desc_valid (desc : dict) : bool :=
  forallb (fun k => bool_decide (is_Some (desc !! k)))
          ["app_id"; "app_name"; "app_version"; "device_name"].

(** [_disc_close_to_return]; its result is always [None]. *)
Definition _disc_close_to_return : M found :=
  st ← get;
  (if bool_decide (fbx_desc st = None) then mret tt
   else modify (set_fbx_desc None));;
  match _session st with
  | Some s => if negb (closed s) then session_close;; sleep 250 else mret tt
  | None => mret tt
  end;;
  mret FNone.

(** [_disc_connect]: [true] for [True], [false] for the [None] of a failed
    probe of the socket. *)
Definition _disc_connect (host port : pyval) (s : string) : M bool :=
  p ← py_int port;
  result ← socket_connect_ex host p;
  if negb (result =? 0) then
    _disc_close_to_return;; mret false
  else
    modify (set_session (Some (Session false [])));;
    emit (ENewSession (bool_decide (s = "s")));;
    mret true.

(** [_disc_check_session]; [rec] is [self.discover]. The cached description
    and the result of the probe that replaces it leave as the argument of a
    [ValueError]. *)
Definition _disc_check_session (rec : pyval -> pyval -> M found)
    (host port : pyval) (s : string) : M (pyval * pyval * string) :=
  st ← get;
  match fbx_desc st, _session st with
  | Some d, Some ses =>
      if negb (bool_decide (d = ∅)) && negb (closed ses) then
        match conns ses with
        | [] => raise IndexError
        | c :: _ =>
            let again : M (pyval * pyval * string) :=
              _disc_close_to_return;;
              r ← rec host port;
              raise (ValueError (Some r)) in
            if py_eqb (VStr (ck_host c)) host then
              p ← py_int port;
              if bool_decide (ck_port c = p)
                 && bool_decide (ck_is_ssl c = negb (bool_decide (s = ""))) then
                raise (ValueError (Some (FDesc d)))
              else again
            else again
        end
      else mret (host, port, s)
  | _, _ => mret (host, port, s)
  end.

(** [self._session.get(f"http{s}://{host}:{port}/api_version")]: the answer
    of the appliance; when it is JSON, [discover] reads it and the
    connector decides what becomes of the connection. In the other cases
    [discover] closes the session at once. *)
Definition session_get_api_version (host port : pyval) (s : string) : M probe_reply :=
  st ← get;
  let url := "http" +:+ s +:+ "://" +:+ py_str host +:+ ":" +:+ py_str port
             +:+ "/api_version" in
  match _session st, url_port port with
  | None, _ => raise AttributeError
  | Some _, None => raise (ValueError (Some (FText url)))
  | Some ses, Some p =>
      emit (EGetApiVersion url);;
      let reply := get_api_version E (count is_probe (trace st)) url in
      match reply with
      | PJson _ =>
          let k := ConnKey (py_str host) p (negb (bool_decide (s = ""))) in
          modify (set_session (Some (Session (closed ses)
                    (pool_after E (count is_probe (trace st)) k (conns ses)))))
      | _ => mret tt
      end;;
      mret reply
  end.

(** [discover], on fuel for the call back from [_disc_check_session]. *)
Fixpoint discover_rec (fuel : nat) (host port : pyval) : M found :=
  match fuel with
  | O => unfinished
  | S fuel' =>
      if is_ipv6 E host then
        log ERROR (py_str host +:+ " : IPv6 is not supported");;
        _disc_close_to_return
      else
        let '(h, p, s) := _disc_set_host_and_port host port in
        r ← try_except (t ← _disc_check_session (discover_rec fuel') h p s; mret (inr t))
              is_ValueError
              (fun e => match e with
                        | ValueError (Some v) => mret (inl v)
                        | _ => raise IndexError
                        end);
        match r with
        | inl v => mret v
        | inr (host, port, s) =>
            st ← get;
            let no_session :=
              match _session st with
              | None => true
              | Some ses => closed ses
              end in
            connected ← (if no_session then _disc_connect host port s else mret true);
            if negb connected then mret FNone
            else
              r ← session_get_api_version host port s;
              match r with
              | PSslError e =>
                  _disc_close_to_return;;
                  raise (HttpRequestError e)
              | PNotJson => _disc_close_to_return
              | PJson d =>
                  modify (set_fbx_desc (Some d));;
                  name ← getitem d "device_name";
                  if negb (py_eqb name (VStr _DEFAULT_DEVICE_NAME)) then
                    _disc_close_to_return
                  else mret (FDesc d)
              end
        end
  end.

(** [discover]: the call back happens on a closed session, which does not
    call back again, so that two units of fuel are enough (see
    [discover_total]). *)
Definition discover (host port : pyval) : M found := discover_rec 2 host port.

(** [_get_base_url]; [None] for an omitted [freebox_api_version]. *)
Definition _get_base_url (host port : pyval) (freebox_api_version : option string)
    : M string :=
  st ← get;
  match _session st with
  | None => raise AttributeError
  | Some ses =>
      match conns ses with
      | [] => raise IndexError
      | c :: _ =>
          let s := if ck_is_ssl c then "s" else "" in
          let root := "http" +:+ s +:+ "://" +:+ py_str host +:+ ":" +:+ py_str port in
          match freebox_api_version with
          | None => mret root
          | Some v =>
              match fbx_desc st with
              | None => raise TypeError
              | Some d =>
                  abu ← getitem d "api_base_url";
                  mret (root +:+ py_str abu +:+ v +:+ "/")
              end
          end
      end
  end.

(** [_check_api_version]; [and] and [or] evaluate [int] only when reached. *)
Definition _check_api_version : M unit :=
  st ← get;
  match fbx_desc st with
  | None => raise TypeError
  | Some d =>
      v ← getitem d "api_version";
      match v with
      | VStr full =>
          let server_version := before_dot full in
          let short_api_version_target := drop_first _DEFAULT_API_VERSION in
          (if bool_decide (api_version st = "server")
           then modify (set_api_version ("v" +:+ server_version))
           else mret tt);;
          st ← get;
          let short_api_version := drop_first (api_version st) in
          let reset : M unit :=
            log WARNING ("Freebox server does not support this API version ("
                         +:+ api_version st +:+ "), resetting to "
                         +:+ _DEFAULT_API_VERSION +:+ ".");;
            modify (set_api_version _DEFAULT_API_VERSION) in
          let last_branch : M unit :=
            if str_lt server_version short_api_version then reset
            else
              n ← py_int (VStr short_api_version);
              if n <? 1 then reset else mret tt in
          if str_lt short_api_version_target server_version
             && bool_decide (short_api_version = server_version) then
            log WARNING ("Using new API version " +:+ api_version st
                         +:+ ", results may vary.")
          else if str_lt short_api_version short_api_version_target then
            n ← py_int (VStr short_api_version);
            if 0 <? n then
              log WARNING ("Using deprecated API version " +:+ api_version st
                           +:+ ", results may vary.")
            else last_branch
          else last_branch
      | _ => raise AttributeError
      end
  end.

(** [_open_setup] *)
Definition _open_setup (host port : pyval) : M (pyval * pyval) :=
  st ← get;
  match fbx_desc st with
  | None => raise TypeError
  | Some d =>
      available ← (if _DEFAULT_SSL then getitem d "https_available" else mret VNone);
      if _DEFAULT_SSL && py_truthy available then
        h ← (if bool_decide (host = VNone) || is_ipv4 E host
             then getitem d "api_domain" else mret host);
        p ← (if bool_decide (port = VNone) || py_eqb port (VStr _DEFAULT_HTTP_PORT)
             then getitem d "https_port" else mret port);
        mret (h, p)
      else
        mret (if bool_decide (host = VNone) then VStr _DEFAULT_HOST else host,
              if bool_decide (port = VNone) then VStr _DEFAULT_HTTP_PORT else port)
  end.

(** [next(v for v in [x, unk] if v)] *)
Definition or_unknown (x : pyval) : pyval :=
  if py_truthy x then x else VStr _DEFAULT_UNKNOWN.

(** The message of the [NotOpenError] of [_open_init]. *)
Definition cannot_detect (host port : pyval) : string :=
  "Cannot detect freebox at " +:+ py_str (or_unknown host) +:+ ":"
  +:+ py_str (or_unknown port) +:+ ", please check your configuration.".

(** The handler of [_open_init], with the [host] and [port] of the moment. *)
Definition not_open {A} (host port : pyval) : exn -> M A :=
  fun _ => raise (NotOpenError (cannot_detect host port)).

Definition caught_by_open_init (e : exn) : bool :=
  is_ValueError e || is_HttpRequestError e.

(** [if await self.discover(host, port) is None: raise ValueError] *)
Definition discover_or_raise (host port : pyval) : M unit :=
  r ← discover host port;
  match r with
  | FNone => raise (ValueError None)
  | _ => mret tt
  end.

(** [_open_init]. The [try] block is cut where it assigns [host] and
    [port], so that the handler reads the values they have when the
    exception is raised. *)
Definition _open_init (host port : pyval) : M (pyval * pyval) :=
  try_except (discover_or_raise host port) caught_by_open_init (not_open host port);;
  '(host, port) ← try_except (_open_setup host port) caught_by_open_init
                    (not_open host port);
  try_except (discover_or_raise host port) caught_by_open_init (not_open host port);;
  _check_api_version;;
  url ← _get_base_url host port None;
  modify (set_fbx_url url);;
  mret (host, port).

(** [urljoin(base_url, path)] for a base that ends with a slash. *)
Definition urljoin (base_url path : string) : string := base_url +:+ path.

(** [_get_app_token] *)
Definition _get_app_token (base_url : string) (desc : dict) : M (pyval * pyval) :=
  st ← get;
  let url := urljoin base_url "login/authorize/" in
  emit (EPostAuthorize url desc);;
  let resp := post_authorize E (count is_authorize (trace st)) url desc in
  if negb (py_truthy (ar_success resp)) then
    raise (AuthorizationError ("Authorization failed (APIResponse: "
                               +:+ ar_dump resp +:+ ")."))
  else mret (ar_app_token resp, ar_track_id resp).

(** [urljoin(base_url, f"login/authorize/{track_id}")] *)
Definition status_url (base_url : string) (track_id : pyval) : string :=
  urljoin base_url ("login/authorize/" +:+ py_str track_id).

(** [_get_authorization_status] *)
Definition _get_authorization_status (base_url : string) (track_id : pyval) : M string :=
  st ← get;
  let url := status_url base_url track_id in
  let status := get_status E (count is_status (trace st)) url in
  emit (EGetStatus url status);;
  mret status.

Definition denied_message : string := "The app token is invalid or has been revoked.".
Definition timeout_message : string := "Authorization timed out.".
Definition confirm_message : string :=
  "Please confirm the authentification on the freebox.".

(** The [while status != "granted"] loop of [_get_app_access]. *)
Fixpoint poll_loop (fuel : nat) (base_url : string) (track_id : pyval)
    (out_msg_flag : bool) (status : option string) : M unit :=
  if bool_decide (status = Some "granted") then mret tt
  else
    match fuel with
    | O => unfinished
    | S fuel' =>
        status ← _get_authorization_status base_url track_id;
        if bool_decide (status = "denied") then
          raise (AuthorizationError denied_message)
        else if bool_decide (status = "pending") then
          (if negb out_msg_flag then emit (EPrint confirm_message) else mret tt);;
          sleep 1000;;
          poll_loop fuel' base_url track_id true (Some status)
        else if bool_decide (status = "timeout") then
          raise (AuthorizationError timeout_message)
        else poll_loop fuel' base_url track_id out_msg_flag (Some status)
    end.

Definition desc_keys : list string :=
  ["app_id"; "app_name"; "app_version"; "device_name"].

(** [_readfile_app_token]; a missing file gives three [None]. *)
Definition _readfile_app_token (path : string) : M (pyval * pyval * option dict) :=
  st ← get;
  match files st !! path with
  | None => mret (VNone, VNone, None)
  | Some FGarbage => raise JSONDecodeError
  | Some FJsonOther => raise TypeError
  | Some (FJson d) =>
      app_token ← getitem d "app_token";
      track_id ← getitem d "track_id";
      mret (app_token, track_id,
            Some (filter (fun kv => kv.1 ∈ desc_keys) d))
  end.

(** [_writefile_app_token] *)
Definition _writefile_app_token (app_token track_id : pyval) (desc : dict)
    (path : string) : M unit :=
  let d := <["track_id" := track_id]> (<["app_token" := app_token]> desc) in
  modify (fun st => set_files (<[path := FJson d]> (files st)) st);;
  emit (EWriteFile path d).

(** [file_app_desc != app_desc] *)
Definition desc_differs (file_app_desc : option dict) (desc : dict) : bool :=
  match file_app_desc with
  | None => true
  | Some fd => negb (dict_eqb fd desc)
  end.

(** The pairing run: the branch of [_get_app_access] that requests a
    token, polls the status and stores the token. *)
Definition pairing_run (fuel : nat) (base_url : string) (path : string)
    (desc : dict) : M (pyval * pyval) :=
  log WARNING "No valid authorization file found, requesting authorization.";;
  '(app_token, track_id) ← _get_app_token base_url desc;
  poll_loop fuel base_url track_id false None;;
  log INFO "Application authorization granted.";;
  _writefile_app_token app_token track_id desc path;;
  log INFO ("Application token file was generated: " +:+ path +:+ ".");;
  mret (app_token, track_id).

(** [_get_app_access] *)
Definition _get_app_access (fuel : nat) (host port : pyval) (version : string)
    (path : string) (desc : dict) : M access :=
  base_url ← _get_base_url host port (Some version);
  log DEBUG "Reading application authorization file.";;
  '(app_token, track_id, file_app_desc) ← _readfile_app_token path;
  '(app_token, track_id) ←
    (if bool_decide (app_token = VNone) || desc_differs file_app_desc desc then
       pairing_run fuel base_url path desc
     else mret (app_token, track_id));
  app_id ← getitem desc "app_id";
  mret (Access base_url app_token app_id).

(** [open]; the modules it then instantiates only keep the access object. *)
Definition open (fuel : nat) (host port : pyval) : M unit :=
  st ← get;
  if negb (_is_app_desc_valid (app_desc st)) then
    raise (InvalidTokenError "Invalid application descriptor")
  else
    '(h, p) ← _open_init host port;
    st ← get;
    a ← _get_app_access fuel h p (api_version st) (token_file st) (app_desc st);
    modify (set_access (Some a)).

End Freepybox.

(** ** States and sample data of the statements *)

(** The warning of the last branch of [_check_api_version]. *)
Definition reset_message (v : string) : string :=
  "Freebox server does not support this API version (" +:+ v
  +:+ "), resetting to " +:+ _DEFAULT_API_VERSION +:+ ".".

(** The state with one more warning in the log. *)
Definition warned (msg : string) (st : state) : state :=
  set_trace (trace st ++ [ELog WARNING msg]) st.

(** The state after that warning and the reset of [api_version]. *)
Definition after_reset (st : state) : state :=
  set_api_version _DEFAULT_API_VERSION (warned (reset_message (api_version st)) st).

(** The first branch of [_check_api_version]: the version of the server,
    above the one of the library. *)
Definition new_version_case (server short : string) : Prop :=
  str_lt (drop_first _DEFAULT_API_VERSION) server = true /\ short = server.

(** The [ValueError] of [int] on a text that it does not take. *)
Definition int_error (short : string) : exn :=
  ValueError (Some (FText (int_message short))).

(** A descriptor with the four identity fields. *)
Definition sample_desc : dict :=
  <["app_id" := VStr "aiofpbx"]> (<["app_name" := VStr "aiofreepybox"]>
  (<["app_version" := VStr "6.0.0"]> (<["device_name" := VStr "laptop"]> ∅))).

(** A client whose discovery found an appliance of API version [srv]. *)
Definition probed (requested srv : string) : state :=
  set_fbx_desc (Some (<["api_version" := VStr srv]> ∅))
    (init sample_desc "app_auth" requested ∅).

(** ** Traces of the polling loop *)

(** A status after which the loop polls again. *)
Definition nonterminal (s : string) : Prop :=
  s <> "granted" /\ s <> "denied" /\ s <> "timeout".

(** A status outside the four that the loop names. *)
Definition unnamed_status (s : string) : Prop :=
  s <> "pending" /\ nonterminal s.

(** The statuses the appliance answers to requests [n0], ..., [n0 + k - 1]. *)
Definition answers (E : env) (url : string) (n0 k : nat) : list string :=
  map (fun i => get_status E (n0 + i)%nat url) (seq 0 k).

Definition is_pending (s : string) : bool := bool_decide (s = "pending").

(** What the loop does on statuses that do not end it: the request, and for
    [pending] the prompt, unless it was shown, and the wait of one second. *)
Fixpoint poll_events (url : string) (out_msg_flag : bool) (statuses : list string)
    : list event :=
  match statuses with
  | [] => []
  | s :: rest =>
      if is_pending s then
        EGetStatus url s
          :: (if out_msg_flag then [] else [EPrint confirm_message])
          ++ ESleep 1000 :: poll_events url true rest
      else EGetStatus url s :: poll_events url out_msg_flag rest
  end.

Definition flag_after (out_msg_flag : bool) (statuses : list string) : bool :=
  out_msg_flag || existsb is_pending statuses.

Definition status_after (status : option string) (statuses : list string)
    : option string :=
  match last statuses with
  | Some s => Some s
  | None => status
  end.

(** A trace in which a wait only follows a request answered [pending]
    (after the prompt, if any), and any other request is followed at once
    by the next request, or by nothing. *)
Fixpoint well_paced (evs : list event) : bool :=
  match evs with
  | [] => true
  | EGetStatus _ s :: rest =>
      if is_pending s then
        match rest with
        | ESleep 1000 :: rest' => well_paced rest'
        | EPrint _ :: ESleep 1000 :: rest' => well_paced rest'
        | _ => false
        end
      else
        match rest with
        | [] => true
        | EGetStatus _ _ :: _ => well_paced rest
        | _ => false
        end
  | _ => false
  end.

(** The statuses that the requests of a trace were answered. *)
Definition statuses_of (evs : list event) : list string :=
  omap (fun e => match e with EGetStatus _ s => Some s | _ => None end) evs.

(** The events of the polling loop. *)
Definition is_poll_event (e : event) : bool :=
  match e with
  | EGetStatus _ _ | EPrint _ | ESleep _ => true
  | _ => false
  end.

(** How the outcome of the loop relates to the statuses it was answered,
    [status] being the one it started from. *)
Definition poll_outcome (status : option string) (statuses : list string)
    (r : outcome unit) : Prop :=
  match r with
  | Done _ => status_after status statuses = Some "granted"
  | Raised e =>
      (last statuses = Some "denied" /\ e = AuthorizationError denied_message)
      \/ (last statuses = Some "timeout" /\ e = AuthorizationError timeout_message)
  | Unfinished =>
      status <> Some "granted" /\ forall s, last statuses = Some s -> nonterminal s
  end.

(** The two failures of a pairing run, which the code tells apart by the
    message of its [AuthorizationError]. *)
Definition AuthorizationDenied : exn := AuthorizationError denied_message.
Definition AuthorizationTimedOut : exn := AuthorizationError timeout_message.

(** The record that a pairing run stores. *)
Definition stored_record (app_token track_id : pyval) (desc : dict) : dict :=
  <["track_id" := track_id]> (<["app_token" := app_token]> desc).

(** The state once the pairing run has stored its token, from the state
    [st] in which the loop ended. *)
Definition after_store (app_token track_id : pyval) (desc : dict) (path : string)
    (st : state) : state :=
  set_trace (trace st ++ [ELog INFO "Application authorization granted.";
                          EWriteFile path (stored_record app_token track_id desc);
                          ELog INFO ("Application token file was generated: "
                                     +:+ path +:+ ".")])
    (set_files (<[path := FJson (stored_record app_token track_id desc)]> (files st)) st).

(** The state when the pairing run enters the loop: the warning and the
    token request are in the trace. *)
Definition after_request (base_url : string) (desc : dict) (st : state) : state :=
  set_trace (trace st ++ [ELog WARNING
                 "No valid authorization file found, requesting authorization.";
               EPostAuthorize (urljoin base_url "login/authorize/") desc]) st.

(** A connector that keeps the connection of every probe, under the key
    that the client wrote: the last connection of a key is the last of the
    pool. *)
Definition keep_alive (n : nat) (k : conn_key) (pool : list conn_key) : list conn_key :=
  filter (fun c => c <> k) pool ++ [k].

(** An appliance that accepts the token request, with token ["tok"] and
    track id [7], and answers the status requests from a list, then
    ["unknown"]. *)
Definition scripted (statuses : list string) : env :=
  Env (fun _ => false) (fun _ => false) (fun _ _ _ => SockCode 0) (fun _ _ => PNotJson)
      (fun _ _ _ => AuthorizeReply (VBool true) (VStr "tok") (VInt 7) "{}")
      (fun n _ => nth n statuses "unknown") keep_alive.

(** A fresh client with the sample descriptor and no credential file. *)
Definition fresh : state := init sample_desc "app_auth" "v6" ∅.

(** The base URL of the appliance at its default address. *)
Definition sample_base_url : string := "http://mafreebox.freebox.fr:80/api/v6/".

(** ** What discovery leaves alone *)

(** Events other than a token request, a status request and a write. *)
Definition quiet (e : event) : bool :=
  negb (is_authorize e || is_status e || is_write e).

(** [st'] has the files, the descriptor, the path of the token file and the
    access object of [st], and its trace adds quiet events only. *)
Definition untouched (st st' : state) : Prop :=
  files st' = files st /\ app_desc st' = app_desc st
  /\ token_file st' = token_file st /\ _access st' = _access st
  /\ exists evs, trace st' = (trace st ++ evs)%list /\ forallb quiet evs = true.

Definition discreet {A} (c : M A) : Prop := forall st, untouched st (c st).2.

(** A computation that never runs out of fuel. *)
Definition finishes {A} (c : M A) : Prop := forall st, (c st).1 <> Unfinished.

(** ** Failed probes and sample appliances *)



(** The description that an appliance gives of itself. *)
Definition sample_box : dict :=
  <["device_name" := VStr "Freebox Server"]> (<["api_version" := VStr "8.0"]>
  (<["api_base_url" := VStr "/api/"]> (<["https_available" := VBool true]>
  (<["api_domain" := VStr "abc.fbxos.fr"]> (<["https_port" := VInt 4443]> ∅))))).

(** An appliance whose sockets accept, that answers the probes from a list,
    then with something that is no JSON, accepts the token request and
    answers the status requests from a list, then [unknown]. *)
Definition appliance (probes : list probe_reply) (statuses : list string) : env :=
  Env (fun _ => false) (fun _ => false) (fun _ _ _ => SockCode 0)
      (fun n _ => nth n probes PNotJson)
      (fun _ _ _ => AuthorizeReply (VBool true) (VStr "tok") (VInt 7) "{}")
      (fun n _ => nth n statuses "unknown") keep_alive.

(** ** States between two probes *)

(** No open session without a cached description: so are the fresh client
    and every state in which [discover] returns or raises its
    [HttpRequestError]. *)
Definition no_stale_session (st : state) : Prop :=
  match _session st with
  | Some ses => closed ses = false -> exists d, fbx_desc st = Some d /\ d <> ∅
  | None => True
  end.

(** No session, or a closed one. *)
Definition no_open_session (st : state) : Prop :=
  match _session st with None => True | Some ses => closed ses = true end.

(** The description [d] is cached and the open session holds, first in its
    pool, a connection to host [h] and port [p] over the transport [s]. *)
Definition settled (h p : pyval) (s : string) (d : dict) (st : state) : Prop :=
  fbx_desc st = Some d /\ d <> ∅
  /\ exists k rest,
       _session st = Some (Session false (k :: rest))
       /\ py_eqb (VStr (ck_host k)) h = true
       /\ py_int p st = (Done (ck_port k), st)
       /\ ck_is_ssl k = negb (bool_decide (s = "")).



(** ** Stored credentials *)

(** The descriptor fields of a stored record: what [_readfile_app_token]
    compares with the descriptor of the caller. *)
Definition fingerprint (cred : dict) : dict :=
  filter (fun kv => kv.1 ∈ desc_keys) cred.

(** The file at [path] exists, its token is present and its fingerprint
    equals [desc] by [==]. *)
Definition stored_for (path : string) (desc : dict) (st : state) : Prop :=
  exists cred tok,
    files st !! path = Some (FJson cred)
    /\ cred !! "app_token" = Some tok /\ tok <> VNone
    /\ dict_eqb (fingerprint cred) desc = true.

(** The condition of the pairing branch of [_get_app_access]: the file is
    read, and the token is [None] (as for a missing file) or the fingerprint
    differs from [desc] by [!=]. *)
Definition pairing_needed (path : string) (desc : dict) (st : state) : Prop :=
  match files st !! path with
  | None => True
  | Some (FJson cred) =>
      exists tok tid,
        cred !! "app_token" = Some tok /\ cred !! "track_id" = Some tid
        /\ (tok = VNone \/ dict_eqb (fingerprint cred) desc = false)
  | Some FGarbage => False
  | Some FJsonOther => False
  end.

(** The log entry that opens [_get_app_access]. *)
Definition reading_message : string := "Reading application authorization file.".

(** A client whose credential file was stored under its descriptor. *)
Definition stored_client : state :=
  init sample_desc "app_auth" "v6"
    {["app_auth" := FJson (stored_record (VStr "old") (VInt 3) sample_desc)]}.


(** An appliance found at both probes of [open], which then answers the
    status requests from a list. *)
Definition found_twice (statuses : list string) : env :=
  appliance [PJson sample_box; PJson sample_box] statuses.

(** ** Closing the session *)

Section Close.

(** [self._access.post("login/logout")]: a request of the sender [Access],
    which is not in the sources; it may do and answer anything. *)
Variable logout : M unit.

(** [close] *)
Definition close : M unit :=
  st ← get;
  match _access st with
  | None => log WARNING "Closing but freebox is not connected"
  | Some _ =>
      match _session st with
      | None => raise AttributeError
      | Some ses =>
          if closed ses then log WARNING "Closing but freebox is not connected"
          else logout;; session_close;; sleep 250
      end
  end.

End Close.

(** ** The remote control of the player, [api/remote.py] *)

Definition _PL_LOCAL : string := "Freebox-Player.local".
Definition _PL_HOST : string := "freeboxhd".
Definition _PL_DOMAIN : string := ".freebox.fr".
Definition _PL_STATUS : Z := 200.
Definition _REMOTE_CONTROL : string := "/pub/remote_control".
Definition _DEFAULT_ACCESS_MODE : string := "local".
Definition _DEFAULT_PL_ID : Z := 1.

(** What comes of a request to the player: an answer with its status and
    content length, one of the two errors that [set_key] catches, the
    timeout and the disconnection of the server, or another error of the
    client, which [set_key] does not catch. *)
Inductive player_answer :=
| PlAnswer (status : Z) (content_length : option Z)
| PlTimeout
| PlDisconnected
| PlClientError.

(** The actions of the remote control: a request with its parameters, and
    the wait between two keys of a macro, in seconds. *)
Inductive remote_event :=
| RGet (url : string) (params : dict)
| RSleep (delay : Z).

(** The [Remote] object and its actions so far, oldest first. *)
Record remote := Remote {
  access_mode : pyval;
  player_host : pyval;
  actions : list remote_event
}.

Definition is_rget (e : remote_event) : bool :=
  match e with RGet _ _ => true | _ => false end.

(** How many requests a list of actions holds. *)
Definition requests (l : list remote_event) : nat :=
  length (filter (fun e => is_rget e = true) l).

(** [k in d and d[k] == v] *)
Definition has_value (d : dict) (k : string) (v : pyval) : bool :=
  match d !! k with
  | Some x => py_eqb x v
  | None => false
  end.

(** [build_key] *)
Definition build_key (key_data : dict) : dict :=
  let key_data :=
    if has_value key_data "long" (VStr "False") then delete "long" key_data
    else key_data in
  if has_value key_data "repeat" (VInt 0) then delete "repeat" key_data
  else key_data.

(** [set_player_host], as a function of the object. In the mode ["fbxhd"]
    the assignment ends with its line: the f-string of the line after it,
    with the player id and the domain, is a statement of its own, which is
    evaluated and dropped. *)
Definition set_player_host (access_m host player_id : pyval) (r : remote) : remote :=
  let mode := if bool_decide (access_m = VNone) then VStr _DEFAULT_ACCESS_MODE
              else access_m in
  if py_eqb mode (VStr "fbxhd") then
    let _ := py_str (if bool_decide (player_id = VNone) then VInt _DEFAULT_PL_ID
                     else player_id) +:+ _PL_DOMAIN in
    Remote mode (VStr _PL_HOST) (actions r)
  else if py_eqb mode (VStr "host") && negb (bool_decide (host = VNone)) then
    Remote mode host (actions r)
  else Remote mode (VStr _PL_LOCAL) (actions r).

(** [Remote(access, access_m)] *)
Definition new_remote (access_m : pyval) : remote :=
  set_player_host access_m VNone VNone (Remote VNone VNone []).

(** What the HTTP client takes as the value of a parameter: a [str], or an
    [int] that is no [bool]. *)
Definition sendable (v : pyval) : bool :=
  match v with
  | VStr _ | VInt _ => true
  | _ => false
  end.

Definition all_sendable (params : dict) : bool :=
  bool_decide (map_Forall (fun _ v => sendable v = true) params).

Section Remote.

(** The HTTP client. [ready n url] tells whether it takes the call of rank
    [n]: its session is open and the URL parses; if not, [get] raises
    before it looks at the parameters. *)
Variable ready : nat -> string -> bool.

(** The player: what comes of a request, from the rank of the request, its
    URL and its parameters. [PlClientError] is any error of the client
    other than the timeout and the disconnection of the server. *)
Variable player : nat -> string -> dict -> player_answer.

(** [set_key]: the result, the [key_data] of the caller, which the method
    updates in place, and the object. [build_key] works on a copy of
    [key_data]. The client raises [TypeError], and sends nothing, for a
    parameter that is [None] or a [bool]; [set_key] catches the timeout and
    the disconnection only. *)
Definition set_key (key_data : dict) (code : pyval) (r : remote)
    : outcome bool * dict * remote :=
  let with_code :=
    if negb (bool_decide (code = VNone))
       && (negb (bool_decide (is_Some (key_data !! "code")))
           || negb (has_value key_data "code" code))
    then Some (<["code" := code]> key_data)
    else if negb (bool_decide (is_Some (key_data !! "code"))) then None
    else Some key_data in
  match with_code with
  | None => (Done false, key_data, r)
  | Some key_data =>
      let url := "http://" +:+ py_str (player_host r) +:+ _REMOTE_CONTROL in
      let params := build_key key_data in
      if negb (ready (requests (actions r)) url) then (Raised ClientError, key_data, r)
      else if negb (all_sendable params) then (Raised TypeError, key_data, r)
      else
        let r' := Remote (access_mode r) (player_host r)
                    (actions r ++ [RGet url params]) in
        match player (requests (actions r)) url params with
        | PlAnswer status content_length =>
            (Done (bool_decide (status = _PL_STATUS)
                   && bool_decide (content_length = Some 0)), key_data, r')
        | PlTimeout | PlDisconnected => (Done false, key_data, r')
        | PlClientError => (Raised ClientError, key_data, r')
        end
  end.

(** [send_key] *)
Definition send_key (code key long_press repeat : pyval) (r : remote)
    : outcome bool * dict * remote :=
  set_key (build_key (<["repeat" := repeat]> (<["long" := long_press]>
             (<["key" := key]> (<["code" := code]> ∅))))) VNone r.

(** [send_macro]: the result, the keys as the calls of [set_key] leave
    them, and the object. An error of [set_key] ends the macro. *)
Fixpoint send_macro (keys_data : list dict) (code : pyval) (delay : Z) (r : remote)
    : outcome bool * list dict * remote :=
  match keys_data with
  | [] => (Done true, [], r)
  | key_data :: rest =>
      let '(ok, key_data', r1) := set_key key_data code r in
      match ok with
      | Done true =>
          let r2 := Remote (access_mode r1) (player_host r1)
                      (actions r1 ++ [RSleep delay]) in
          let '(res, rest', r3) := send_macro rest code delay r2 in
          (res, key_data' :: rest', r3)
      | Done false => (Done false, key_data' :: rest, r1)
      | Raised e => (Raised e, key_data' :: rest, r1)
      | Unfinished => (Unfinished, key_data' :: rest, r1)
      end
  end.

End Remote.

(** ** What the remote control does *)

Definition is_rsleep (e : remote_event) : bool :=
  match e with RSleep _ => true | _ => false end.

(** How many waits a list of actions holds. *)
Definition waits (l : list remote_event) : nat :=
  length (filter (fun e => is_rsleep e = true) l).

(** The URL of the requests of [set_key]. *)
Definition key_url (r : remote) : string :=
  "http://" +:+ py_str (player_host r) +:+ _REMOTE_CONTROL.

(** What [set_key] makes of the outcome of its request: [True] for the
    status 200 with an empty body, [False] for another answer, a timeout or
    a disconnection, and the error of the client for the rest. *)
Definition answered (a : player_answer) : outcome bool :=
  match a with
  | PlAnswer status content_length =>
      Done (bool_decide (status = _PL_STATUS) && bool_decide (content_length = Some 0))
  | PlTimeout | PlDisconnected => Done false
  | PlClientError => Raised ClientError
  end.

(** The [key_data] of the caller when [set_key] has put the code in it. *)
Definition coded (key_data : dict) (code : pyval) : dict :=
  if bool_decide (code = VNone) || has_value key_data "code" code then key_data
  else <["code" := code]> key_data.

(** The object after one more request. *)
Definition requested (params : dict) (r : remote) : remote :=
  Remote (access_mode r) (player_host r) (actions r ++ [RGet (key_url r) params]).

(** ** States and sample data of the further properties *)

(** The warning of [close] on a client that is not connected. *)
Definition not_connected_message : string := "Closing but freebox is not connected".

(** A client with an access object and an open session. *)
Definition opened_client : state :=
  set_access (Some (Access sample_base_url (VStr "tok") (VStr "aiofpbx")))
    (set_session (Some (Session false [ConnKey "mafreebox.freebox.fr" 80 false])) fresh).

(** No description cached and no session open. *)
Definition cleaned (st : state) : Prop :=
  fbx_desc st = None /\ no_open_session st.

(** The outcomes by which a probe reports that it found nothing, [None]
    returned or carried by a [ValueError], and its [HttpRequestError], come
    with a cleaned client. *)
Definition failure_cleaned (o : outcome found) (st : state) : Prop :=
  match o with
  | Done FNone => cleaned st
  | Raised (HttpRequestError _) => cleaned st
  | Raised (ValueError (Some FNone)) => cleaned st
  | _ => True
  end.

(** The client once [_disc_close_to_return] has closed its open session. *)
Definition dropped (st : state) : state :=
  set_trace (trace st ++ [ECloseSession; ESleep 250])
    (set_session (Some (Session true [])) (set_fbx_desc None st)).






(** How many of the statuses are [pending]. *)
Definition pendings (statuses : list string) : nat :=
  length (filter (fun s => is_pending s = true) statuses).

(** An environment in which ["::1"] is an IPv6 address. *)
Definition ipv6_loopback : env :=
  Env (fun _ => false) (fun h => bool_decide (h = VStr "::1")) (fun _ _ _ => SockCode 0)
      (fun _ _ => PJson sample_box)
      (fun _ _ _ => AuthorizeReply (VBool true) (VStr "tok") (VInt 7) "{}")
      (fun _ _ => "granted") keep_alive.

(** An appliance whose sockets refuse the connection. *)
Definition unreachable : env :=
  Env (fun _ => false) (fun _ => false) (fun _ _ _ => SockCode 111)
      (fun _ _ => PJson sample_box)
      (fun _ _ _ => AuthorizeReply (VBool true) (VStr "tok") (VInt 7) "{}")
      (fun _ _ => "granted") keep_alive.


(** A network on which no host name resolves. *)
Definition unresolved : env :=
  Env (fun _ => false) (fun _ => false) (fun _ _ _ => SockGaiError)
      (fun _ _ => PJson sample_box)
      (fun _ _ _ => AuthorizeReply (VBool true) (VStr "tok") (VInt 7) "{}")
      (fun _ _ => "granted") keep_alive.


(** An appliance that refuses the token request. *)
Definition refusing : env :=
  Env (fun _ => false) (fun _ => false) (fun _ _ _ => SockCode 0)
      (fun _ _ => PJson sample_box)
      (fun _ _ _ => AuthorizeReply (VBool false) VNone VNone "{}")
      (fun _ _ => "granted") keep_alive.

(** A client after a discovery at the default address. *)
Definition discovered : state :=
  (discover (appliance [PJson sample_box] []) VNone VNone fresh).2.

(** The base URL of that discovery. *)
Definition discovered_base_url : string := "https://mafreebox.freebox.fr:443/api/v6/".

(** [st'] is the client [st], files and trace apart. *)
Definition same_client (st st' : state) : Prop :=
  api_version st' = api_version st /\ app_desc st' = app_desc st
  /\ fbx_desc st' = fbx_desc st /\ fbx_url st' = fbx_url st
  /\ token_file st' = token_file st /\ _session st' = _session st
  /\ _access st' = _access st.

(** * Properties *)

(** ** Running the monad *)

Ltac munfold :=
  unfold mbind, M_bind, mret, M_ret, get, modify, emit, log, raise, unfinished,
    getitem, sleep in *.

Lemma bind_done {A B} (c : M A) (f : A -> M B) (st st' : state) (a : A) :
  c st = (Done a, st') -> (c ≫= f) st = f a st'.
Proof. intros H. unfold mbind, M_bind. by rewrite H. Qed.

(** ** Strings and values *)

Lemma str_lt_irrefl (s : string) : str_lt s s = false.
Proof.
  unfold str_lt, String.ltb.
  pose proof (String.compare_antisym s s) as H.
  by destruct (String.compare s s).
Qed.

Lemma str_lt_neq (a b : string) : str_lt a b = true -> a <> b.
Proof. intros H ->. by rewrite str_lt_irrefl in H. Qed.

Example int_of_str_examples :
  int_of_str "6" = Some 6 /\ int_of_str " -12 " = Some (-12) /\
  int_of_str "1_000" = Some 1000 /\ int_of_str "1a" = None /\
  int_of_str "" = None /\ int_of_str "0" = Some 0 /\
  int_of_str (String (ascii_of_nat 28) "5") = None /\
  int_of_str "5_" = None /\ int_of_str "+ 5" = None /\
  int_message "1a" = "invalid literal for int() with base 10: '1a'".
Proof. repeat split; reflexivity. Qed.

(** ** Host and port fallback *)

(** C5: the four cases of the fallback ladder of [_disc_set_host_and_port]:
    nothing given resolves to the default host on the default secure port
    over the secure transport; a host alone to that host on the default plain
    port over the plain transport; port ["80"] alone to the default host on
    port ["80"] over the plain transport; host ["10.0.0.1"] with port ["443"]
    to both as given over the secure transport. *)
Theorem fallback_ladder_cases :
  _disc_set_host_and_port VNone VNone
    = (VStr "mafreebox.freebox.fr", VStr "443", "s")
  /\ _disc_set_host_and_port (VStr "10.0.0.1") VNone
    = (VStr "10.0.0.1", VStr "80", "")
  /\ _disc_set_host_and_port VNone (VStr "80")
    = (VStr "mafreebox.freebox.fr", VStr "80", "")
  /\ _disc_set_host_and_port (VStr "10.0.0.1") (VStr "443")
    = (VStr "10.0.0.1", VStr "443", "s").
Proof. repeat split; reflexivity. Qed.

(** ** The credential file *)

Lemma token_keys_not_desc_keys (k : string) :
  k = "app_token" \/ k = "track_id" -> k ∉ desc_keys.
Proof. intros [-> | ->]; by apply (bool_decide_unpack _). Qed.

(** What [_readfile_app_token] finds after [_writefile_app_token]: the token,
    the track id, and the fields of the descriptor among the four keys. *)
Lemma read_after_write (app_token track_id : pyval) (desc : dict) (path : string)
    (st : state) :
  exists st',
    _writefile_app_token app_token track_id desc path st = (Done tt, st')
    /\ files st' = <[path := FJson (<["track_id" := track_id]>
                                    (<["app_token" := app_token]> desc))]> (files st)
    /\ _readfile_app_token path st'
       = (Done (app_token, track_id,
                Some (filter (fun kv => kv.1 ∈ desc_keys) desc)), st').
Proof.
  eexists. split; [reflexivity|]. split; [reflexivity|].
  unfold _readfile_app_token. munfold. simpl.
  rewrite lookup_insert_eq. simpl.
  rewrite lookup_insert_ne by done. rewrite lookup_insert_eq.
  rewrite lookup_insert_eq.
  rewrite !map_filter_insert_not; first done.
  - intros y. simpl. by apply token_keys_not_desc_keys; left.
  - intros y. simpl. by apply token_keys_not_desc_keys; right.
Qed.

Lemma filter_desc_keys_id (desc : dict) :
  dom desc = list_to_set desc_keys ->
  filter (fun kv => kv.1 ∈ desc_keys) desc = desc.
Proof.
  intros Hdom. apply map_filter_id. intros k v Hk. simpl.
  assert (k ∈ dom desc) as Hin by (apply elem_of_dom; eauto).
  rewrite Hdom in Hin. by apply elem_of_list_to_set in Hin.
Qed.

(** C8: for every token string, track id string and descriptor with exactly
    the four identity fields, [_writefile_app_token] followed by
    [_readfile_app_token] on the same path returns the same token, the same
    track id and the same descriptor. *)
Theorem write_read_round_trip (app_token track_id : string) (desc : dict)
    (path : string) (st : state) :
  dom desc = list_to_set desc_keys ->
  exists st',
    _writefile_app_token (VStr app_token) (VStr track_id) desc path st = (Done tt, st')
    /\ _readfile_app_token path st'
       = (Done (VStr app_token, VStr track_id, Some desc), st').
Proof.
  intros Hdom.
  destruct (read_after_write (VStr app_token) (VStr track_id) desc path st)
    as (st' & Hw & _ & Hr).
  exists st'. split; [done|]. by rewrite filter_desc_keys_id in Hr.
Qed.

Lemma write_read_round_trip_witness :
  exists st',
    _writefile_app_token (VStr "tok") (VStr "7") sample_desc "app_auth" fresh
      = (Done tt, st')
    /\ _readfile_app_token "app_auth" st'
       = (Done (VStr "tok", VStr "7", Some sample_desc), st').
Proof. apply write_read_round_trip. reflexivity. Defined.

(** ** API version resolution *)

#[local] Arguments str_lt : simpl never.
#[local] Arguments int_of_str : simpl never.
#[local] Arguments String.append : simpl never.

Section ApiVersion.
Variables (d : dict) (full : string) (st : state).
Hypothesis Hdesc : fbx_desc st = Some d.
Hypothesis Hver : d !! "api_version" = Some (VStr full).
Hypothesis Hreq : api_version st <> "server".

Let server := before_dot full.
Let short := drop_first (api_version st).

(** The three branches of [_check_api_version], as a decision tree. *)
Lemma check_api_version_branches :
  _check_api_version st =
  if str_lt "6" server && bool_decide (short = server) then
    (Done tt, warned ("Using new API version " +:+ api_version st
                      +:+ ", results may vary.") st)
  else
    let last :=
      if str_lt server short then (Done tt, after_reset st)
      else match int_of_str short with
           | Some n => if n <? 1 then (Done tt, after_reset st) else (Done tt, st)
           | None => (Raised (int_error short), st)
           end in
    if str_lt short "6" then
      match int_of_str short with
      | Some n =>
          if 0 <? n then
            (Done tt, warned ("Using deprecated API version " +:+ api_version st
                              +:+ ", results may vary.") st)
          else last
      | None => (Raised (int_error short), st)
      end
    else last.
Proof.
  subst server short.
  unfold _check_api_version. munfold. rewrite Hdesc. simpl. rewrite Hver. simpl.
  rewrite bool_decide_eq_false_2 by done. simpl.
  destruct (str_lt "6" (before_dot full) && _) eqn:H1; [done|].
  destruct (str_lt (drop_first (api_version st)) "6") eqn:H2.
  - unfold py_int. destruct (int_of_str _) eqn:H3; simpl; [|done].
    destruct (0 <? z) eqn:H4; [done|].
    destruct (str_lt (before_dot full) _) eqn:H5; [done|].
    simpl. by destruct (z <? 1).
  - destruct (str_lt (before_dot full) _) eqn:H5; [done|].
    unfold py_int. destruct (int_of_str _) eqn:H3; simpl; [|done].
    by destruct (z <? 1).
Qed.

Lemma not_new_case : ~ new_version_case server short ->
  str_lt "6" server && bool_decide (short = server) = false.
Proof.
  intros Hn. apply andb_false_iff.
  destruct (str_lt "6" server) eqn:H6; [right|by left].
  apply bool_decide_eq_false_2. intros Heq. by apply Hn.
Qed.

Lemma above_server_not_new : str_lt server short = true ->
  ~ new_version_case server short.
Proof. intros Hlt [_ Heq]. apply str_lt_neq in Hlt. congruence. Qed.

Lemma reset_above_server :
  str_lt server short = true -> str_lt short "6" = false ->
  _check_api_version st = (Done tt, after_reset st).
Proof.
  intros Hlt H6. rewrite check_api_version_branches.
  rewrite not_new_case by by apply above_server_not_new.
  simpl. fold server short. by rewrite H6, Hlt.
Qed.

Lemma reset_below_one (n : Z) :
  int_of_str short = Some n -> n < 1 -> ~ new_version_case server short ->
  _check_api_version st = (Done tt, after_reset st).
Proof.
  intros Hint Hn Hnew. rewrite check_api_version_branches.
  rewrite not_new_case by done. simpl. fold server short. rewrite Hint.
  assert (Z.ltb 0 n = false) as -> by lia.
  assert (Z.ltb n 1 = true) as -> by lia.
  by destruct (str_lt short "6"), (str_lt server short).
Qed.

Lemma deprecated_kept (n : Z) :
  str_lt short "6" = true -> int_of_str short = Some n -> 0 < n ->
  ~ new_version_case server short ->
  _check_api_version st
  = (Done tt, warned ("Using deprecated API version " +:+ api_version st
                      +:+ ", results may vary.") st).
Proof.
  intros H6 Hint Hn Hnew. rewrite check_api_version_branches.
  rewrite not_new_case by done. simpl. fold server short. rewrite H6, Hint.
  assert (Z.ltb 0 n = true) as -> by lia. done.
Qed.

Lemma numeric_never_raises (n : Z) :
  int_of_str short = Some n ->
  exists st', _check_api_version st = (Done tt, st')
              /\ (st' = st \/ exists msg, trace st' = (trace st ++ [ELog WARNING msg])%list).
Proof.
  intros Hint. rewrite check_api_version_branches.
  destruct (str_lt "6" server && _); [eexists; split; [done|right; by eexists]|].
  simpl. fold server short. rewrite Hint.
  destruct (str_lt short "6"), (0 <? n), (str_lt server short), (n <? 1);
    eexists; (split; [done|]); first [by left | right; by eexists].
Qed.
End ApiVersion.

(** C4, as the code has it: with [short] the requested version without its
    first character and [server] the major version of the appliance,
    [api_version] is reset to ["v6"] with a warning when [short] is
    lexicographically above [server] and not below ["6"], and when [short] is
    an integer below 1 outside the new-version branch; a [short] above
    [server] but below ["6"] with a positive value is kept with the
    deprecation warning; ["v6"] against major version ["8"] is kept without
    any warning; whenever [int] takes [short] the check returns, with at
    most one warning; and when [int] does not take [short], outside the
    new-version branch and with [short] below ["6"] or not above [server],
    the check raises the [ValueError] of [int]. *)
Theorem api_version_resolution (d : dict) (full : string) (st : state) :
  fbx_desc st = Some d -> d !! "api_version" = Some (VStr full) ->
  api_version st <> "server" ->
  let server := before_dot full in
  let short := drop_first (api_version st) in
  (str_lt server short = true -> str_lt short "6" = false ->
     _check_api_version st = (Done tt, after_reset st))
  /\ (forall n, int_of_str short = Some n -> n < 1 ->
        ~ new_version_case server short ->
        _check_api_version st = (Done tt, after_reset st))
  /\ (forall n, str_lt server short = true -> str_lt short "6" = true ->
        int_of_str short = Some n -> 0 < n ->
        _check_api_version st
        = (Done tt, warned ("Using deprecated API version " +:+ api_version st
                            +:+ ", results may vary.") st))
  /\ (api_version st = "v6" -> server = "8" ->
        _check_api_version st = (Done tt, st))
  /\ (forall n, int_of_str short = Some n ->
        exists st', _check_api_version st = (Done tt, st')
          /\ (st' = st \/ exists msg, trace st' = (trace st ++ [ELog WARNING msg])%list))
  /\ (~ new_version_case server short -> int_of_str short = None ->
      str_lt short "6" = true \/ str_lt server short = false ->
      _check_api_version st = (Raised (int_error short), st)).
Proof.
  intros Hdesc Hver Hreq server short. split; [|split; [|split; [|split; [|split]]]].
  - by apply (reset_above_server d full).
  - intros n. by apply (reset_below_one d full).
  - intros n Hlt H6 Hint Hn. apply (deprecated_kept d full st Hdesc Hver Hreq n); try done.
    by apply above_server_not_new.
  - intros Hv Hs. rewrite (check_api_version_branches d full) by done.
    fold server. rewrite Hv, Hs. reflexivity.
  - intros n. by apply (numeric_never_raises d full).
  - intros Hnew Hint Hreach. rewrite (check_api_version_branches d full) by done.
    rewrite not_new_case by done. cbv zeta.
    fold server short. rewrite Hint.
    destruct (str_lt short "6") eqn:H6; [done|].
    destruct Hreach as [Hr|Hr]; [done|]. by rewrite Hr.
Qed.

Lemma api_version_resolution_witness :
  _check_api_version (probed "v9" "8.0") = (Done tt, after_reset (probed "v9" "8.0"))
  /\ _check_api_version (probed "v0" "8.0") = (Done tt, after_reset (probed "v0" "8.0"))
  /\ _check_api_version (probed "v6" "8.0") = (Done tt, probed "v6" "8.0").
Proof.
  split; [|split].
  - refine (proj1 (api_version_resolution _ "8.0" (probed "v9" "8.0") _ _ _) _ _);
      first [reflexivity | discriminate].
  - refine (proj1 (proj2 (api_version_resolution _ "8.0" (probed "v0" "8.0") _ _ _))
              0 _ _ _); first [reflexivity | discriminate | by intros [? ?]].
  - refine (proj1 (proj2 (proj2 (proj2
              (api_version_resolution _ "8.0" (probed "v6" "8.0") _ _ _)))) _ _);
      first [reflexivity | discriminate].
Defined.

(** C4 as stated fails: ["v5"] is lexicographically above the major version
    ["3"] and is kept; ["v6"] against major version ["8"] logs nothing; and
    ["v1a"] makes [int] raise. *)
Lemma api_version_not_always_reset :
  (str_lt (before_dot "3.0") (drop_first "v5") = true
   /\ api_version (_check_api_version (probed "v5" "3.0")).2 = "v5")
  /\ _check_api_version (probed "v6" "8.0") = (Done tt, probed "v6" "8.0")
  /\ trace (probed "v6" "8.0") = []
  /\ (_check_api_version (probed "v1a" "8.0")).1 = Raised (int_error "1a").
Proof. repeat split; reflexivity. Qed.

(** ** The polling loop *)

Lemma set_trace_same (st : state) : set_trace (trace st) st = st.
Proof. by destruct st. Qed.

Lemma set_trace_twice (t1 t2 : list event) (st : state) :
  set_trace t2 (set_trace t1 st) = set_trace t2 st.
Proof. reflexivity. Qed.

Lemma trace_set_trace (t : list event) (st : state) : trace (set_trace t st) = t.
Proof. reflexivity. Qed.

Lemma count_app (p : event -> bool) (t1 t2 : list event) :
  count p (t1 ++ t2) = (count p t1 + count p t2)%nat.
Proof. unfold count. by rewrite filter_app, length_app. Qed.

Lemma count_cons (p : event -> bool) (e : event) (t : list event) :
  count p (e :: t) = ((if p e then 1 else 0) + count p t)%nat.
Proof.
  unfold count. rewrite filter_cons.
  destruct (p e); by rewrite ?decide_True, ?decide_False by done.
Qed.

Lemma count_nil (p : event -> bool) : count p [] = 0%nat.
Proof. reflexivity. Qed.

Lemma answers_S (E : env) (url : string) (n0 k : nat) :
  answers E url n0 (S k) = get_status E n0 url :: answers E url (S n0) k.
Proof.
  unfold answers. simpl. rewrite Nat.add_0_r. f_equal.
  rewrite <- seq_shift, map_map. apply map_ext. intros i.
  by rewrite Nat.add_succ_r.
Qed.

Lemma flag_after_cons (flag : bool) (s : string) (l : list string) :
  flag_after flag (s :: l) = flag_after (flag || is_pending s) l.
Proof. unfold flag_after. simpl. by rewrite orb_assoc. Qed.

Section Polling.
Variable E : env.
Variables (base_url : string) (track_id : pyval).

Let url := status_url base_url track_id.

(** One turn of the loop. *)
Lemma poll_loop_step (fuel : nat) (flag : bool) (status : option string) (st : state) :
  status <> Some "granted" ->
  poll_loop E (S fuel) base_url track_id flag status st =
  let s := get_status E (count is_status (trace st)) url in
  let st1 := set_trace (trace st ++ [EGetStatus url s]) st in
  if bool_decide (s = "denied") then
    (Raised (AuthorizationError denied_message), st1)
  else if bool_decide (s = "pending") then
    poll_loop E fuel base_url track_id true (Some s)
      (set_trace (trace st ++ EGetStatus url s
                    :: (if flag then [] else [EPrint confirm_message])
                    ++ [ESleep 1000]) st)
  else if bool_decide (s = "timeout") then
    (Raised (AuthorizationError timeout_message), st1)
  else poll_loop E fuel base_url track_id flag (Some s) st1.
Proof.
  intros Hs. subst url. cbn [poll_loop].
  rewrite bool_decide_eq_false_2 by done.
  unfold _get_authorization_status. munfold. simpl.
  destruct (bool_decide (_ = "denied")); [done|].
  destruct (bool_decide (_ = "pending")).
  - destruct flag; simpl; by rewrite <- !app_assoc.
  - by destruct (bool_decide (_ = "timeout")).
Qed.

Lemma poll_loop_granted (fuel : nat) (flag : bool) (st : state) :
  poll_loop E fuel base_url track_id flag (Some "granted") st = (Done tt, st).
Proof. by destruct fuel. Qed.

Lemma poll_loop_no_fuel (flag : bool) (status : option string) (st : state) :
  status <> Some "granted" ->
  poll_loop E 0 base_url track_id flag status st = (Unfinished, st).
Proof. intros Hs. simpl. by rewrite bool_decide_eq_false_2. Qed.

(** [k] statuses that do not end the loop take [k] turns. *)
Lemma poll_loop_prefix (k : nat) :
  forall (fuel : nat) (flag : bool) (status : option string) (st : state),
  status <> Some "granted" ->
  Forall nonterminal (answers E url (count is_status (trace st)) k) ->
  poll_loop E (k + fuel) base_url track_id flag status st
  = poll_loop E fuel base_url track_id
      (flag_after flag (answers E url (count is_status (trace st)) k))
      (status_after status (answers E url (count is_status (trace st)) k))
      (set_trace (trace st ++ poll_events url flag
                    (answers E url (count is_status (trace st)) k)) st).
Proof.
  induction k as [|k IH]; intros fuel flag status st Hs Hall.
  - simpl. unfold flag_after, status_after. simpl.
    by rewrite orb_false_r, app_nil_r, set_trace_same.
  - rewrite answers_S in *. apply Forall_cons in Hall as [(Hg & Hd & Ht) Hall].
    change (S k + fuel)%nat with (S (k + fuel)).
    rewrite poll_loop_step by done. cbn zeta. fold url.
    set (s := get_status E (count is_status (trace st)) url) in *.
    rewrite (bool_decide_eq_false_2 (s = "denied")) by done.
    rewrite (bool_decide_eq_false_2 (s = "timeout")) by done.
    assert (Hlast : forall o, status_after o (s :: answers E url (S (count is_status (trace st))) k)
                    = status_after (Some s) (answers E url (S (count is_status (trace st))) k)).
    { intros o. unfold status_after. rewrite last_cons.
      by destruct (last _). }
    fold (is_pending s). destruct (is_pending s) eqn:Hp.
    + rewrite IH; simpl trace.
      * rewrite count_app. 
        replace (count is_status (EGetStatus url s
                   :: (if flag then [] else [EPrint confirm_message]) ++ [ESleep 1000]))
          with 1%nat by (by destruct flag).
        rewrite Nat.add_1_r, Hlast, flag_after_cons. cbn [poll_events].
        rewrite Hp, orb_true_r.
        rewrite set_trace_twice. do 2 f_equal.
        rewrite <- app_assoc. simpl. by rewrite <- app_assoc.
      * by intros [= ->].
      * rewrite count_app.
        replace (count is_status (EGetStatus url s
                   :: (if flag then [] else [EPrint confirm_message]) ++ [ESleep 1000]))
          with 1%nat by (by destruct flag).
        by rewrite Nat.add_1_r.
    + rewrite IH; simpl trace.
      * rewrite count_app. change (count is_status [EGetStatus url s]) with 1%nat.
        rewrite Nat.add_1_r, Hlast, flag_after_cons. cbn [poll_events].
        rewrite Hp, orb_false_r.
        rewrite set_trace_twice. do 2 f_equal. by rewrite <- app_assoc.
      * intros [= Heq]. by rewrite Heq in Hg.
      * rewrite count_app. change (count is_status [EGetStatus url s]) with 1%nat.
        by rewrite Nat.add_1_r.
Qed.

End Polling.

(** ** The pairing run *)

Section Pairing.
Variable E : env.
Variables (base_url path : string) (desc : dict) (st : state).

Let resp := post_authorize E (count is_authorize (trace st))
              (urljoin base_url "login/authorize/") desc.

(** The pairing run around its loop. *)
Lemma pairing_run_unfold (fuel : nat) :
  pairing_run E fuel base_url path desc st =
  if negb (py_truthy (ar_success resp)) then
    (Raised (AuthorizationError ("Authorization failed (APIResponse: "
                                 +:+ ar_dump resp +:+ ").")),
     after_request base_url desc st)
  else
    match poll_loop E fuel base_url (ar_track_id resp) false None
            (after_request base_url desc st) with
    | (Done _, st') =>
        (Done (ar_app_token resp, ar_track_id resp),
         after_store (ar_app_token resp) (ar_track_id resp) desc path st')
    | (Raised e, st') => (Raised e, st')
    | (Unfinished, st') => (Unfinished, st')
    end.
Proof.
  subst resp. unfold pairing_run, _get_app_token. munfold. simpl.
  rewrite count_app. change (count is_authorize [ELog _ _]) with 0%nat.
  rewrite Nat.add_0_r.
  destruct (py_truthy _); simpl.
  - unfold after_request. rewrite <- app_assoc. simpl.
    destruct (poll_loop _ _ _ _ _ _ _) as [[[]|e|] st'] eqn:Hp; try done.
    unfold _writefile_app_token. munfold. simpl.
    unfold after_store, stored_record. simpl.
    by rewrite <- !app_assoc.
  - unfold after_request. by rewrite <- app_assoc.
Qed.

Lemma count_status_after_request :
  count is_status (trace (after_request base_url desc st))
  = count is_status (trace st).
Proof.
  unfold after_request. simpl. rewrite count_app, !count_cons, count_nil. simpl. lia.
Qed.

End Pairing.

(** ** Every run of the loop *)

Lemma statuses_of_app (a b : list event) :
  statuses_of (a ++ b) = (statuses_of a ++ statuses_of b)%list.
Proof. unfold statuses_of. apply omap_app. Qed.

Lemma status_after_cons (o : option string) (s : string) (l : list string) :
  status_after o (s :: l) = status_after (Some s) l.
Proof. unfold status_after. rewrite last_cons. by destruct (last l). Qed.

Lemma poll_outcome_cons (status : option string) (s : string) (l : list string)
    (r : outcome unit) :
  status <> Some "granted" -> nonterminal s ->
  poll_outcome (Some s) l r -> poll_outcome status (s :: l) r.
Proof.
  intros Hs Hn. destruct r as [[]|e|]; simpl.
  - by rewrite status_after_cons.
  - rewrite last_cons. intros [[Hl ->] | [Hl ->]]; rewrite Hl; auto.
  - intros [_ H]. split; [done|]. intros x. rewrite last_cons.
    destruct (last l) as [y|] eqn:Hl; intros [= <-]; auto.
Qed.

Lemma well_paced_head (evs : list event) :
  well_paced evs = true ->
  match evs with [] | EGetStatus _ _ :: _ => True | _ => False end.
Proof. by destruct evs as [|[] ?]. Qed.

Section Runs.
Variable E : env.
Variables (base_url : string) (track_id : pyval).

Let url := status_url base_url track_id.

(** Whatever the fuel and the answers, the loop only adds to the trace,
    paces its requests as [well_paced] says, and ends as [poll_outcome]
    says. *)
Lemma poll_loop_run (fuel : nat) :
  forall (flag : bool) (status : option string) (st : state),
  exists evs,
    (poll_loop E fuel base_url track_id flag status st).2
      = set_trace (trace st ++ evs) st
    /\ well_paced evs = true
    /\ forallb is_poll_event evs = true
    /\ poll_outcome status (statuses_of evs)
         (poll_loop E fuel base_url track_id flag status st).1.
Proof.
  induction fuel as [|fuel IH]; intros flag status st;
    destruct (decide (status = Some "granted")) as [-> | Hs].
  1, 3: rewrite poll_loop_granted; exists []; simpl;
        by rewrite app_nil_r, set_trace_same.
  - rewrite poll_loop_no_fuel by done. exists []. simpl.
    rewrite app_nil_r, set_trace_same. repeat split; try done.
  - rewrite poll_loop_step by done. cbn zeta. fold url.
    set (s := get_status E (count is_status (trace st)) url).
    case_bool_decide as Hd.
    { exists [EGetStatus url s]. simpl. rewrite Hd. repeat split; try done. by left. }
    case_bool_decide as Hp.
    { destruct (IH true (Some s)
        (set_trace (trace st ++ EGetStatus url s
                      :: (if flag then [] else [EPrint confirm_message])
                      ++ [ESleep 1000]) st)) as (evs & Hst & Hw & Hev & Hout).
      exists (EGetStatus url s :: (if flag then [] else [EPrint confirm_message])
                ++ ESleep 1000 :: evs).
      split; [|split; [|split]].
      - rewrite Hst. simpl. rewrite set_trace_twice. f_equal.
        rewrite <- app_assoc. simpl. by rewrite <- app_assoc.
      - simpl. unfold is_pending. rewrite bool_decide_eq_true_2 by done.
        by destruct flag.
      - simpl. by destruct flag.
      - replace (statuses_of _) with (s :: statuses_of evs).
        + apply poll_outcome_cons; try done. by rewrite Hp.
        + change (EGetStatus url s :: ?a ++ ?b)
            with ([EGetStatus url s] ++ a ++ b)%list.
          rewrite !statuses_of_app. by destruct flag. }
    case_bool_decide as Ht.
    { exists [EGetStatus url s]. simpl. rewrite Ht. repeat split; try done. by right. }
    destruct (decide (s = "granted")) as [Hg | Hg].
    { rewrite Hg, poll_loop_granted. exists [EGetStatus url "granted"].
      repeat split; try done. }
    destruct (IH flag (Some s) (set_trace (trace st ++ [EGetStatus url s]) st))
      as (evs & Hst & Hw & Hev & Hout).
    exists (EGetStatus url s :: evs). split; [|split; [|split]].
    + rewrite Hst. simpl. rewrite set_trace_twice. f_equal. by rewrite <- app_assoc.
    + simpl. unfold is_pending. rewrite bool_decide_eq_false_2 by done.
      pose proof (well_paced_head evs Hw) as Hh.
      by destruct evs as [|[] ?].
    + done.
    + by apply poll_outcome_cons.
Qed.

End Runs.

(** ** Terminal states of the pairing run *)

Lemma poll_events_count_status (E : env) (url : string) (k : nat) :
  forall n flag, count is_status (poll_events url flag (answers E url n k)) = k.
Proof.
  induction k as [|k IH]; intros n flag; [done|].
  rewrite answers_S. simpl. destruct (is_pending _); rewrite count_cons; simpl.
  - rewrite count_app, count_cons, IH. by destruct flag.
  - by rewrite IH.
Qed.

Lemma poll_events_count_write (url : string) (l : list string) :
  forall flag, count is_write (poll_events url flag l) = 0%nat.
Proof.
  induction l as [|s l IH]; intros flag; [done|]. simpl.
  destruct (is_pending s); rewrite count_cons; simpl; [|by apply IH].
  rewrite count_app, count_cons, IH. by destruct flag.
Qed.

Section Terminal.
Variable E : env.
Variables (base_url path : string) (desc : dict) (st : state).

Let resp := post_authorize E (count is_authorize (trace st))
              (urljoin base_url "login/authorize/") desc.
Let url := status_url base_url (ar_track_id resp).
Let n0 := count is_status (trace st).

Hypothesis Haccept : py_truthy (ar_success resp) = true.

(** The state in which the loop ends, after [k] statuses that do not end it
    and a last status [s]. *)
Let ended (k : nat) (s : string) : state :=
  set_trace (trace (after_request base_url desc st)
             ++ poll_events url false (answers E url n0 k)
             ++ [EGetStatus url s]) st.

(** The loop of the pairing run, on [k] statuses that do not end it and a
    last status that does. *)
Lemma pairing_loop_ends (k fuel : nat) (s : string) :
  Forall nonterminal (answers E url n0 k) ->
  get_status E (n0 + k) url = s ->
  (k < fuel)%nat ->
  poll_loop E fuel base_url (ar_track_id resp) false None
    (after_request base_url desc st)
  = if bool_decide (s = "denied") then (Raised AuthorizationDenied, ended k s)
    else if bool_decide (s = "pending") then
      poll_loop E (fuel - S k) base_url (ar_track_id resp) true (Some s)
        (set_trace (trace (after_request base_url desc st)
                    ++ poll_events url false (answers E url n0 k)
                    ++ EGetStatus url s
                       :: (if flag_after false (answers E url n0 k) then []
                           else [EPrint confirm_message]) ++ [ESleep 1000]) st)
    else if bool_decide (s = "timeout") then (Raised AuthorizationTimedOut, ended k s)
    else poll_loop E (fuel - S k) base_url (ar_track_id resp)
           (flag_after false (answers E url n0 k)) (Some s) (ended k s).
Proof.
  intros Hpre Hs Hfuel.
  replace fuel with (k + S (fuel - S k))%nat at 1 by lia.
  rewrite poll_loop_prefix; rewrite ?count_status_after_request; try done.
  fold url n0.
  rewrite poll_loop_step.
  2: { intros Hg. unfold status_after in Hg.
       destruct (last (answers E url n0 k)) as [x|] eqn:Hl; [|done].
       injection Hg as ->. apply last_Some_elem_of in Hl.
       rewrite Forall_forall in Hpre. by destruct (Hpre _ Hl) as [? _]. }
  cbn zeta. rewrite !trace_set_trace.
  rewrite count_app, count_status_after_request, poll_events_count_status.
  fold n0 url. rewrite Hs. unfold ended, after_request.
  rewrite !set_trace_twice, !trace_set_trace, <- !app_assoc. reflexivity.
Qed.

(** A status that raises, after [k] statuses that do not end the loop. *)
Lemma pairing_run_fails (k fuel : nat) (s msg : string) :
  Forall nonterminal (answers E url n0 k) ->
  get_status E (n0 + k) url = s ->
  (s = "denied" /\ msg = denied_message) \/ (s = "timeout" /\ msg = timeout_message) ->
  (k < fuel)%nat ->
  exists st' evs,
    pairing_run E fuel base_url path desc st = (Raised (AuthorizationError msg), st')
    /\ files st' = files st
    /\ trace st' = (trace st ++ evs)%list
    /\ count is_write evs = 0%nat.
Proof.
  intros Hpre Hs Hmsg Hfuel.
  rewrite pairing_run_unfold. fold resp. rewrite Haccept. cbn [negb].
  rewrite (pairing_loop_ends k fuel s) by done.
  exists (ended k s),
    ([ELog WARNING "No valid authorization file found, requesting authorization.";
      EPostAuthorize (urljoin base_url "login/authorize/") desc]
     ++ poll_events url false (answers E url n0 k) ++ [EGetStatus url s])%list.
  split; [by destruct Hmsg as [[-> ->] | [-> ->]]|].
  split; [reflexivity|]. split.
  { unfold ended, after_request. rewrite !trace_set_trace. by rewrite <- !app_assoc. }
  rewrite !count_app, !count_cons, poll_events_count_write. reflexivity.
Qed.


(** The sequence pending, pending, granted. *)
Lemma pairing_run_pending_twice (fuel : nat) :
  get_status E n0 url = "pending" -> get_status E (S n0) url = "pending" ->
  get_status E (S (S n0)) url = "granted" -> (3 <= fuel)%nat ->
  exists st' evs,
    pairing_run E fuel base_url path desc st
      = (Done (ar_app_token resp, ar_track_id resp), st')
    /\ trace st' = (trace st ++ evs)%list
    /\ only is_print evs = [EPrint confirm_message]
    /\ only is_sleep evs = [ESleep 1000; ESleep 1000]
    /\ files st' !! path
       = Some (FJson (stored_record (ar_app_token resp) (ar_track_id resp) desc)).
Proof.
  intros H0 H1 H2 Hfuel.
  assert (Hans : answers E url n0 2 = ["pending"; "pending"]).
  { rewrite !answers_S. by rewrite H0, H1. }
  rewrite pairing_run_unfold. fold resp. rewrite Haccept. cbn [negb].
  rewrite (pairing_loop_ends 2 fuel "granted"); [| |by rewrite Nat.add_comm|lia].
  2: { rewrite Hans. repeat constructor; discriminate. }
  rewrite Hans. cbn [bool_decide decide_rel]. 
  rewrite !bool_decide_eq_false_2 by discriminate.
  rewrite poll_loop_granted.
  eexists _, _. split; [reflexivity|].
  unfold after_store, ended, after_request.
  rewrite !trace_set_trace, <- !app_assoc, Hans.
  split; [reflexivity|].
  split; [reflexivity|]. split; [reflexivity|].
  apply lookup_insert_eq.
Qed.

End Terminal.

Lemma poll_events_no_write (evs : list event) :
  forallb is_poll_event evs = true -> count is_write evs = 0%nat.
Proof.
  induction evs as [|e evs IH]; [done|]. simpl.
  intros [He Hq]%andb_true_iff. rewrite count_cons, IH by done.
  by destruct e.
Qed.

Section LastStatus.
Variable E : env.
Variables (base_url path : string) (desc : dict) (st : state) (fuel : nat).

Hypothesis Haccept :
  py_truthy (ar_success (post_authorize E (count is_authorize (trace st))
                           (urljoin base_url "login/authorize/") desc)) = true.

(** Whatever the fuel, a pairing run whose last status is [denied] or
    [timeout] has raised the error of that status and stored nothing. *)
Lemma pairing_run_last_status :
  exists evs,
    trace (pairing_run E fuel base_url path desc st).2 = (trace st ++ evs)%list
    /\ forall s e,
         (s = "denied" /\ e = AuthorizationDenied)
         \/ (s = "timeout" /\ e = AuthorizationTimedOut) ->
         last (statuses_of evs) = Some s ->
         (pairing_run E fuel base_url path desc st).1 = Raised e
         /\ files (pairing_run E fuel base_url path desc st).2 = files st
         /\ count is_write evs = 0%nat.
Proof.
  rewrite pairing_run_unfold, Haccept. cbn [negb].
  destruct (poll_loop_run E base_url
              (ar_track_id (post_authorize E (count is_authorize (trace st))
                              (urljoin base_url "login/authorize/") desc))
              fuel false None (after_request base_url desc st))
    as (evs & Hst & _ & Hev & Hout).
  destruct (poll_loop _ _ _ _ _ _ _) as [[[]|e|] st'] eqn:Hp;
    cbn [fst snd] in Hst, Hout; subst st'.
  - eexists ([_; _] ++ evs ++ [_; _; _])%list. split.
    { unfold after_store, after_request. cbn [snd].
      rewrite !trace_set_trace. by rewrite <- !app_assoc. }
    intros s e Hs. rewrite !statuses_of_app. simpl. rewrite app_nil_r.
    simpl in Hout. unfold status_after in Hout.
    destruct (last (statuses_of evs)) as [x|]; [|done].
    injection Hout as ->. intros [= <-].
    by destruct Hs as [[? _] | [? _]].
  - eexists ([_; _] ++ evs)%list. split.
    { unfold after_request. cbn [snd]. rewrite !trace_set_trace.
      by rewrite <- !app_assoc. }
    intros s e' Hs. rewrite statuses_of_app. simpl. intros Hl. cbn [fst snd].
    split; [|split; [done|]].
    + simpl in Hout. rewrite Hl in Hout.
      destruct Hout as [[[= ->] ->] | [[= ->] ->]];
        by destruct Hs as [[? ->] | [? ->]].
    + rewrite ?count_app, !count_cons, ?count_nil, poll_events_no_write by done. done.
  - eexists ([_; _] ++ evs)%list. split.
    { unfold after_request. cbn [snd]. rewrite !trace_set_trace.
      by rewrite <- !app_assoc. }
    intros s e' Hs. rewrite statuses_of_app. simpl. intros Hl.
    destruct Hout as [_ Hout]. destruct (Hout s Hl) as (_ & Hd & Ht).
    by destruct Hs as [[? _] | [? _]].
Qed.

End LastStatus.

(** C2: in a pairing run whose token request is accepted, the statuses
    pending, pending, granted give one prompt and two waits of one second,
    then success; any statuses that do not end the loop followed by
    [denied] raise [AuthorizationDenied], followed by [timeout] raise
    [AuthorizationTimedOut], and in both cases the file store is as before
    and no write is in the trace. Read on the trace, for any fuel: a run
    whose last status is [denied] or [timeout] has raised the error of that
    status and has written nothing. *)
Theorem pairing_terminal_states (E : env) (base_url path : string) (desc : dict)
    (st : state) :
  let resp := post_authorize E (count is_authorize (trace st))
                (urljoin base_url "login/authorize/") desc in
  let url := status_url base_url (ar_track_id resp) in
  let n0 := count is_status (trace st) in
  py_truthy (ar_success resp) = true ->
  (get_status E n0 url = "pending" -> get_status E (S n0) url = "pending" ->
   get_status E (S (S n0)) url = "granted" ->
   forall fuel, (3 <= fuel)%nat ->
   exists st' evs,
     pairing_run E fuel base_url path desc st
       = (Done (ar_app_token resp, ar_track_id resp), st')
     /\ trace st' = (trace st ++ evs)%list
     /\ only is_print evs = [EPrint confirm_message]
     /\ only is_sleep evs = [ESleep 1000; ESleep 1000]
     /\ files st' !! path
        = Some (FJson (stored_record (ar_app_token resp) (ar_track_id resp) desc)))
  /\ (forall k, Forall nonterminal (answers E url n0 k) ->
      get_status E (n0 + k) url = "denied" ->
      forall fuel, (k < fuel)%nat ->
      exists st' evs,
        pairing_run E fuel base_url path desc st = (Raised AuthorizationDenied, st')
        /\ files st' = files st
        /\ trace st' = (trace st ++ evs)%list
        /\ count is_write evs = 0%nat)
  /\ (forall k, Forall nonterminal (answers E url n0 k) ->
      get_status E (n0 + k) url = "timeout" ->
      forall fuel, (k < fuel)%nat ->
      exists st' evs,
        pairing_run E fuel base_url path desc st = (Raised AuthorizationTimedOut, st')
        /\ files st' = files st
        /\ trace st' = (trace st ++ evs)%list
        /\ count is_write evs = 0%nat)
  /\ (forall fuel,
      exists evs,
        trace (pairing_run E fuel base_url path desc st).2 = (trace st ++ evs)%list
        /\ forall s e,
             (s = "denied" /\ e = AuthorizationDenied)
             \/ (s = "timeout" /\ e = AuthorizationTimedOut) ->
             last (statuses_of evs) = Some s ->
             (pairing_run E fuel base_url path desc st).1 = Raised e
             /\ files (pairing_run E fuel base_url path desc st).2 = files st
             /\ count is_write evs = 0%nat)
  /\ AuthorizationDenied <> AuthorizationTimedOut.
Proof.
  intros resp url n0 Haccept. split; [|split; [|split; [|split]]].
  - intros H0 H1 H2 fuel Hfuel. by apply pairing_run_pending_twice.
  - intros k Hpre Hs fuel Hfuel.
    apply (pairing_run_fails E base_url path desc st Haccept k fuel "denied"); auto.
  - intros k Hpre Hs fuel Hfuel.
    apply (pairing_run_fails E base_url path desc st Haccept k fuel "timeout"); auto.
  - intros fuel. by apply pairing_run_last_status.
  - discriminate.
Qed.

Lemma pairing_terminal_states_witness :
  (exists st' evs,
     pairing_run (scripted ["pending"; "pending"; "granted"]) 3
       sample_base_url "app_auth" sample_desc fresh = (Done (VStr "tok", VInt 7), st')
     /\ trace st' = (trace fresh ++ evs)%list
     /\ only is_print evs = [EPrint confirm_message]
     /\ only is_sleep evs = [ESleep 1000; ESleep 1000]
     /\ files st' !! "app_auth"
        = Some (FJson (stored_record (VStr "tok") (VInt 7) sample_desc)))
  /\ (exists st' evs,
        pairing_run (scripted ["pending"; "denied"]) 2
          sample_base_url "app_auth" sample_desc fresh = (Raised AuthorizationDenied, st')
        /\ files st' = files fresh
        /\ trace st' = (trace fresh ++ evs)%list
        /\ count is_write evs = 0%nat)
  /\ (exists st' evs,
        pairing_run (scripted ["unknown"; "timeout"]) 2
          sample_base_url "app_auth" sample_desc fresh = (Raised AuthorizationTimedOut, st')
        /\ files st' = files fresh
        /\ trace st' = (trace fresh ++ evs)%list
        /\ count is_write evs = 0%nat).
Proof.
  split; [|split].
  - apply (proj1 (pairing_terminal_states (scripted ["pending"; "pending"; "granted"])
                    sample_base_url "app_auth" sample_desc fresh eq_refl));
      first [reflexivity | lia].
  - apply (proj1 (proj2 (pairing_terminal_states (scripted ["pending"; "denied"])
                    sample_base_url "app_auth" sample_desc fresh eq_refl)) 1%nat);
      first [reflexivity | lia | repeat constructor; discriminate].
  - apply (proj1 (proj2 (proj2 (pairing_terminal_states (scripted ["unknown"; "timeout"])
                    sample_base_url "app_auth" sample_desc fresh eq_refl))) 1%nat);
      first [reflexivity | lia | repeat constructor; discriminate].
Defined.

(** ** Statuses that the loop does not name *)

Lemma poll_events_unnamed (url : string) (flag : bool) (l : list string) :
  Forall (fun s => s <> "pending") l ->
  poll_events url flag l = map (EGetStatus url) l.
Proof.
  induction 1 as [|s l Hs _ IH]; [done|]. simpl.
  unfold is_pending. rewrite bool_decide_eq_false_2 by done. by rewrite IH.
Qed.

Lemma last_replicate_S {A} (n : nat) (x : A) : last (replicate (S n) x) = Some x.
Proof. induction n as [|n IH]; [done|]. by rewrite replicate_S, last_cons, IH. Qed.

Lemma answers_unknown (url : string) (n0 k : nat) :
  answers (scripted []) url n0 k = replicate k "unknown".
Proof.
  revert n0. induction k as [|k IH]; intros n0; [done|].
  rewrite answers_S, IH. simpl. by destruct n0.
Qed.

(** C3, on the code: an appliance that answers [unknown] to every status
    request keeps the loop polling, whatever the fuel: after [fuel] turns it
    has made [fuel] requests, with no wait, and has not ended. The claim has
    the loop stop at such a status. *)
Theorem unknown_status_polls_forever (base_url : string) (track_id : pyval)
    (st : state) (fuel : nat) :
  poll_loop (scripted []) fuel base_url track_id false None st
  = (Unfinished,
     set_trace (trace st ++ replicate fuel
                  (EGetStatus (status_url base_url track_id) "unknown")) st).
Proof.
  replace fuel with (fuel + 0)%nat at 1 by lia.
  rewrite poll_loop_prefix; [|done|].
  - rewrite answers_unknown.
    rewrite poll_loop_no_fuel.
    + rewrite poll_events_unnamed.
      * f_equal. f_equal. f_equal. clear. induction fuel; [done|]. simpl. by f_equal.
      * clear. induction fuel; by constructor.
    + unfold status_after. destruct fuel as [|n]; [done|].
      by rewrite last_replicate_S.
  - rewrite answers_unknown. clear. induction fuel; by constructor.
Qed.

Section Unnamed.
Variable E : env.
Variables (base_url : string) (track_id : pyval).

Let url := status_url base_url track_id.

(** After a status that the loop does not name, the next turn starts in a
    state that has the request as its only new event. *)
Lemma poll_loop_unnamed (fuel : nat) (flag : bool) (status : option string)
    (st : state) :
  status <> Some "granted" ->
  unnamed_status (get_status E (count is_status (trace st)) url) ->
  poll_loop E (S fuel) base_url track_id flag status st
  = poll_loop E fuel base_url track_id flag
      (Some (get_status E (count is_status (trace st)) url))
      (set_trace (trace st ++ [EGetStatus url
                     (get_status E (count is_status (trace st)) url)]) st).
Proof.
  intros Hs (Hp & Hg & Hd & Ht). rewrite poll_loop_step by done. cbn zeta.
  fold url. by rewrite !bool_decide_eq_false_2 by done.
Qed.

(** And that next turn starts with its request: the two requests follow
    each other in the trace. *)
Lemma poll_loop_unnamed_next (fuel : nat) (flag : bool) (status : option string)
    (st : state) :
  status <> Some "granted" ->
  unnamed_status (get_status E (count is_status (trace st)) url) ->
  exists evs,
    (poll_loop E (S (S fuel)) base_url track_id flag status st).2
    = set_trace (trace st
                 ++ EGetStatus url (get_status E (count is_status (trace st)) url)
                 :: EGetStatus url (get_status E (S (count is_status (trace st))) url)
                 :: evs) st.
Proof.
  intros Hs Hu. rewrite poll_loop_unnamed by done.
  set (s := get_status E (count is_status (trace st)) url) in *.
  set (st1 := set_trace (trace st ++ [EGetStatus url s]) st).
  assert (Hc : count is_status (trace st1) = S (count is_status (trace st))).
  { subst st1. rewrite trace_set_trace, count_app, count_cons, count_nil. simpl. lia. }
  assert (Hs1 : Some s <> Some "granted").
  { intros [= Heq]. destruct Hu as (_ & Hg & _). by rewrite Heq in Hg. }
  rewrite poll_loop_step by done. cbn zeta. rewrite Hc. fold url.
  set (s' := get_status E (S (count is_status (trace st))) url).
  assert (Htr : forall l, (trace st1 ++ l = trace st ++ EGetStatus url s :: l)%list).
  { intros l. subst st1. rewrite trace_set_trace, <- app_assoc. done. }
  repeat case_bool_decide.
  - exists []. simpl. subst st1. by rewrite Htr, set_trace_twice.
  - destruct (poll_loop_run E base_url track_id fuel true (Some s')
      (set_trace (trace st1 ++ EGetStatus url s'
                    :: (if flag then [] else [EPrint confirm_message])
                    ++ [ESleep 1000]) st1)) as (evs & -> & _).
    eexists. rewrite trace_set_trace, Htr. subst st1.
    rewrite !set_trace_twice. f_equal. rewrite <- !app_assoc. simpl.
    by rewrite <- !app_assoc.
  - exists []. simpl. subst st1. by rewrite Htr, set_trace_twice.
  - destruct (poll_loop_run E base_url track_id fuel flag (Some s')
      (set_trace (trace st1 ++ [EGetStatus url s']) st1)) as (evs & -> & _).
    exists evs. rewrite trace_set_trace, Htr. subst st1.
    rewrite !set_trace_twice. f_equal. rewrite <- !app_assoc. done.
Qed.

End Unnamed.

(** C9: the loop waits only after a request answered [pending]. After a
    status other than [pending], [granted], [denied] and [timeout] it goes on
    from a state whose only new event is the request; with fuel for one more
    turn the next request follows it directly in the trace; and the events of
    every run are [well_paced]: the wait of one second comes after a
    [pending] answer and its prompt, any other request is followed at once by
    the next request or by nothing. *)
Theorem wait_only_when_pending (E : env) (base_url : string) (track_id : pyval) :
  let url := status_url base_url track_id in
  (forall fuel flag status st,
     status <> Some "granted" ->
     unnamed_status (get_status E (count is_status (trace st)) url) ->
     poll_loop E (S fuel) base_url track_id flag status st
     = poll_loop E fuel base_url track_id flag
         (Some (get_status E (count is_status (trace st)) url))
         (set_trace (trace st ++ [EGetStatus url
                        (get_status E (count is_status (trace st)) url)]) st))
  /\ (forall fuel flag status st,
        status <> Some "granted" ->
        unnamed_status (get_status E (count is_status (trace st)) url) ->
        exists evs,
          (poll_loop E (S (S fuel)) base_url track_id flag status st).2
          = set_trace (trace st
                ++ EGetStatus url (get_status E (count is_status (trace st)) url)
                :: EGetStatus url (get_status E (S (count is_status (trace st))) url)
                :: evs) st)
  /\ (forall fuel flag status st,
        exists evs,
          (poll_loop E fuel base_url track_id flag status st).2
            = set_trace (trace st ++ evs) st
          /\ well_paced evs = true
          /\ forallb is_poll_event evs = true).
Proof.
  intros url. split; [|split].
  - intros. by apply poll_loop_unnamed.
  - intros. by apply poll_loop_unnamed_next.
  - intros fuel flag status st.
    destruct (poll_loop_run E base_url track_id fuel flag status st)
      as (evs & H1 & H2 & H3 & _).
    by exists evs.
Qed.

Lemma wait_only_when_pending_witness :
  poll_loop (scripted ["unknown"; "granted"]) 2 sample_base_url (VInt 7) false None fresh
  = poll_loop (scripted ["unknown"; "granted"]) 1 sample_base_url (VInt 7) false
      (Some "unknown")
      (set_trace [EGetStatus (status_url sample_base_url (VInt 7)) "unknown"] fresh)
  /\ exists evs,
       (poll_loop (scripted ["unknown"; "granted"]) 2 sample_base_url (VInt 7)
          false None fresh).2
       = set_trace (EGetStatus (status_url sample_base_url (VInt 7)) "unknown"
                    :: EGetStatus (status_url sample_base_url (VInt 7)) "granted"
                    :: evs) fresh.
Proof.
  split.
  - apply (proj1 (wait_only_when_pending (scripted ["unknown"; "granted"])
                    sample_base_url (VInt 7)) 1%nat false None fresh).
    + discriminate.
    + repeat split; discriminate.
  - apply (proj1 (proj2 (wait_only_when_pending (scripted ["unknown"; "granted"])
                    sample_base_url (VInt 7))) 0%nat false None fresh).
    + discriminate.
    + repeat split; discriminate.
Defined.

(** ** Discovery and negotiation leave the credentials alone *)

Lemma untouched_refl (st : state) : untouched st st.
Proof. repeat split. exists []. by rewrite app_nil_r. Qed.

Lemma untouched_trans (st1 st2 st3 : state) :
  untouched st1 st2 -> untouched st2 st3 -> untouched st1 st3.
Proof.
  intros (Hf & Hd & Ht & Ha & evs & Hev & Hq) (Hf' & Hd' & Ht' & Ha' & evs' & Hev' & Hq').
  repeat split; try congruence.
  exists (evs ++ evs')%list. split.
  - by rewrite Hev', Hev, app_assoc.
  - by rewrite forallb_app, Hq, Hq'.
Qed.

Lemma discreet_ret {A} (a : A) : discreet (mret a).
Proof. intros st. apply untouched_refl. Qed.

Lemma discreet_raise {A} (e : exn) : discreet (@raise A e).
Proof. intros st. apply untouched_refl. Qed.

Lemma discreet_unfinished {A} : discreet (@unfinished A).
Proof. intros st. apply untouched_refl. Qed.

Lemma discreet_get : discreet get.
Proof. intros st. apply untouched_refl. Qed.

Lemma discreet_bind {A B} (c : M A) (f : A -> M B) :
  discreet c -> (forall a, discreet (f a)) -> discreet (c ≫= f).
Proof.
  intros Hc Hf st. unfold mbind, M_bind. specialize (Hc st).
  destruct (c st) as [[a|e|] st']; simpl in *; try done.
  eapply untouched_trans; [done|]. apply Hf.
Qed.

Lemma discreet_try_except {A} (c : M A) (handled : exn -> bool) (h : exn -> M A) :
  discreet c -> (forall e, discreet (h e)) -> discreet (try_except c handled h).
Proof.
  intros Hc Hh st. unfold try_except. specialize (Hc st).
  destruct (c st) as [[a|e|] st']; simpl in *; try done.
  destruct (handled e); [|done].
  eapply untouched_trans; [done|]. apply Hh.
Qed.

Lemma discreet_emit (e : event) : quiet e = true -> discreet (emit e).
Proof.
  intros Hq st. repeat split. exists [e]. split; [done|]. simpl. by rewrite Hq.
Qed.

Lemma discreet_set_fbx_desc (d : option dict) : discreet (modify (set_fbx_desc d)).
Proof. intros st. repeat split. exists []. simpl. by rewrite app_nil_r. Qed.

Lemma discreet_set_session (s : option session) : discreet (modify (set_session s)).
Proof. intros st. repeat split. exists []. simpl. by rewrite app_nil_r. Qed.

Lemma discreet_set_api_version (v : string) : discreet (modify (set_api_version v)).
Proof. intros st. repeat split. exists []. simpl. by rewrite app_nil_r. Qed.

Lemma discreet_set_fbx_url (u : string) : discreet (modify (set_fbx_url u)).
Proof. intros st. repeat split. exists []. simpl. by rewrite app_nil_r. Qed.

Ltac discreet_step :=
  first
    [ assumption
    | match goal with
      | H : forall _, discreet _ |- _ => apply H
      | H : forall _ _, discreet _ |- _ => apply H
      | H : forall _ _ _, discreet _ |- _ => apply H
      end
    | apply discreet_ret | apply discreet_raise | apply discreet_get
    | apply discreet_unfinished
    | apply discreet_set_fbx_desc | apply discreet_set_session
    | apply discreet_set_api_version | apply discreet_set_fbx_url
    | apply discreet_emit; reflexivity
    | match goal with
      | |- discreet (match ?x with _ => _ end) => destruct x
      | |- discreet (let '(_, _) := ?x in _) => destruct x
      end
    | progress cbv zeta
    | apply discreet_bind; [|intros ?]
    | apply discreet_try_except; [|intros ?] ].

Lemma discreet_py_int (v : pyval) : discreet (py_int v).
Proof. unfold py_int. repeat discreet_step. Qed.

Lemma discreet_getitem (d : dict) (k : string) : discreet (getitem d k).
Proof. unfold getitem. repeat discreet_step. Qed.

Lemma discreet_close_to_return : discreet _disc_close_to_return.
Proof. unfold _disc_close_to_return, session_close, sleep. repeat discreet_step. Qed.

Ltac discreet_tac :=
  repeat first
    [ apply discreet_py_int | apply discreet_getitem
    | apply discreet_close_to_return | discreet_step ].

Section Discreet.
Variable E : env.

Lemma discreet_connect (host port : pyval) (s : string) :
  discreet (_disc_connect E host port s).
Proof. unfold _disc_connect, socket_connect_ex. discreet_tac. Qed.

Lemma discreet_check_session (rec : pyval -> pyval -> M found)
    (host port : pyval) (s : string) :
  (forall h p, discreet (rec h p)) ->
  discreet (_disc_check_session rec host port s).
Proof. intros Hrec. unfold _disc_check_session. discreet_tac. Qed.

Lemma discreet_get_api_version (host port : pyval) (s : string) :
  discreet (session_get_api_version E host port s).
Proof. unfold session_get_api_version. discreet_tac. Qed.

Lemma discreet_discover_rec (fuel : nat) :
  forall host port, discreet (discover_rec E fuel host port).
Proof.
  induction fuel as [|fuel IH]; intros host port; simpl; [apply discreet_unfinished|].
  destruct (is_ipv6 E host).
  { unfold log. discreet_tac. }
  destruct (_disc_set_host_and_port host port) as [[h p] s].
  apply discreet_bind.
  { apply discreet_try_except.
    - apply discreet_bind; [by apply discreet_check_session|intros ?; apply discreet_ret].
    - intros e. discreet_tac. }
  intros r. pose proof discreet_connect. pose proof discreet_get_api_version.
  discreet_tac.
Qed.

Lemma discreet_discover (host port : pyval) : discreet (discover E host port).
Proof. apply discreet_discover_rec. Qed.

Lemma discreet_get_base_url (host port : pyval) (v : option string) :
  discreet (_get_base_url host port v).
Proof. unfold _get_base_url. discreet_tac. Qed.

Lemma discreet_check_api_version : discreet _check_api_version.
Proof. unfold _check_api_version, log. discreet_tac. Qed.

Lemma discreet_open_setup (host port : pyval) : discreet (_open_setup E host port).
Proof. unfold _open_setup. discreet_tac. Qed.

Lemma discreet_discover_or_raise (host port : pyval) :
  discreet (discover_or_raise E host port).
Proof.
  unfold discover_or_raise. apply discreet_bind; [apply discreet_discover|].
  intros r. discreet_tac.
Qed.

Lemma discreet_open_init (host port : pyval) : discreet (_open_init E host port).
Proof.
  unfold _open_init, not_open.
  pose proof discreet_discover_or_raise. pose proof discreet_open_setup.
  pose proof discreet_check_api_version. pose proof discreet_get_base_url.
  discreet_tac.
Qed.

End Discreet.

(** ** Discovery failures in [open] *)

Section OpenInit.
Variable E : env.
Variables (host port : pyval) (st : state).










End OpenInit.




(** ** Probing twice *)

Lemma falsy_not_http_port (port : pyval) :
  py_truthy port = false -> py_eqb port (VStr _DEFAULT_HTTP_PORT) = false.
Proof.
  destruct port as [|b|z|s]; try done. simpl. intros H.
  apply negb_false_iff, bool_decide_eq_true_1 in H. by subst.
Qed.

Lemma set_host_and_port_idem (host port h p : pyval) (s : string) :
  _disc_set_host_and_port host port = (h, p, s) ->
  _disc_set_host_and_port h p = (h, p, s).
Proof.
  unfold _disc_set_host_and_port. simpl.
  destruct (py_truthy host) eqn:Hh, (py_truthy port) eqn:Hp; simpl;
    intros [= <- <- <-]; simpl; rewrite ?Hh, ?Hp; simpl; try done.
  by rewrite falsy_not_http_port.
Qed.

Section Probe.
Variable E : env.


Lemma close_to_return_closed (st : state) :
  exists st', _disc_close_to_return st = (Done FNone, st') /\ no_open_session st'.
Proof.
  unfold _disc_close_to_return, session_close, sleep, no_open_session. munfold. simpl.
  destruct (bool_decide _); simpl; destruct (_session st) as [[[] ?]|] eqn:Hs; simpl;
    eexists; (split; [reflexivity|]); simpl; by rewrite ?Hs.
Qed.

Lemma close_to_return_none (st : state) :
  exists st', _disc_close_to_return st = (Done FNone, st').
Proof. destruct (close_to_return_closed st) as (st' & H & _). eauto. Qed.

Lemma py_int_state (v : pyval) (st st' : state) (r : outcome Z) :
  py_int v st = (r, st') -> st' = st /\ forall st2, py_int v st2 = (r, st2).
Proof.
  destruct v as [|b|z|s]; simpl; munfold; try (intros [= <- <-]; done).
  destruct (int_of_str s); intros [= <- <-]; done.
Qed.


Lemma check_session_closed (rec : pyval -> pyval -> M found) (h p : pyval)
    (s : string) (st : state) :
  no_open_session st ->
  _disc_check_session rec h p s st = (Done (h, p, s), st).
Proof.
  unfold no_open_session. intros Hs. unfold _disc_check_session. munfold.
  destruct (fbx_desc st); [|done].
  destruct (_session st) as [ses|]; [|done].
  rewrite Hs. by rewrite andb_false_r.
Qed.




Lemma py_int_value_error (v : pyval) (x : found) (st st' : state) :
  py_int v st = (Raised (ValueError (Some x)), st') -> exists t, x = FText t.
Proof.
  destruct v as [|b|z|s]; simpl; munfold; try done.
  destruct (int_of_str s); [done|]. intros [= <- _]. eauto.
Qed.

Lemma connect_value_error (h p : pyval) (s : string) (x : found) (st st' : state) :
  _disc_connect E h p s st = (Raised (ValueError (Some x)), st') ->
  exists t, x = FText t.
Proof.
  unfold _disc_connect. unfold mbind at 1. unfold M_bind.
  destruct (py_int p st) as [[pn|e|] st0] eqn:Hpi; try done.
  - unfold socket_connect_ex. munfold. destruct h as [| | |hs]; try done. simpl.
    destruct (connect_ex E _ _ _) as [code| | |]; try done. simpl.
    destruct (negb _); [|done].
    by destruct (close_to_return_none (set_trace (trace st0 ++ [ESocket (VStr hs) pn]) st0))
      as [? ->].
  - intros [= -> _]. by apply py_int_value_error in Hpi.
Qed.

Lemma get_api_version_value_error (h p : pyval) (s : string) (x : found)
    (st st' : state) :
  session_get_api_version E h p s st = (Raised (ValueError (Some x)), st') ->
  exists t, x = FText t.
Proof.
  unfold session_get_api_version. munfold.
  destruct (_session st); [|done].
  destruct (url_port p); [|intros [= <- _]; eauto]. simpl.
  by destruct (get_api_version E _ _).
Qed.






End Probe.

(** ** [discover] returns or raises *)

Lemma finishes_ret {A} (a : A) : finishes (mret a).
Proof. by intros st. Qed.

Lemma finishes_raise {A} (e : exn) : finishes (@raise A e).
Proof. by intros st. Qed.

Lemma finishes_get : finishes get.
Proof. by intros st. Qed.

Lemma finishes_modify (f : state -> state) : finishes (modify f).
Proof. by intros st. Qed.

Lemma finishes_emit (e : event) : finishes (emit e).
Proof. by intros st. Qed.

Lemma finishes_bind {A B} (c : M A) (f : A -> M B) :
  finishes c -> (forall a, finishes (f a)) -> finishes (c ≫= f).
Proof.
  intros Hc Hf st. unfold mbind, M_bind. specialize (Hc st).
  destruct (c st) as [[a|e|] st']; simpl in *; try done. apply Hf.
Qed.

Lemma bind_cong_l {A B} (c1 c2 : M A) (f : A -> M B) (st : state) :
  c1 st = c2 st -> (c1 ≫= f) st = (c2 ≫= f) st.
Proof. intros H. unfold mbind, M_bind. by rewrite H. Qed.

Lemma bind_finishes_at {A B} (c : M A) (f : A -> M B) (st : state) :
  (c st).1 <> Unfinished -> (forall a, finishes (f a)) ->
  ((c ≫= f) st).1 <> Unfinished.
Proof.
  intros Hc Hf. unfold mbind, M_bind.
  destruct (c st) as [[a|e|] st']; simpl in *; try done. apply Hf.
Qed.

Ltac finishes_step :=
  first
    [ assumption
    | match goal with
      | H : forall _ _ _, finishes _ |- _ => apply H
      end
    | apply finishes_ret | apply finishes_raise | apply finishes_get
    | apply finishes_modify | apply finishes_emit
    | match goal with
      | |- finishes (match ?x with _ => _ end) => destruct x
      | |- finishes (let '(_, _) := ?x in _) => destruct x
      end
    | progress cbv zeta
    | apply finishes_bind; [|intros ?] ].

Lemma finishes_py_int (v : pyval) : finishes (py_int v).
Proof. unfold py_int. repeat finishes_step. Qed.

Lemma finishes_getitem (d : dict) (k : string) : finishes (getitem d k).
Proof. unfold getitem. repeat finishes_step. Qed.

Lemma finishes_close_to_return : finishes _disc_close_to_return.
Proof. unfold _disc_close_to_return, session_close, sleep. repeat finishes_step. Qed.

Ltac finishes_tac :=
  repeat first
    [ apply finishes_py_int | apply finishes_getitem
    | apply finishes_close_to_return | finishes_step ].

Section Total.
Variable E : env.

Lemma finishes_connect (host port : pyval) (s : string) :
  finishes (_disc_connect E host port s).
Proof. unfold _disc_connect, socket_connect_ex. finishes_tac. Qed.

Lemma finishes_get_api_version (host port : pyval) (s : string) :
  finishes (session_get_api_version E host port s).
Proof. unfold session_get_api_version. finishes_tac. Qed.

(** With the session closed, the probe does not call itself. *)
Lemma discover_rec_closed (n : nat) (host port : pyval) (st : state) :
  no_open_session st ->
  discover_rec E (S n) host port st = discover_rec E 1 host port st
  /\ (discover_rec E 1 host port st).1 <> Unfinished.
Proof.
  intros Hno. cbn [discover_rec].
  destruct (is_ipv6 E host).
  { split; [done|]. unfold log. revert st Hno. 
    assert (H : finishes (emit (ELog ERROR (py_str host +:+ " : IPv6 is not supported"));;
                          _disc_close_to_return)) by finishes_tac.
    intros st _. apply H. }
  destruct (_disc_set_host_and_port host port) as [[h p] s].
  assert (Hc : forall rec,
    try_except (t ← _disc_check_session rec h p s; mret (inr t))
      is_ValueError
      (fun e => match e with
                | ValueError (Some v) => mret (inl v)
                | _ => raise IndexError
                end) st
    = (Done (@inr found _ (h, p, s)), st)).
  { intros m. unfold try_except, mbind, M_bind.
    by rewrite check_session_closed. }
  rewrite !(bind_done _ _ _ _ _ (Hc _)). split; [done|].
  pose proof finishes_connect. pose proof finishes_get_api_version.
  match goal with
  | |- (?c st).1 <> Unfinished => assert (Hf : finishes c) by finishes_tac
  end.
  apply Hf.
Qed.

(** [_disc_check_session] calls the probe on a closed session only. *)
Lemma check_session_rec (rec1 rec2 : pyval -> pyval -> M found) (h p : pyval)
    (s : string) (st : state) :
  (forall st0, no_open_session st0 ->
     rec1 h p st0 = rec2 h p st0 /\ (rec2 h p st0).1 <> Unfinished) ->
  _disc_check_session rec1 h p s st = _disc_check_session rec2 h p s st
  /\ (_disc_check_session rec2 h p s st).1 <> Unfinished.
Proof.
  intros Hrec. unfold _disc_check_session. cbv zeta.
  set (a1 := _disc_close_to_return
             ≫= λ _ : found, rec1 h p
             ≫= λ r : found, @raise (pyval * pyval * string) (ValueError (Some r))).
  set (a2 := _disc_close_to_return
             ≫= λ _ : found, rec2 h p
             ≫= λ r : found, @raise (pyval * pyval * string) (ValueError (Some r))).
  assert (Ha : a1 st = a2 st /\ (a2 st).1 <> Unfinished).
  { subst a1 a2. destruct (close_to_return_closed st) as (st0 & Hc & Hno).
    rewrite !(bind_done _ _ _ _ _ Hc).
    destruct (Hrec st0 Hno) as [Heq Hfin].
    unfold mbind, M_bind. rewrite Heq. split; [done|].
    by destruct (rec2 h p st0) as [[r|e|] st']. }
  clearbody a1 a2. destruct Ha as [Ha Hfin].
  unfold mbind, M_bind, get.
  destruct (fbx_desc st); [|done].
  destruct (_session st) as [ses|]; [|done].
  destruct (negb _ && negb _); [|done].
  destruct (conns ses) as [|c rest]; [done|].
  destruct (py_eqb _ _); [|done].
  destruct (py_int p st) as [[pn|e|] st'] eqn:Hpi; try done.
  - apply py_int_state in Hpi as [-> _]. by destruct (_ && _).
  - pose proof (finishes_py_int p st) as Hf. by rewrite Hpi in Hf.
Qed.

(** X9: [discover] always returns or raises: its call back through
    [_disc_check_session] happens on a closed session and does not call
    back again, so that a probe nests at most once. More fuel than
    [discover] has does not change a probe, and a probe never runs out
    of it. *)
Lemma discover_total (n : nat) (host port : pyval) (st : state) :
  discover_rec E (S (S n)) host port st = discover E host port st
  /\ (discover E host port st).1 <> Unfinished.
Proof.
  unfold discover. change 2%nat with (S 1).
  remember (S n) as m eqn:Hm. remember 1%nat as one eqn:Hone.
  cbn [discover_rec].
  destruct (is_ipv6 E host).
  { split; [done|]. unfold log.
    assert (H : finishes (emit (ELog ERROR (py_str host +:+ " : IPv6 is not supported"));;
                          _disc_close_to_return)) by finishes_tac.
    apply H. }
  destruct (_disc_set_host_and_port host port) as [[h p] s].
  destruct (check_session_rec (discover_rec E m) (discover_rec E one) h p s st)
    as [Heq Hfin].
  { subst m one. intros st0 Hno. by apply discover_rec_closed. }
  assert (Htry : forall rec,
    try_except (t ← _disc_check_session rec h p s; mret (inr t))
      is_ValueError
      (fun e => match e with
                | ValueError (Some v) => mret (@inl found (pyval * pyval * string) v)
                | _ => raise IndexError
                end) st
    = match _disc_check_session rec h p s st with
      | (Done t, st') => (Done (inr t), st')
      | (Raised (ValueError (Some v)), st') => (Done (inl v), st')
      | (Raised (ValueError None), st') => (Raised IndexError, st')
      | (Raised e, st') => (Raised e, st')
      | (Unfinished, st') => (Unfinished, st')
      end).
  { intros rec. unfold try_except, mbind, M_bind.
    destruct (_disc_check_session rec h p s st) as [[t|e|] st']; try done.
    by destruct e as [| | | |[v|]| | | | | | | |]. }
  split.
  - apply bind_cong_l. by rewrite !Htry, Heq.
  - apply bind_finishes_at.
    + rewrite Htry.
      destruct (_disc_check_session (discover_rec E one) h p s st) as [[t|e|] st'];
        [done| |done].
      by destruct e as [| | | |[v|]| | | | | | | |].
    + intros a. pose proof finishes_connect. pose proof finishes_get_api_version.
      finishes_tac.
Qed.

End Total.

Lemma init_no_stale_session (desc : dict) (tfile version : string)
    (fs : gmap string file) :
  no_stale_session (init desc tfile version fs).
Proof. exact I. Qed.

Lemma settled_no_stale_session (h p : pyval) (s : string) (d : dict) (st : state) :
  settled h p s d st -> no_stale_session st.
Proof.
  intros (Hd & Hne & k & rest & Hses & _). unfold no_stale_session.
  rewrite Hses. eauto.
Qed.

(** ** Access with a stored credential *)

Lemma quiet_counts (evs : list event) :
  forallb quiet evs = true ->
  count is_authorize evs = 0%nat /\ count is_status evs = 0%nat
  /\ count is_write evs = 0%nat.
Proof.
  induction evs as [|e evs IH]; [done|]. simpl.
  intros [He Hq]%andb_true_iff. destruct (IH Hq) as (H1 & H2 & H3).
  rewrite !count_cons, H1, H2, H3. unfold quiet in He.
  apply negb_true_iff in He.
  destruct (is_authorize e), (is_status e), (is_write e); done.
Qed.

Lemma get_base_url_state (host port : pyval) (v : option string) (st st' : state)
    (r : outcome string) :
  _get_base_url host port v st = (r, st') -> st' = st.
Proof.
  unfold _get_base_url. munfold.
  destruct (_session st) as [ses|]; [|by intros [= _ <-]].
  destruct (conns ses); [by intros [= _ <-]|].
  destruct v; [|by intros [= _ <-]].
  destruct (fbx_desc st) as [d|]; [|by intros [= _ <-]].
  destruct (d !! "api_base_url"); by intros [= _ <-].
Qed.

Section Access.
Variable E : env.
Variables (fuel : nat) (host port : pyval) (version path : string) (desc : dict).

(** [_get_app_access] when the base URL is built and the file holds a
    record with a token and a track id. *)
Lemma get_app_access_unfold (st : state) (base : string) (cred : dict)
    (tok tid : pyval) :
  _get_base_url host port (Some version) st = (Done base, st) ->
  files st !! path = Some (FJson cred) ->
  cred !! "app_token" = Some tok -> cred !! "track_id" = Some tid ->
  _get_app_access E fuel host port version path desc st =
  let st0 := set_trace (trace st ++ [ELog DEBUG reading_message]) st in
  if bool_decide (tok = VNone) || negb (dict_eqb (fingerprint cred) desc) then
    match pairing_run E fuel base path desc st0 with
    | (Done (tok', _), st') =>
        match desc !! "app_id" with
        | Some app_id => (Done (Access base tok' app_id), st')
        | None => (Raised (KeyError "app_id"), st')
        end
    | (Raised e, st') => (Raised e, st')
    | (Unfinished, st') => (Unfinished, st')
    end
  else
    match desc !! "app_id" with
    | Some app_id => (Done (Access base tok app_id), st0)
    | None => (Raised (KeyError "app_id"), st0)
    end.
Proof.
  intros Hb Hf Ht Hi. unfold _get_app_access.
  unfold mbind at 1. unfold M_bind. rewrite Hb.
  unfold mbind at 1. unfold M_bind, log, emit, modify.
  unfold mbind at 1. unfold M_bind.
  unfold _readfile_app_token. munfold. simpl. rewrite Hf. simpl.
  rewrite Ht, Hi. simpl. fold (fingerprint cred).
  destruct (bool_decide (tok = VNone) || _); simpl.
  - destruct (pairing_run _ _ _ _ _ _) as [[[tok' tid']|e|] st']; try done.
    by destruct (desc !! "app_id").
  - by destruct (desc !! "app_id").
Qed.

(** The trace of a pairing run starts with the warning and the token
    request, whatever follows. *)
Lemma pairing_run_trace (base : string) (st : state) :
  exists evs,
    trace (pairing_run E fuel base path desc st).2
    = (trace st ++ [ELog WARNING
                     "No valid authorization file found, requesting authorization.";
                   EPostAuthorize (urljoin base "login/authorize/") desc] ++ evs)%list.
Proof.
  rewrite pairing_run_unfold.
  destruct (negb _).
  { exists []. by rewrite app_nil_r. }
  destruct (poll_loop_run E base
              (ar_track_id (post_authorize E (count is_authorize (trace st))
                              (urljoin base "login/authorize/") desc))
              fuel false None (after_request base desc st)) as (evs & Hst & _).
  destruct (poll_loop _ _ _ _ _ _ _) as [[[]|e|] st'] eqn:Hp; simpl in Hst; subst st'.
  - eexists (evs ++ [_; _; _])%list. unfold after_store, after_request. cbn [snd].
    rewrite !trace_set_trace. simpl. by rewrite <- !app_assoc.
  - exists evs. unfold after_request. cbn [snd].
    rewrite !trace_set_trace. by rewrite <- !app_assoc.
  - exists evs. unfold after_request. cbn [snd].
    rewrite !trace_set_trace. by rewrite <- !app_assoc.
Qed.

(** [_get_app_access] when it does not reach the test of the token. *)
Lemma get_app_access_stops (st : state) :
  (forall e, _get_base_url host port (Some version) st = (Raised e, st) ->
     _get_app_access E fuel host port version path desc st = (Raised e, st))
  /\ (_get_base_url host port (Some version) st = (Unfinished, st) ->
      _get_app_access E fuel host port version path desc st = (Unfinished, st))
  /\ (forall base,
        _get_base_url host port (Some version) st = (Done base, st) ->
        match files st !! path with
        | Some FGarbage =>
            _get_app_access E fuel host port version path desc st
            = (Raised JSONDecodeError,
               set_trace (trace st ++ [ELog DEBUG reading_message]) st)
        | Some FJsonOther =>
            _get_app_access E fuel host port version path desc st
            = (Raised TypeError,
               set_trace (trace st ++ [ELog DEBUG reading_message]) st)
        | Some (FJson cred) =>
            match cred !! "app_token", cred !! "track_id" with
            | Some _, Some _ => True
            | None, _ =>
                _get_app_access E fuel host port version path desc st
                = (Raised (KeyError "app_token"),
                   set_trace (trace st ++ [ELog DEBUG reading_message]) st)
            | Some _, None =>
                _get_app_access E fuel host port version path desc st
                = (Raised (KeyError "track_id"),
                   set_trace (trace st ++ [ELog DEBUG reading_message]) st)
            end
        | None =>
            _get_app_access E fuel host port version path desc st
            = match pairing_run E fuel base path desc
                      (set_trace (trace st ++ [ELog DEBUG reading_message]) st) with
              | (Done (tok', _), st') =>
                  match desc !! "app_id" with
                  | Some app_id => (Done (Access base tok' app_id), st')
                  | None => (Raised (KeyError "app_id"), st')
                  end
              | (Raised e, st') => (Raised e, st')
              | (Unfinished, st') => (Unfinished, st')
              end
        end).
Proof.
  split; [|split].
  - intros e Hb. unfold _get_app_access. unfold mbind at 1. unfold M_bind.
    by rewrite Hb.
  - intros Hb. unfold _get_app_access. unfold mbind at 1. unfold M_bind.
    by rewrite Hb.
  - intros base Hb.
    destruct (files st !! path) as [[cred| |]|] eqn:Hf.
    + destruct (cred !! "app_token") as [tok|] eqn:Ht;
        [destruct (cred !! "track_id") as [tid|] eqn:Hi; [done|]|];
        unfold _get_app_access; unfold mbind at 1; unfold M_bind; rewrite Hb;
        unfold _readfile_app_token; munfold; simpl; rewrite Hf; simpl;
        rewrite ?Ht, ?Hi; done.
    + unfold _get_app_access. unfold mbind at 1. unfold M_bind. rewrite Hb.
      unfold _readfile_app_token. munfold. simpl. by rewrite Hf.
    + unfold _get_app_access. unfold mbind at 1. unfold M_bind. rewrite Hb.
      unfold _readfile_app_token. munfold. simpl. by rewrite Hf.
    + unfold _get_app_access. unfold mbind at 1. unfold M_bind. rewrite Hb.
      unfold _readfile_app_token. munfold. simpl. rewrite Hf. simpl.
      destruct (pairing_run _ _ _ _ _ _) as [[[tok' tid']|e|] st']; try done.
      simpl. by destruct (desc !! "app_id").
Qed.

(** [_get_app_access] writes, if at all, in the pairing branch. *)
Lemma get_app_access_writes (st : state) :
  exists evs,
    trace (_get_app_access E fuel host port version path desc st).2
      = (trace st ++ evs)%list
    /\ ((files (_get_app_access E fuel host port version path desc st).2 = files st
         /\ count is_write evs = 0%nat
         /\ count is_authorize evs = 0%nat /\ count is_status evs = 0%nat)
        \/ pairing_needed path desc st).
Proof.
  destruct (get_app_access_stops st) as (Hraise & Hunf & Hdone).
  destruct (_get_base_url host port (Some version) st) as [[base|e|] st'] eqn:Hb;
    pose proof (get_base_url_state _ _ _ _ _ _ Hb) as ->.
  2: { rewrite (Hraise e eq_refl). exists []. rewrite app_nil_r. split; [done|by left]. }
  2: { rewrite (Hunf eq_refl). exists []. rewrite app_nil_r. split; [done|by left]. }
  specialize (Hdone base eq_refl). clear Hraise Hunf.
  assert (Hpair : forall r,
    r = match pairing_run E fuel base path desc
                (set_trace (trace st ++ [ELog DEBUG reading_message]) st) with
        | (Done (tok', _), st') =>
            match desc !! "app_id" with
            | Some app_id => (Done (Access base tok' app_id), st')
            | None => (Raised (KeyError "app_id"), st')
            end
        | (Raised e, st') => (Raised e, st')
        | (Unfinished, st') => (Unfinished, st')
        end ->
    exists evs, trace r.2 = (trace st ++ evs)%list).
  { intros r ->.
    destruct (pairing_run_trace base
                (set_trace (trace st ++ [ELog DEBUG reading_message]) st))
      as (evs & Hev).
    eexists ([ELog DEBUG reading_message] ++ [_; _] ++ evs)%list.
    rewrite trace_set_trace, <- app_assoc in Hev.
    destruct (pairing_run _ _ _ _ _ _) as [[[tok' tid']|e|] st']; try done.
    by destruct (desc !! "app_id"). }
  destruct (files st !! path) as [[cred| |]|] eqn:Hf.
  - destruct (cred !! "app_token") as [tok|] eqn:Ht;
      [destruct (cred !! "track_id") as [tid|] eqn:Hi|].
    + rewrite (get_app_access_unfold st base cred tok tid) by done. cbn zeta.
      destruct (bool_decide (tok = VNone) || _) eqn:Hneed.
      * destruct (Hpair _ eq_refl) as (evs & Hev). exists evs. split; [done|].
        right. unfold pairing_needed. rewrite Hf. exists tok, tid.
        split; [done|]. split; [done|].
        apply orb_true_iff in Hneed as [H|H].
        -- left. by apply bool_decide_eq_true_1 in H.
        -- right. by apply negb_true_iff in H.
      * exists [ELog DEBUG reading_message].
        destruct (desc !! "app_id"); (split; [done|by left]).
    + rewrite Hdone. exists [ELog DEBUG reading_message]. split; [done|by left].
    + rewrite Hdone. exists [ELog DEBUG reading_message]. split; [done|by left].
  - rewrite Hdone. exists [ELog DEBUG reading_message]. split; [done|by left].
  - rewrite Hdone. exists [ELog DEBUG reading_message]. split; [done|by left].
  - rewrite Hdone. destruct (Hpair _ eq_refl) as (evs & Hev). exists evs.
    split; [done|]. right. unfold pairing_needed. by rewrite Hf.
Qed.

End Access.

(** ** [open] and the stored credential *)

Lemma stored_not_needed (path : string) (desc : dict) (st : state) :
  stored_for path desc st -> pairing_needed path desc st -> False.
Proof.
  intros (cred & tok & Hf & Ht & Hn & Heq). unfold pairing_needed. rewrite Hf.
  intros (tok' & tid & Ht' & _ & [-> | Hd]); congruence.
Qed.


Section Open.
Variable E : env.
Variables (fuel : nat) (host port : pyval) (st : state).

Lemma open_unfold :
  _is_app_desc_valid (app_desc st) = true ->
  open E fuel host port st =
  match _open_init E host port st with
  | (Done (h, p), st1) =>
      match _get_app_access E fuel h p (api_version st1) (token_file st1)
              (app_desc st1) st1 with
      | (Done a, st2) => (Done tt, set_access (Some a) st2)
      | (Raised e, st2) => (Raised e, st2)
      | (Unfinished, st2) => (Unfinished, st2)
      end
  | (Raised e, st1) => (Raised e, st1)
  | (Unfinished, st1) => (Unfinished, st1)
  end.
Proof.
  intros Hv. unfold open. munfold. rewrite Hv. simpl.
  destruct (_open_init E host port st) as [[[h p]|e|] st1]; try done.
Qed.

Lemma open_invalid :
  _is_app_desc_valid (app_desc st) = false ->
  open E fuel host port st
  = (Raised (InvalidTokenError "Invalid application descriptor"), st).
Proof. intros Hv. unfold open. munfold. by rewrite Hv. Qed.

End Open.

Lemma pairing_needed_files (path : string) (desc : dict) (st st' : state) :
  files st' = files st -> pairing_needed path desc st' -> pairing_needed path desc st.
Proof. unfold pairing_needed. by intros ->. Qed.

(** C10: whatever the appliance answers and however [open] ends, when the
    credential file exists, holds a token that is not [None] and a
    fingerprint equal to the descriptor of the caller, the file store after
    [open] is the one before and the trace has no write; and a write in the
    trace means that the file was read with a token that is [None] (as for a
    missing file) or with a fingerprint that differs from the descriptor. *)
Theorem credential_file_frame (E : env) (fuel : nat) (host port : pyval)
    (st : state) :
  exists evs,
    trace (open E fuel host port st).2 = (trace st ++ evs)%list
    /\ (stored_for (token_file st) (app_desc st) st ->
        files (open E fuel host port st).2 = files st
        /\ count is_write evs = 0%nat)
    /\ (count is_write evs <> 0%nat ->
        pairing_needed (token_file st) (app_desc st) st).
Proof.
  destruct (_is_app_desc_valid (app_desc st)) eqn:Hv.
  2: { rewrite open_invalid by done. exists []. by rewrite app_nil_r. }
  rewrite open_unfold by done.
  pose proof (discreet_open_init E host port st) as Hun.
  destruct (_open_init E host port st) as [[[h p]|e|] st1]; simpl in Hun;
    destruct Hun as (Hf & Hd & Ht & Ha & evs1 & Hev1 & Hq).
  2, 3: exists evs1; destruct (quiet_counts evs1 Hq) as (_ & _ & Hw);
        split; [done|]; split; [done|by rewrite Hw].
  destruct (get_app_access_writes E fuel h p (api_version st1) (token_file st1)
              (app_desc st1) st1) as (evs2 & Hev2 & Hcase).
  destruct (quiet_counts evs1 Hq) as (_ & _ & Hw1).
  exists (evs1 ++ evs2)%list.
  assert (Htr : trace (let '(o, st2) := _get_app_access E fuel h p (api_version st1)
                           (token_file st1) (app_desc st1) st1 in
                       match o with
                       | Done a => (Done tt, set_access (Some a) st2)
                       | Raised e => (Raised e, st2)
                       | Unfinished => (Unfinished, st2)
                       end).2 = (trace st ++ evs1 ++ evs2)%list
                /\ files (let '(o, st2) := _get_app_access E fuel h p (api_version st1)
                           (token_file st1) (app_desc st1) st1 in
                       match o with
                       | Done a => (Done tt, set_access (Some a) st2)
                       | Raised e => (Raised e, st2)
                       | Unfinished => (Unfinished, st2)
                       end).2
                   = files (_get_app_access E fuel h p (api_version st1)
                              (token_file st1) (app_desc st1) st1).2).
  { rewrite app_assoc, <- Hev1, <- Hev2.
    by destruct (_get_app_access _ _ _ _ _ _ _ _) as [[a|e|] st2]. }
  destruct Htr as [Htr Hfiles]. split; [done|].
  rewrite Hfiles, count_app, Hw1. simpl.
  destruct Hcase as [(Hf2 & Hw2 & _) | Hneed].
  - split; [intros _; split; congruence|]. intros Hw. by rewrite Hw2 in Hw.
  - rewrite Ht, Hd in Hneed. apply (pairing_needed_files _ _ st) in Hneed; [|done].
    split; [|done]. intros Hs. by destruct (stored_not_needed _ _ _ Hs Hneed).
Qed.

Lemma credential_file_frame_witness :
  files (open (found_twice []) 0 VNone VNone stored_client).2 = files stored_client.
Proof.
  destruct (credential_file_frame (found_twice []) 0 VNone VNone stored_client)
    as (evs & _ & H & _).
  apply H. exists (stored_record (VStr "old") (VInt 3) sample_desc), (VStr "old").
  split; [vm_compute; reflexivity|]. split; [vm_compute; reflexivity|].
  split; [discriminate|]. vm_compute. reflexivity.
Defined.



(** * Further properties *)

(** ** The remote control *)

Lemma has_value_delete_ne (d : dict) (k k' : string) (v : pyval) :
  k <> k' -> has_value (delete k' d) k v = has_value d k v.
Proof. intros H. unfold has_value. by rewrite lookup_delete_ne. Qed.

Lemma has_value_delete (d : dict) (k : string) (v : pyval) :
  has_value (delete k d) k v = false.
Proof. unfold has_value. by rewrite lookup_delete_eq. Qed.

Lemma build_key_lookup (d : dict) (k : string) :
  build_key d !! k =
    if bool_decide (k = "long") && has_value d "long" (VStr "False") then None
    else if bool_decide (k = "repeat") && has_value d "repeat" (VInt 0) then None
    else d !! k.
Proof.
  unfold build_key.
  destruct (has_value d "long" _) eqn:Hl.
  - rewrite has_value_delete_ne by done.
    destruct (has_value d "repeat" _) eqn:Hr.
    + repeat case_bool_decide; subst; simpl;
        rewrite ?lookup_delete_eq, ?lookup_delete_ne by done; try done.
      by rewrite lookup_delete_eq.
    + repeat case_bool_decide; subst; simpl;
        rewrite ?lookup_delete_eq, ?lookup_delete_ne by done; done.
  - destruct (has_value d "repeat" _) eqn:Hr.
    + repeat case_bool_decide; subst; simpl;
        rewrite ?lookup_delete_eq, ?lookup_delete_ne by done; done.
    + by rewrite !andb_false_r.
Qed.

Lemma build_key_has_value (d : dict) :
  has_value (build_key d) "long" (VStr "False") = false
  /\ has_value (build_key d) "repeat" (VInt 0) = false.
Proof.
  split.
  - unfold has_value at 1. rewrite build_key_lookup. simpl.
    destruct (has_value d "long" _) eqn:H; [done|]. apply H.
  - unfold has_value at 1. rewrite build_key_lookup. simpl.
    destruct (has_value d "repeat" _) eqn:H; [done|]. apply H.
Qed.

(** Without a default to take out, [build_key] returns its argument. *)
Lemma build_key_same (d : dict) :
  has_value d "long" (VStr "False") = false ->
  has_value d "repeat" (VInt 0) = false ->
  build_key d = d.
Proof.
  intros Hl Hr. apply map_eq. intros k. rewrite build_key_lookup.
  by rewrite Hl, Hr, !andb_false_r.
Qed.

(** X19: [build_key] takes out the long press when it is ["False"] and the
    repeat when it is [0], and nothing else: a long press or a repeat with
    another value stays with its value, and so does every other field, so
    that each field of the result is given by the argument; the result
    holds no default, and [build_key] applied to it changes nothing. *)
Theorem build_key_drops_defaults_only (d : dict) :
  (forall k,
     build_key d !! k
     = if bool_decide (k = "long") && has_value d "long" (VStr "False") then None
       else if bool_decide (k = "repeat") && has_value d "repeat" (VInt 0) then None
       else d !! k)
  /\ (has_value d "long" (VStr "False") = false ->
      build_key d !! "long" = d !! "long")
  /\ (has_value d "repeat" (VInt 0) = false ->
      build_key d !! "repeat" = d !! "repeat")
  /\ (forall k, k <> "long" -> k <> "repeat" -> build_key d !! k = d !! k)
  /\ has_value (build_key d) "long" (VStr "False") = false
  /\ has_value (build_key d) "repeat" (VInt 0) = false
  /\ build_key (build_key d) = build_key d.
Proof.
  destruct (build_key_has_value d) as [Hl Hr].
  split; [apply build_key_lookup|].
  split; [|split; [|split; [|split; [done|split; [done|]]]]].
  - intros H. rewrite build_key_lookup, H. by rewrite andb_false_r.
  - intros H. rewrite build_key_lookup, H. by rewrite andb_false_r.
  - intros k H1 H2. rewrite build_key_lookup.
    by rewrite !bool_decide_eq_false_2.
  - by apply build_key_same.
Qed.

Lemma py_eqb_refl (v : pyval) : py_eqb v v = true.
Proof. unfold py_eqb. by apply bool_decide_eq_true_2. Qed.

Lemma has_value_is_Some (d : dict) (k : string) (v : pyval) :
  has_value d k v = true -> is_Some (d !! k).
Proof. unfold has_value. destruct (d !! k); [eauto|done]. Qed.

(** The code is in [key_data] when [set_key] sends it. *)
Lemma coded_code (kd : dict) (code : pyval) :
  code <> VNone \/ is_Some (kd !! "code") ->
  is_Some (coded kd code !! "code")
  /\ (code <> VNone -> has_value (coded kd code) "code" code = true)
  /\ (forall k, k <> "code" -> coded kd code !! k = kd !! k).
Proof.
  intros H. unfold coded.
  destruct (bool_decide (code = VNone)) eqn:Hc; simpl.
  - apply bool_decide_eq_true_1 in Hc. destruct H as [H|H]; [done|].
    split; [done|]. split; [done|]. done.
  - destruct (has_value kd "code" code) eqn:Hv.
    + split; [by eapply has_value_is_Some|]. done.
    + rewrite lookup_insert_eq. split; [eauto|]. split.
      * intros _. unfold has_value. by rewrite lookup_insert_eq, py_eqb_refl.
      * intros k Hk. by rewrite lookup_insert_ne.
Qed.

Section RemoteFacts.
Variable ready : nat -> string -> bool.
Variable player : nat -> string -> dict -> player_answer.

Lemma set_key_run (kd : dict) (code : pyval) (r : remote) :
  set_key ready player kd code r
  = if bool_decide (code = VNone) && bool_decide (kd !! "code" = None) then
      (Done false, kd, r)
    else if negb (ready (requests (actions r)) (key_url r)) then
      (Raised ClientError, coded kd code, r)
    else if negb (all_sendable (build_key (coded kd code))) then
      (Raised TypeError, coded kd code, r)
    else
      (answered (player (requests (actions r)) (key_url r)
                   (build_key (coded kd code))),
       coded kd code, requested (build_key (coded kd code)) r).
Proof.
  assert (Hrun : forall kd',
    (if negb (ready (requests (actions r))
                ("http://" +:+ py_str (player_host r) +:+ _REMOTE_CONTROL)) then
       (Raised ClientError, kd', r)
     else if negb (all_sendable (build_key kd')) then (Raised TypeError, kd', r)
     else
       match player (requests (actions r))
               ("http://" +:+ py_str (player_host r) +:+ _REMOTE_CONTROL)
               (build_key kd') with
       | PlAnswer status content_length =>
           (Done (bool_decide (status = _PL_STATUS)
                  && bool_decide (content_length = Some 0)), kd',
            Remote (access_mode r) (player_host r)
              (actions r ++ [RGet ("http://" +:+ py_str (player_host r)
                                   +:+ _REMOTE_CONTROL) (build_key kd')]))
       | PlTimeout | PlDisconnected =>
           (Done false, kd',
            Remote (access_mode r) (player_host r)
              (actions r ++ [RGet ("http://" +:+ py_str (player_host r)
                                   +:+ _REMOTE_CONTROL) (build_key kd')]))
       | PlClientError =>
           (Raised ClientError, kd',
            Remote (access_mode r) (player_host r)
              (actions r ++ [RGet ("http://" +:+ py_str (player_host r)
                                   +:+ _REMOTE_CONTROL) (build_key kd')]))
       end)
    = if negb (ready (requests (actions r)) (key_url r)) then
        (Raised ClientError, kd', r)
      else if negb (all_sendable (build_key kd')) then (Raised TypeError, kd', r)
      else (answered (player (requests (actions r)) (key_url r) (build_key kd')),
            kd', requested (build_key kd') r)).
  { intros kd'. fold (key_url r). unfold requested, answered.
    destruct (negb (ready _ _)); [done|].
    destruct (negb (all_sendable _)); [done|].
    by destruct (player _ _ _). }
  unfold set_key, coded.
  destruct (bool_decide (code = VNone)) eqn:Hc; cbn [negb andb orb].
  - destruct (kd !! "code") as [c|] eqn:Hk.
    + rewrite (bool_decide_eq_true_2 (is_Some (Some c))) by eauto.
      rewrite (bool_decide_eq_false_2 (Some c = None)) by done.
      cbn [negb]. apply Hrun.
    + rewrite (bool_decide_eq_false_2 (is_Some None)) by (by intros [? ?]).
      by rewrite (bool_decide_eq_true_2 (None = None)).
  - destruct (has_value kd "code" code) eqn:Hv.
    + pose proof (has_value_is_Some _ _ _ Hv) as Hs.
      rewrite (bool_decide_eq_true_2 (is_Some (kd !! "code"))) by done.
      cbn [negb orb]. apply Hrun.
    + rewrite orb_true_r. apply Hrun.
Qed.

End RemoteFacts.

Lemma requests_app (a b : list remote_event) :
  requests (a ++ b) = (requests a + requests b)%nat.
Proof. unfold requests. by rewrite filter_app, length_app. Qed.

Lemma waits_app (a b : list remote_event) :
  waits (a ++ b) = (waits a + waits b)%nat.
Proof. unfold waits. by rewrite filter_app, length_app. Qed.

Section RemoteTheorems.
Variable ready : nat -> string -> bool.
Variable player : nat -> string -> dict -> player_answer.

(** X20: [set_key] sends nothing and returns [False] when neither the call
    nor the key gives a code. In every other case the code is in the key:
    the one of the call when it gives one, put in [key_data] unless
    [key_data] has an equal one. Then [set_key] raises the error of the
    client, with nothing sent, when the client does not take the call;
    it raises [TypeError], with nothing sent, when a parameter is [None]
    or a [bool]; otherwise it sends one request with the fields of the
    key, defaults apart, and returns [True] for the answer 200 with an
    empty body and for no other, [False] for another answer, a timeout or
    a disconnection, and raises every other error of the client. *)
Theorem set_key_request_carries_code (kd : dict) (code : pyval) (r : remote) :
  let url := "http://" +:+ py_str (player_host r) +:+ "/pub/remote_control" in
  let n := requests (actions r) in
  let kd' := coded kd code in
  let params := build_key kd' in
  (code = VNone -> kd !! "code" = None ->
   set_key ready player kd code r = (Done false, kd, r))
  /\ (code <> VNone \/ is_Some (kd !! "code") ->
      set_key ready player kd code r
      = (if negb (ready n url) then (Raised ClientError, kd', r)
         else if negb (all_sendable params) then (Raised TypeError, kd', r)
         else (answered (player n url params), kd',
               Remote (access_mode r) (player_host r)
                 (actions r ++ [RGet url params])))
      /\ is_Some (params !! "code")
      /\ (code <> VNone -> has_value params "code" code = true)
      /\ (code = VNone -> kd' = kd)
      /\ (forall k, k <> "code" -> kd' !! k = kd !! k)
      /\ (forall k, k <> "code" -> k <> "long" -> k <> "repeat" ->
            params !! k = kd !! k))
  /\ (forall a, answered a = Done true <-> a = PlAnswer 200 (Some 0)).
Proof.
  intros url n kd' params. split; [|split].
  - intros -> Hk. rewrite set_key_run, Hk. done.
  - intros H. destruct (coded_code kd code H) as (Hsome & Hcode & Hother).
    split; [|split; [|split; [|split; [|split]]]].
    + rewrite set_key_run.
      assert (bool_decide (code = VNone) && bool_decide (kd !! "code" = None) = false)
        as ->.
      { apply andb_false_iff.
        destruct H as [H|[c H]]; [left|right]; apply bool_decide_eq_false_2;
          [done|by rewrite H]. }
      done.
    + subst params. rewrite build_key_lookup. done.
    + intros Hc. subst params. unfold has_value. rewrite build_key_lookup.
      by apply Hcode.
    + intros ->. done.
    + done.
    + intros k H1 H2 H3. subst params. rewrite build_key_lookup.
      rewrite !bool_decide_eq_false_2 by done. by apply Hother.
  - intros a. unfold answered, _PL_STATUS. split.
    + destruct a as [status len| | |]; try done.
      intros [= [H1 H2]%andb_true_iff].
      apply bool_decide_eq_true_1 in H1, H2. by subst.
    + intros ->. done.
Qed.

(** X21: with the default long press and repeat, [send_key] sends the code
    and the key only: the defaults do not travel. This when the client
    takes the call and the code and the key are each a [str] or an [int];
    when the client does not take the call, [send_key] raises its error,
    and when the code or the key is [None] or a [bool], it raises
    [TypeError]: in both cases nothing is sent. *)
Theorem send_key_defaults_not_sent (code key : pyval) (r : remote) :
  let url := "http://" +:+ py_str (player_host r) +:+ "/pub/remote_control" in
  let n := requests (actions r) in
  let params := <["key" := key]> (<["code" := code]> ∅) in
  send_key ready player code key (VStr "False") (VInt 0) r
  = if negb (ready n url) then (Raised ClientError, params, r)
    else if negb (sendable code && sendable key) then (Raised TypeError, params, r)
    else (answered (player n url params), params,
          Remote (access_mode r) (player_host r) (actions r ++ [RGet url params])).
Proof.
  intros url n params. unfold send_key.
  assert (Hb : build_key (<["repeat" := VInt 0]> (<["long" := VStr "False"]>
                 (<["key" := key]> (<["code" := code]> ∅))))
               = params).
  { apply map_eq. intros k. rewrite build_key_lookup. unfold has_value.
    rewrite lookup_insert_eq, lookup_insert_ne, lookup_insert_eq by done.
    change (py_eqb (VStr "False") (VStr "False")) with true.
    change (py_eqb (VInt 0) (VInt 0)) with true.
    rewrite !andb_true_r.
    repeat case_bool_decide; subst; try done.
    by rewrite !lookup_insert_ne by done. }
  rewrite Hb, set_key_run.
  assert (Hcode : params !! "code" = Some code).
  { subst params. by rewrite lookup_insert_ne, lookup_insert_eq. }
  rewrite Hcode. rewrite (bool_decide_eq_false_2 (Some code = None)) by done.
  rewrite andb_false_r.
  change (coded params VNone) with params.
  rewrite (build_key_same params) by done.
  assert (all_sendable params = sendable code && sendable key) as ->.
  { unfold all_sendable, params. apply eq_true_iff_eq.
    rewrite bool_decide_eq_true, andb_true_iff.
    rewrite map_Forall_insert by (by rewrite lookup_insert_ne).
    rewrite map_Forall_insert by done.
    split; [intros (? & ? & _); done|].
    intros [? ?]. split; [done|]. split; [done|]. apply map_Forall_empty. }
  done.
Qed.

(** X22: when [send_macro] returns [True], it sent one request per key and
    waited [delay] after each of them, the last one too. When it returns
    [False] or raises, it stopped at a key that was not accepted: it waited
    fewer times than there are keys and sent at most one request more than
    it waited, so that no key after the refused one is sent. It never
    changes the mode or the host of the player, and it always ends. *)
Theorem send_macro_stops_at_refusal (keys : list dict) (code : pyval) (delay : Z)
    (r : remote) :
  match send_macro ready player keys code delay r with
  | (res, keys', r') =>
      access_mode r' = access_mode r /\ player_host r' = player_host r
      /\ length keys' = length keys
      /\ exists evs,
           actions r' = (actions r ++ evs)%list
           /\ (forall d, RSleep d ∈ evs -> d = delay)
           /\ match res with
              | Done true => requests evs = length keys /\ waits evs = length keys
              | Done false | Raised _ =>
                  (waits evs < length keys)%nat
                  /\ (waits evs <= requests evs <= S (waits evs))%nat
              | Unfinished => False
              end
  end.
Proof.
  revert r. induction keys as [|kd rest IH]; intros r.
  { simpl. do 3 (split; [done|]). exists []. rewrite app_nil_r.
    split; [done|]. split; [|done].
    intros d Hd. by apply elem_of_nil in Hd. }
  cbn [send_macro].
  assert (Hnone : forall (res : outcome bool) kd',
    match res with Done true | Unfinished => False | _ => True end ->
    match (res, kd' :: rest, r) with
    | (res, keys', r') =>
        access_mode r' = access_mode r /\ player_host r' = player_host r
        /\ length keys' = length (kd :: rest)
        /\ exists evs,
             actions r' = (actions r ++ evs)%list
             /\ (forall d, RSleep d ∈ evs -> d = delay)
             /\ match res with
                | Done true =>
                    requests evs = length (kd :: rest)
                    /\ waits evs = length (kd :: rest)
                | Done false | Raised _ =>
                    (waits evs < length (kd :: rest))%nat
                    /\ (waits evs <= requests evs <= S (waits evs))%nat
                | Unfinished => False
                end
    end).
  { intros res kd' Hres. do 3 (split; [done|]). exists []. rewrite app_nil_r.
    split; [done|]. split; [by intros d Hd; apply elem_of_nil in Hd|].
    change (waits []) with 0%nat. change (requests []) with 0%nat.
    destruct res as [[]|e|]; try done; simpl; lia. }
  rewrite set_key_run.
  destruct (_ && _); [by apply (Hnone (Done false))|].
  destruct (negb (ready _ _)); [by apply (Hnone (Raised ClientError))|].
  destruct (negb (all_sendable _)); [by apply (Hnone (Raised TypeError))|].
  clear Hnone.
  set (kd' := coded kd code).
  assert (Hstop : forall res : outcome bool,
    match res with Done true | Unfinished => False | _ => True end ->
    match (res, kd' :: rest, requested (build_key kd') r) with
    | (res, keys', r') =>
        access_mode r' = access_mode r /\ player_host r' = player_host r
        /\ length keys' = length (kd :: rest)
        /\ exists evs,
             actions r' = (actions r ++ evs)%list
             /\ (forall d, RSleep d ∈ evs -> d = delay)
             /\ match res with
                | Done true =>
                    requests evs = length (kd :: rest)
                    /\ waits evs = length (kd :: rest)
                | Done false | Raised _ =>
                    (waits evs < length (kd :: rest))%nat
                    /\ (waits evs <= requests evs <= S (waits evs))%nat
                | Unfinished => False
                end
    end).
  { intros res Hres. do 3 (split; [done|]). exists [RGet (key_url r) (build_key kd')].
    split; [done|]. split.
    { intros d H. apply list_elem_of_singleton in H. done. }
    change (waits _) with 0%nat. change (requests _) with 1%nat.
    destruct res as [[]|e|]; try done; simpl; lia. }
  destruct (answered _) as [[]|e|] eqn:Ha.
  - clear Hstop.
    match goal with
    | |- context [send_macro ready player rest code delay ?r2] =>
        specialize (IH r2); destruct (send_macro ready player rest code delay r2)
          as [[res rest'] r3]
    end.
    destruct IH as (Hm & Hh & Hlen & evs & Hevs & Hd & Hres).
    simpl in Hm, Hh, Hevs.
    split; [done|]. split; [done|]. split; [by simpl; rewrite Hlen|].
    exists ([RGet (key_url r) (build_key kd'); RSleep delay] ++ evs)%list.
    split; [by rewrite Hevs, <- !app_assoc|]. split.
    + intros d [H|H]%elem_of_app; [|by apply Hd].
      apply elem_of_cons in H as [H|H]; [done|].
      apply list_elem_of_singleton in H. by injection H.
    + rewrite requests_app, waits_app.
      change (requests [RGet (key_url r) (build_key kd'); RSleep delay]) with 1%nat.
      change (waits [RGet (key_url r) (build_key kd'); RSleep delay]) with 1%nat.
      simpl length. destruct res as [[]|e|]; try done; lia.
  - by apply (Hstop (Done false)).
  - by apply (Hstop (Raised e)).
  - by destruct (player _ _ _).
Qed.

End RemoteTheorems.

(** A key that the player accepts; a key with a [bool], for which nothing
    is sent; an error of the client, which [set_key] lets through; and
    [send_key] without a code. *)
Lemma set_key_examples :
  set_key (fun _ _ => true) (fun _ _ _ => PlAnswer 200 (Some 0))
    {["key" := VStr "ok"]} (VStr "1234") (new_remote VNone)
  = (Done true, {["key" := VStr "ok"; "code" := VStr "1234"]},
     requested {["key" := VStr "ok"; "code" := VStr "1234"]} (new_remote VNone))
  /\ set_key (fun _ _ => true) (fun _ _ _ => PlAnswer 200 (Some 0))
       {["key" := VStr "ok"; "long" := VBool true]} (VStr "1234") (new_remote VNone)
     = (Raised TypeError, {["key" := VStr "ok"; "long" := VBool true; "code" := VStr "1234"]},
        new_remote VNone)
  /\ set_key (fun _ _ => true) (fun _ _ _ => PlClientError)
       {["key" := VStr "ok"]} (VStr "1234") (new_remote VNone)
     = (Raised ClientError, {["key" := VStr "ok"; "code" := VStr "1234"]},
        requested {["key" := VStr "ok"; "code" := VStr "1234"]} (new_remote VNone))
  /\ (send_key (fun _ _ => true) (fun _ _ _ => PlAnswer 200 (Some 0))
        VNone (VStr "ok") (VStr "False") (VInt 0) (new_remote VNone)).1.1
     = Raised TypeError.
Proof. repeat split; vm_compute; reflexivity. Qed.

(** X23: the player id never reaches the host of the player: in the mode
    [fbxhd] the host is [freeboxhd], without id and domain; in the mode
    [host] it is the host of the call, when there is one; in any other
    case it is [Freebox-Player.local]. *)
Theorem player_host_ignores_player_id (access_m host id1 id2 : pyval) (r : remote) :
  set_player_host access_m host id1 r = set_player_host access_m host id2 r
  /\ player_host (set_player_host access_m host id1 r)
     = if bool_decide (access_m = VStr "fbxhd") then VStr "freeboxhd"
       else if bool_decide (access_m = VStr "host") && negb (bool_decide (host = VNone))
            then host
            else VStr "Freebox-Player.local".
Proof.
  split; [done|]. unfold set_player_host.
  destruct access_m as [|b|z|s]; try done.

  unfold py_eqb. simpl py_norm.
  repeat case_bool_decide; simplify_eq; try done.
Qed.

(** ** Closing twice *)

(** X18: [close] on a client that was never opened, and [close] after a
    [close] that returned, only log a warning: no logout request, no
    second closing of the session, no exception. *)
Theorem close_twice_is_harmless (logout logout' : M unit) (st st1 : state) :
  (_access st = None /\ st1 = st) \/ close logout st = (Done tt, st1) ->
  close logout' st1 = (Done tt, warned not_connected_message st1).
Proof.
  intros [[Ha ->]|H].
  { unfold close. unfold mbind, M_bind. simpl. by rewrite Ha. }
  revert H. unfold close. unfold mbind at 1. unfold M_bind, get.
  destruct (_access st) as [a|] eqn:Ha.
  - destruct (_session st) as [[[] pool]|] eqn:Hs; cbn [closed].
    + intros [= <-]. unfold mbind, M_bind. simpl. by rewrite Ha, Hs.
    + unfold mbind at 1. unfold M_bind.
      destruct (logout st) as [[[]|e|] st0]; try done.
      intros [= <-]. unfold mbind, M_bind. simpl.
      by destruct (_access st0).
    + done.
  - intros [= <-]. unfold mbind, M_bind. simpl. by rewrite Ha.
Qed.

Lemma close_twice_is_harmless_witness :
  close (mret tt) (close (mret tt) opened_client).2
  = (Done tt, warned not_connected_message (close (mret tt) opened_client).2).
Proof.
  apply (close_twice_is_harmless (mret tt) (mret tt) opened_client).
  right. vm_compute. reflexivity.
Defined.

(** ** A probe that fails leaves nothing behind *)

Lemma close_to_return_cleaned (st : state) :
  exists st' evs,
    _disc_close_to_return st = (Done FNone, st') /\ cleaned st'
    /\ trace st' = (trace st ++ evs)%list
    /\ (evs = [] \/ evs = [ECloseSession; ESleep 250]).
Proof.
  unfold _disc_close_to_return, session_close, sleep, cleaned, no_open_session.
  munfold. simpl.
  case_bool_decide as Hd; simpl;
    destruct (_session st) as [[[] ?]|] eqn:Hs; simpl;
    eexists; eexists; (split; [reflexivity|]); simpl; rewrite ?Hs;
    (split; [done|]);
    first [ (split; [symmetry; apply app_nil_r|by left])
          | (split; [by rewrite <- app_assoc|by right]) ].
Qed.

Lemma bind_inv {A B} (c : M A) (f : A -> M B) (st st' : state) (o : outcome B) :
  (c ≫= f) st = (o, st') ->
  (exists a st1, c st = (Done a, st1) /\ f a st1 = (o, st'))
  \/ (exists e, c st = (Raised e, st') /\ o = Raised e)
  \/ (c st = (Unfinished, st') /\ o = Unfinished).
Proof.
  unfold mbind, M_bind. destruct (c st) as [[a|e|] st1].
  - intros H. left. eauto.
  - intros [= <- <-]. right. left. eauto.
  - intros [= <- <-]. right. right. eauto.
Qed.

Lemma py_int_no_http_error (v : pyval) (st st' : state) (msg : string) :
  py_int v st <> (Raised (HttpRequestError msg), st').
Proof.
  destruct v as [| | |t]; simpl; munfold; try done.
  by destruct (int_of_str t).
Qed.

Section Cleanup.
Variable E : env.

Lemma connect_cleaned (h p : pyval) (s : string) (st st' : state) (o : outcome bool) :
  _disc_connect E h p s st = (o, st') ->
  match o with
  | Done false => cleaned st'
  | Raised (HttpRequestError _) => False
  | _ => True
  end.
Proof.
  unfold _disc_connect. intros H.
  apply bind_inv in H as [(pn & st1 & Hpi & H)|[(e & Hpi & ->)|[Hpi ->]]].
  2: { destruct e; try done. by apply py_int_no_http_error in Hpi. }
  2: done.
  apply py_int_state in Hpi as [-> _].
  apply bind_inv in H as [(res & st1 & Hso & H)|[(e & Hso & ->)|[Hso ->]]].
  2: { unfold socket_connect_ex in Hso. revert Hso. munfold.
       destruct h; try done; simpl; try (by intros [= <- <-]).
       destruct (connect_ex E _ _ _); try done; by intros [= <- <-]. }
  2: done.
  destruct (negb (res =? 0)).
  - destruct (close_to_return_cleaned st1) as (st2 & evs & Hc & Hcl & _).
    unfold mbind, M_bind in H. rewrite Hc in H. by injection H as <- <-.
  - revert H. munfold. by intros [= <- <-].
Qed.

Lemma get_api_version_no_http_error (h p : pyval) (s : string) (st st' : state)
    (msg : string) :
  session_get_api_version E h p s st <> (Raised (HttpRequestError msg), st').
Proof.
  unfold session_get_api_version. munfold.
  destruct (_session st); [|done].
  destruct (url_port p); [|done]. simpl.
  by destruct (get_api_version E _ _).
Qed.

Lemma try_check_session (rec : pyval -> pyval -> M found) (h p : pyval)
    (s : string) (st : state) :
  try_except (t ← _disc_check_session rec h p s; mret (inr t))
    is_ValueError
    (fun e => match e with
              | ValueError (Some v) => mret (@inl found (pyval * pyval * string) v)
              | _ => raise IndexError
              end) st
  = match _disc_check_session rec h p s st with
    | (Done t, st') => (Done (inr t), st')
    | (Raised (ValueError (Some v)), st') => (Done (inl v), st')
    | (Raised (ValueError None), st') => (Raised IndexError, st')
    | (Raised e, st') => (Raised e, st')
    | (Unfinished, st') => (Unfinished, st')
    end.
Proof.
  unfold try_except, mbind, M_bind.
  destruct (_disc_check_session rec h p s st) as [[t|e|] st']; try done.
  by destruct e as [| | | |[v|]| | | | | | | |].
Qed.

Lemma check_session_cleaned (rec : pyval -> pyval -> M found) (h p : pyval)
    (s : string) (st st' : state) (o : outcome (pyval * pyval * string)) :
  (forall st0, failure_cleaned (rec h p st0).1 (rec h p st0).2) ->
  _disc_check_session rec h p s st = (o, st') ->
  match o with
  | Done t => t = (h, p, s) /\ st' = st
  | Raised (ValueError (Some FNone)) => cleaned st'
  | Raised (HttpRequestError _) => cleaned st'
  | _ => True
  end.
Proof.
  intros Hrec. unfold _disc_check_session. cbv zeta.
  set (again := _disc_close_to_return
             ≫= λ _ : found, rec h p
             ≫= λ r : found, @raise (pyval * pyval * string) (ValueError (Some r))).
  assert (Hagain : forall o st', again st = (o, st') ->
    match o with
    | Done t => False
    | Raised (ValueError (Some FNone)) => cleaned st'
    | Raised (HttpRequestError _) => cleaned st'
    | _ => True
    end).
  { subst again. intros o1 st1 H.
    destruct (close_to_return_cleaned st) as (st0 & evs & Hc & _).
    rewrite (bind_done _ _ _ _ _ Hc) in H.
    specialize (Hrec st0). unfold failure_cleaned in Hrec.
    unfold mbind, M_bind in H.
    destruct (rec h p st0) as [[r|e|] st2]; injection H as <- <-; simpl in *.
    - by destruct r.
    - by destruct e as [| | |msg|[[]|]| | | | | | | |].
    - done. }
  assert (Hagain' : again st = (o, st') ->
    match o with
    | Done t => t = (h, p, s) /\ st' = st
    | Raised (ValueError (Some FNone)) => cleaned st'
    | Raised (HttpRequestError _) => cleaned st'
    | _ => True
    end).
  { intros H. apply Hagain in H. by destruct o. }
  clear Hagain. clearbody again.
  unfold mbind, M_bind, get.
  destruct (fbx_desc st) as [d|]; [|by intros [= <- <-]].
  destruct (_session st) as [ses|]; [|by intros [= <- <-]].
  destruct (negb _ && negb _); [|by intros [= <- <-]].
  destruct (conns ses) as [|c rest]; [by intros [= <- <-]|].
  destruct (py_eqb _ _); [|done].
  destruct (py_int p st) as [[pn|e|] st1] eqn:Hpi.
  - apply py_int_state in Hpi as [-> _].
    destruct (_ && _); [by intros [= <- <-]|done].
  - intros [= <- <-]. destruct e as [| | |msg|[[]|]| | | | | | | |]; try done.
    + by apply py_int_no_http_error in Hpi.
    + by apply py_int_value_error in Hpi as [t ?].
  - by intros [= <- <-].
Qed.

Lemma discover_rec_cleaned (n : nat) :
  forall host port st o st',
    discover_rec E n host port st = (o, st') -> failure_cleaned o st'.
Proof.
  induction n as [|n IH]; intros host port st o st'; [by intros [= <- <-]|].
  assert (IH' : forall h p st0,
    failure_cleaned (discover_rec E n h p st0).1 (discover_rec E n h p st0).2).
  { intros h p st0. destruct (discover_rec E n h p st0) as [o0 st1] eqn:H.
    by apply IH in H. }
  clear IH. cbn [discover_rec].
  destruct (is_ipv6 E host).
  { unfold log, emit, modify. unfold mbind, M_bind.
    destruct (close_to_return_cleaned (set_trace (trace st ++
      [ELog ERROR (py_str host +:+ " : IPv6 is not supported")]) st))
      as (st1 & evs & -> & Hcl & _). by intros [= <- <-]. }
  destruct (_disc_set_host_and_port host port) as [[h p] s].
  unfold mbind at 1. unfold M_bind. rewrite try_check_session.
  destruct (_disc_check_session (discover_rec E n) h p s st) as [[t|e|] st0] eqn:Hcs.
  3: by intros [= <- <-].
  2: { apply check_session_cleaned in Hcs; [|by apply IH'].
       destruct e as [| | |msg|[[]|]| | | | | | | |]; by intros [= <- <-]. }
  apply check_session_cleaned in Hcs as [-> ->]; [|by apply IH'].
  unfold mbind at 1. unfold M_bind, get.
  unfold mbind at 1. unfold M_bind.
  set (no_session := match _session st with None => true | Some ses => closed ses end).
  assert (Hconn : forall o st1,
    (if no_session then _disc_connect E h p s else mret true) st = (o, st1) ->
    match o with
    | Done false => cleaned st1
    | Raised (HttpRequestError _) => False
    | Raised (ValueError (Some FNone)) => False
    | _ => True
    end).
  { intros o1 st1. destruct no_session.
    - intros H. pose proof (connect_cleaned _ _ _ _ _ _ H) as Hc.
      destruct o1 as [[]|e|]; try done.
      destruct e as [| | |msg|[[]|]| | | | | | | |]; try done.
      by apply connect_value_error in H as [t ?].
    - by intros [= <- <-]. }
  destruct ((if no_session then _disc_connect E h p s else mret true) st)
    as [[[]|e|] st1] eqn:Hc; specialize (Hconn _ _ eq_refl); simpl in Hconn.
  2: by intros [= <- <-].
  2: { intros [= <- <-]. by destruct e as [| | |msg|[[]|]| | | | | | | |]. }
  2: by intros [= <- <-].
  cbn [negb]. unfold mbind at 1. unfold M_bind.
  destruct (session_get_api_version E h p s st1) as [[[msg| |d]|e|] st2] eqn:Hg.
  - unfold mbind, M_bind.
    destruct (close_to_return_cleaned st2) as (st3 & evs & -> & Hcl & _).
    by intros [= <- <-].
  - destruct (close_to_return_cleaned st2) as (st3 & evs & -> & Hcl & _).
    by intros [= <- <-].
  - unfold mbind at 1. unfold M_bind, modify.
    unfold mbind at 1. unfold M_bind, getitem.
    destruct (d !! "device_name") as [name|]; [|by intros [= <- <-]].
    unfold mret at 1. unfold M_ret.
    destruct (negb (py_eqb name _)).
    + destruct (close_to_return_cleaned (set_fbx_desc (Some d) st2))
        as (st3 & evs & -> & Hcl & _). by intros [= <- <-].
    + by intros [= <- <-].
  - intros [= <- <-]. destruct e as [| | |msg|[[]|]| | | | | | | |]; try done.
    + by apply get_api_version_no_http_error in Hg.
    + by apply get_api_version_value_error in Hg as [t ?].
  - by intros [= <- <-].
Qed.

End Cleanup.

(** X7: when [discover] returns [None] or raises its [HttpRequestError],
    it leaves no description cached and no session open. *)
Theorem discover_failure_cleans_up (E : env) (host port : pyval) (st st' : state) :
  discover E host port st = (Done FNone, st')
  \/ (exists msg, discover E host port st = (Raised (HttpRequestError msg), st')) ->
  fbx_desc st' = None /\ no_open_session st'.
Proof.
  unfold discover.
  intros [H|[msg H]]; by apply discover_rec_cleaned in H.
Qed.

Lemma discover_failure_cleans_up_witness :
  fbx_desc (discover (appliance [PJson sample_box; PSslError "certificate"] [])
              (VStr "192.168.0.254") VNone
              (discover (appliance [PJson sample_box; PSslError "certificate"] [])
                 VNone VNone fresh).2).2 = None.
Proof.
  apply (discover_failure_cleans_up
           (appliance [PJson sample_box; PSslError "certificate"] [])
           (VStr "192.168.0.254") VNone
           (discover (appliance [PJson sample_box; PSslError "certificate"] [])
                 VNone VNone fresh).2).
  right. exists "certificate". vm_compute. reflexivity.
Defined.

(** ** What a probe checks *)

(** X3: an IPv6 host is refused before any network action: [discover]
    logs the error and returns [None]; it probes no socket, opens no
    session and sends no request, and leaves no description cached and no
    session open. *)
Theorem ipv6_host_refused (E : env) (host port : pyval) (st : state) :
  is_ipv6 E host = true ->
  exists st' evs,
    discover E host port st = (Done FNone, st')
    /\ trace st' = (trace st
                    ++ ELog ERROR (py_str host +:+ " : IPv6 is not supported") :: evs)%list
    /\ (evs = [] \/ evs = [ECloseSession; ESleep 250])
    /\ fbx_desc st' = None /\ no_open_session st'.
Proof.
  intros H6. unfold discover. cbn [discover_rec]. rewrite H6.
  unfold log, emit, modify. unfold mbind, M_bind.
  destruct (close_to_return_cleaned (set_trace (trace st ++
    [ELog ERROR (py_str host +:+ " : IPv6 is not supported")]) st))
    as (st' & evs & -> & [Hd Hs] & Ht & Hevs).
  exists st', evs. split; [done|]. split; [|done].
  rewrite Ht. simpl. by rewrite <- app_assoc.
Qed.

Lemma ipv6_host_refused_witness :
  exists st' evs,
    discover ipv6_loopback (VStr "::1") VNone fresh = (Done FNone, st')
    /\ trace st' = (trace fresh
                    ++ ELog ERROR (py_str (VStr "::1") +:+ " : IPv6 is not supported")
                       :: evs)%list
    /\ (evs = [] \/ evs = [ECloseSession; ESleep 250])
    /\ fbx_desc st' = None /\ no_open_session st'.
Proof.
  apply (ipv6_host_refused ipv6_loopback (VStr "::1") VNone fresh).
  reflexivity.
Defined.

Section Found.
Variable E : env.

Lemma connect_accepts (h p : pyval) (s : string) (st st' : state) :
  _disc_connect E h p s st = (Done true, st') ->
  exists pn,
    py_int p st = (Done pn, st)
    /\ connect_ex E (count is_socket (trace st)) h pn = SockCode 0
    /\ st' = set_trace (trace st ++ [ESocket h pn; ENewSession (bool_decide (s = "s"))])
               (set_session (Some (Session false [])) st).
Proof.
  unfold _disc_connect. unfold mbind at 1. unfold M_bind.
  destruct (py_int p st) as [[pn|e|] st0] eqn:Hpi; try done.
  apply py_int_state in Hpi as [-> Hpi].
  unfold socket_connect_ex. munfold. destruct h as [| | |hs]; try done. simpl.
  destruct (connect_ex E _ _ _) as [code| | |] eqn:Hce; try done. simpl.
  destruct (code =? 0) eqn:Hz; simpl.
  - intros [= <-]. exists pn. split; [done|]. apply Z.eqb_eq in Hz as ->.
    split; [done|]. simpl. by rewrite <- app_assoc.
  - destruct (close_to_return_none (set_trace (trace st ++ [ESocket (VStr hs) pn]) st))
      as [? ->]. done.
Qed.

Lemma get_api_version_reply (h p : pyval) (s : string) (st st' : state) (d : dict) :
  session_get_api_version E h p s st = (Done (PJson d), st') ->
  get_api_version E (count is_probe (trace st))
    ("http" +:+ s +:+ "://" +:+ py_str h +:+ ":" +:+ py_str p +:+ "/api_version")
  = PJson d
  /\ trace st' = (trace st ++ [EGetApiVersion
       ("http" +:+ s +:+ "://" +:+ py_str h +:+ ":" +:+ py_str p +:+ "/api_version")])%list.
Proof.
  unfold session_get_api_version. munfold.
  destruct (_session st) as [ses|]; [|done].
  destruct (url_port p) as [pn|]; [|done]. simpl.
  destruct (get_api_version E _ _) eqn:Hr; try done.
  by intros [= <- <-].
Qed.

End Found.

(** X6: on a client without open session, [discover] returns a description
    only when the socket accepted the connection and the appliance
    answered, at the URL of the host and port, a description whose
    [device_name] is [Freebox Server]; it then did one socket probe, opened
    one session and sent one request, in this order, and the description
    is cached. *)
Theorem fresh_discovery_is_checked (E : env) (host port h p : pyval) (s : string)
    (d : dict) (st st1 : state) :
  no_open_session st ->
  _disc_set_host_and_port host port = (h, p, s) ->
  discover E host port st = (Done (FDesc d), st1) ->
  exists pn url,
    url = "http" +:+ s +:+ "://" +:+ py_str h +:+ ":" +:+ py_str p +:+ "/api_version"
    /\ connect_ex E (count is_socket (trace st)) h pn = SockCode 0
    /\ get_api_version E (count is_probe (trace st)) url = PJson d
    /\ (exists name, d !! "device_name" = Some name
                     /\ py_eqb name (VStr "Freebox Server") = true)
    /\ fbx_desc st1 = Some d
    /\ trace st1 = (trace st ++ [ESocket h pn; ENewSession (bool_decide (s = "s"));
                                 EGetApiVersion url])%list.
Proof.
  intros Hses Hset. unfold discover. cbn [discover_rec].
  destruct (is_ipv6 E host) eqn:H6.
  { unfold log, emit, modify. unfold mbind, M_bind.
    destruct (close_to_return_none (set_trace (trace st ++
      [ELog ERROR (py_str host +:+ " : IPv6 is not supported")]) st)) as [st' ->].
    done. }
  rewrite Hset. unfold mbind at 1. unfold M_bind, try_except.
  unfold mbind at 1. unfold M_bind.
  rewrite check_session_closed by done.
  unfold mret at 1. unfold M_ret.
  unfold mbind at 1. unfold M_bind, get.
  assert (match _session st with Some ses => closed ses | None => true end = true) as ->.
  { unfold no_open_session in Hses. by destruct (_session st). }
  unfold mbind at 1. unfold M_bind.
  destruct (_disc_connect E h p s st) as [[[]|e|] st'] eqn:Hc; try done.
  apply connect_accepts in Hc as (pn & Hpi & Hzero & Hst').
  cbn [negb]. unfold mbind at 1. unfold M_bind.
  destruct (session_get_api_version E h p s st') as [[[msg| |d0]|e|] st2] eqn:Hg;
    try done.
  { unfold mbind, M_bind. by destruct (close_to_return_none st2) as [? ->]. }
  { by destruct (close_to_return_none st2) as [? ->]. }
  apply get_api_version_reply in Hg as [Hreply Htr].
  unfold mbind at 1. unfold M_bind, modify.
  unfold mbind at 1. unfold M_bind, getitem.
  destruct (d0 !! "device_name") as [name|] eqn:Hname; [|done].
  unfold mret at 1. unfold M_ret.
  destruct (negb (py_eqb name _)) eqn:Hn.
  { by destruct (close_to_return_none (set_fbx_desc (Some d0) st2)) as [? ->]. }
  intros [= <- <-]. exists pn. eexists. split; [reflexivity|].
  split; [done|]. split.
  { rewrite <- Hreply. f_equal. rewrite Hst'. rewrite trace_set_trace.
    by rewrite count_app, Nat.add_0_r. }
  split.
  { exists name. split; [done|]. by apply negb_false_iff in Hn. }
  split; [done|].
  simpl. rewrite Htr, Hst', trace_set_trace. by rewrite <- app_assoc.
Qed.

Lemma fresh_discovery_is_checked_witness :
  exists pn url,
    url = "http" +:+ "s" +:+ "://" +:+ py_str (VStr "mafreebox.freebox.fr") +:+ ":"
          +:+ py_str (VStr "443") +:+ "/api_version"
    /\ connect_ex (appliance [PJson sample_box] []) (count is_socket (trace fresh))
         (VStr "mafreebox.freebox.fr") pn = SockCode 0
    /\ get_api_version (appliance [PJson sample_box] []) (count is_probe (trace fresh)) url
       = PJson sample_box
    /\ (exists name, sample_box !! "device_name" = Some name
                     /\ py_eqb name (VStr "Freebox Server") = true)
    /\ fbx_desc (discover (appliance [PJson sample_box] []) VNone VNone fresh).2
       = Some sample_box
    /\ trace (discover (appliance [PJson sample_box] []) VNone VNone fresh).2
       = (trace fresh ++ [ESocket (VStr "mafreebox.freebox.fr") pn;
                          ENewSession (bool_decide ("s" = "s"));
                          EGetApiVersion url])%list.
Proof.
  apply (fresh_discovery_is_checked (appliance [PJson sample_box] []) VNone VNone
           (VStr "mafreebox.freebox.fr") (VStr "443") "s" sample_box fresh).
  - exact I.
  - reflexivity.
  - vm_compute. reflexivity.
Defined.

(** ** What a probe does not find *)

Lemma url_port_py_int (p : pyval) (pn : Z) (st : state) :
  url_port p = Some pn -> py_int p st = (Done pn, st).
Proof.
  destruct p as [|b|z|t]; simpl; try done.
  - by intros [= ->].
  - by intros ->.
Qed.

Section NotFound.
Variable E : env.

(** The probe on a client without open session, up to the socket. *)
Lemma discover_closed_unfold (host port h p : pyval) (s : string) (st : state) :
  is_ipv6 E host = false ->
  _disc_set_host_and_port host port = (h, p, s) ->
  no_open_session st ->
  discover E host port st
  = (connected ← _disc_connect E h p s;
     if negb connected then mret FNone
     else
       r ← session_get_api_version E h p s;
       match r with
       | PSslError e => _disc_close_to_return;; raise (HttpRequestError e)
       | PNotJson => _disc_close_to_return
       | PJson d =>
           modify (set_fbx_desc (Some d));;
           name ← getitem d "device_name";
           if negb (py_eqb name (VStr _DEFAULT_DEVICE_NAME)) then _disc_close_to_return
           else mret (FDesc d)
       end) st.
Proof.
  intros H6 Hset Hno. unfold discover. cbn [discover_rec]. rewrite H6, Hset.
  unfold mbind at 1. unfold M_bind. rewrite try_check_session.
  rewrite check_session_closed by done.
  unfold mbind at 1. unfold M_bind, get.
  assert (match _session st with Some ses => closed ses | None => true end = true) as ->.
  { unfold no_open_session in Hno. by destruct (_session st). }
  reflexivity.
Qed.

Lemma connect_run (hs : string) (p : pyval) (pn : Z) (s : string) (st : state) :
  url_port p = Some pn ->
  _disc_connect E (VStr hs) p s st
  = match connect_ex E (count is_socket (trace st)) (VStr hs) pn with
    | SockCode code =>
        if code =? 0 then
          (Done true,
           set_trace (trace st ++ [ESocket (VStr hs) pn;
                                   ENewSession (bool_decide (s = "s"))])
             (set_session (Some (Session false [])) st))
        else
          (_disc_close_to_return;; mret false)
            (set_trace (trace st ++ [ESocket (VStr hs) pn]) st)
    | SockGaiError =>
        (Raised GaiError, set_trace (trace st ++ [ESocket (VStr hs) pn]) st)
    | SockOverflowError =>
        (Raised OverflowError, set_trace (trace st ++ [ESocket (VStr hs) pn]) st)
    | SockTypeError =>
        (Raised TypeError, set_trace (trace st ++ [ESocket (VStr hs) pn]) st)
    end.
Proof.
  intros Hp. unfold _disc_connect.
  rewrite (bind_done _ _ _ _ _ (url_port_py_int p pn st Hp)).
  unfold socket_connect_ex. munfold. simpl.
  destruct (connect_ex E _ _ _) as [code| | |]; try done. simpl.
  destruct (_ =? 0); simpl; [|done].
  by rewrite <- app_assoc.
Qed.

End NotFound.

(** X4: on a client without open session, when the socket probe answers
    with an error number, [discover] returns [None] after the probe: it
    opens no session and sends no request. *)
Theorem closed_port_is_not_requested (E : env) (host port p : pyval)
    (hs s : string) (pn code : Z) (st : state) :
  is_ipv6 E host = false ->
  _disc_set_host_and_port host port = (VStr hs, p, s) ->
  url_port p = Some pn ->
  no_open_session st ->
  connect_ex E (count is_socket (trace st)) (VStr hs) pn = SockCode code ->
  code <> 0 ->
  discover E host port st
  = (Done FNone,
     set_fbx_desc None (set_trace (trace st ++ [ESocket (VStr hs) pn]) st)).
Proof.
  intros H6 Hset Hp Hno Hcode Hrefused.
  rewrite (discover_closed_unfold E host port (VStr hs) p s) by done.
  unfold mbind at 1. unfold M_bind. rewrite (connect_run E hs p pn) by done.
  rewrite Hcode. apply Z.eqb_neq in Hrefused. rewrite Hrefused.
  unfold _disc_close_to_return. munfold. simpl.
  unfold no_open_session in Hno.
  destruct st as [v ad fd fu tf [[c pool]|] ac fs tr]; simpl in *.
  - rewrite Hno. simpl. by destruct fd.
  - by destruct fd.
Qed.

Lemma closed_port_is_not_requested_witness :
  discover unreachable VNone VNone fresh
  = (Done FNone,
     set_fbx_desc None
       (set_trace (trace fresh ++ [ESocket (VStr "mafreebox.freebox.fr") 443]) fresh)).
Proof.
  apply (closed_port_is_not_requested unreachable VNone VNone (VStr "443")
           "mafreebox.freebox.fr" "s" 443 111 fresh).
  - reflexivity.
  - reflexivity.
  - reflexivity.
  - exact I.
  - reflexivity.
  - discriminate.
Defined.

(** X25: on a client without open session, an error of the socket probe
    leaves [discover] as it is, after the probe and with nothing closed
    or cleared: [socket.gaierror] for a host name that does not resolve,
    [OverflowError] for a port that is not in 0..65535, [TypeError] for a
    host name that cannot be encoded. *)
Theorem socket_error_escapes_discover (E : env) (host port p : pyval)
    (hs s : string) (pn : Z) (st : state) :
  is_ipv6 E host = false ->
  _disc_set_host_and_port host port = (VStr hs, p, s) ->
  url_port p = Some pn ->
  no_open_session st ->
  match connect_ex E (count is_socket (trace st)) (VStr hs) pn with
  | SockCode _ => True
  | SockGaiError =>
      discover E host port st
      = (Raised GaiError, set_trace (trace st ++ [ESocket (VStr hs) pn]) st)
  | SockOverflowError =>
      discover E host port st
      = (Raised OverflowError, set_trace (trace st ++ [ESocket (VStr hs) pn]) st)
  | SockTypeError =>
      discover E host port st
      = (Raised TypeError, set_trace (trace st ++ [ESocket (VStr hs) pn]) st)
  end.
Proof.
  intros H6 Hset Hp Hno.
  pose proof (discover_closed_unfold E host port (VStr hs) p s st H6 Hset Hno) as Hrun.
  unfold mbind at 1 in Hrun. unfold M_bind in Hrun.
  rewrite (connect_run E hs p pn) in Hrun by done.
  by destruct (connect_ex E _ _ _).
Qed.

Lemma socket_error_escapes_discover_witness :
  discover unresolved (VStr "box.invalid") VNone fresh
  = (Raised GaiError,
     set_trace (trace fresh ++ [ESocket (VStr "box.invalid") 80]) fresh).
Proof.
  apply (socket_error_escapes_discover unresolved (VStr "box.invalid") VNone
           (VStr "80") "box.invalid" "" 80 fresh);
    first [reflexivity | exact I].
Defined.

(** X5: on a client without open session, when the socket accepts and the
    answer to the request is no JSON, or is a description whose
    [device_name] is not [Freebox Server], [discover] returns [None], with
    the session it opened closed again and nothing cached. *)
Theorem foreign_service_is_not_found (E : env) (host port p : pyval)
    (hs s : string) (pn : Z) (st : state) :
  is_ipv6 E host = false ->
  _disc_set_host_and_port host port = (VStr hs, p, s) ->
  url_port p = Some pn ->
  no_open_session st ->
  connect_ex E (count is_socket (trace st)) (VStr hs) pn = SockCode 0 ->
  let url := "http" +:+ s +:+ "://" +:+ hs +:+ ":" +:+ py_str p +:+ "/api_version" in
  get_api_version E (count is_probe (trace st)) url = PNotJson
  \/ (exists d name,
        get_api_version E (count is_probe (trace st)) url = PJson d
        /\ d !! "device_name" = Some name
        /\ py_eqb name (VStr "Freebox Server") = false) ->
  discover E host port st
  = (Done FNone,
     set_fbx_desc None
       (set_session (Some (Session true []))
          (set_trace (trace st ++ [ESocket (VStr hs) pn;
                                   ENewSession (bool_decide (s = "s"));
                                   EGetApiVersion url; ECloseSession; ESleep 250]) st))).
Proof.
  intros H6 Hset Hp Hno Haccept url Hreply.
  rewrite (discover_closed_unfold E host port (VStr hs) p s) by done.
  unfold mbind at 1. unfold M_bind. rewrite (connect_run E hs p pn) by done.
  rewrite Haccept. cbn [Z.eqb negb].
  unfold mbind at 1. unfold M_bind.
  unfold session_get_api_version. unfold mbind at 1. unfold M_bind, get.
  cbn [_session set_session set_trace]. rewrite Hp.
  unfold mbind at 1. unfold M_bind, emit, modify.
  rewrite !trace_set_trace. cbn [py_str]. fold url.
  rewrite count_app.
  change (count is_probe [ESocket (VStr hs) pn; ENewSession (bool_decide (s = "s"))])
    with 0%nat.
  rewrite Nat.add_0_r.
  unfold mbind at 1. unfold M_bind.
  destruct Hreply as [Hr|(d & name & Hr & Hname & Hne)]; rewrite Hr.
  - unfold mret at 1 2. unfold M_ret.
    unfold _disc_close_to_return, session_close, sleep.
    munfold. destruct st as [v ad fd fu tf se ac fs tr]. simpl.
    destruct fd; simpl; by rewrite <- !app_assoc.
  - unfold mret at 1. unfold M_ret.
    unfold mbind at 1. unfold M_bind, modify.
    unfold mbind at 1. unfold M_bind, getitem. rewrite Hname.
    unfold mret at 1. unfold M_ret.
    unfold _DEFAULT_DEVICE_NAME. rewrite Hne. cbn [negb].
    unfold _disc_close_to_return, session_close, sleep.
    munfold. simpl. by rewrite <- !app_assoc.
Qed.

Lemma foreign_service_is_not_found_witness :
  discover (appliance [PJson (<["device_name" := VStr "NAS"]> sample_box)] [])
    VNone VNone fresh
  = (Done FNone,
     set_fbx_desc None
       (set_session (Some (Session true []))
          (set_trace (trace fresh ++ [ESocket (VStr "mafreebox.freebox.fr") 443;
                                      ENewSession (bool_decide ("s" = "s"));
                                      EGetApiVersion
                                        ("http" +:+ "s" +:+ "://" +:+ "mafreebox.freebox.fr"
                                         +:+ ":" +:+ py_str (VStr "443") +:+ "/api_version");
                                      ECloseSession; ESleep 250]) fresh))).
Proof.
  apply (foreign_service_is_not_found
           (appliance [PJson (<["device_name" := VStr "NAS"]> sample_box)] [])
           VNone VNone (VStr "443") "mafreebox.freebox.fr" "s" 443 fresh).
  - reflexivity.
  - reflexivity.
  - reflexivity.
  - exact I.
  - reflexivity.
  - right. exists (<["device_name" := VStr "NAS"]> sample_box), (VStr "NAS").
    split; [reflexivity|]. split; reflexivity.
Defined.

(** ** Probing twice *)





(** ** The cache and another target *)

(** X8: when a description is cached and the open session is connected to
    another host than the one asked for, [discover] does not answer from
    the cache: it forgets the description, closes the session and probes
    the resolved host and port from the closed client. Its result is the
    result of that probe, except that a [ValueError] of the probe comes
    back as a returned value. *)
Theorem other_host_drops_cache (E : env) (host port h p : pyval) (s : string)
    (d : dict) (c : conn_key) (rest : list conn_key) (st : state) :
  is_ipv6 E host = false ->
  _disc_set_host_and_port host port = (h, p, s) ->
  fbx_desc st = Some d -> d <> ∅ ->
  _session st = Some (Session false (c :: rest)) ->
  py_eqb (VStr (ck_host c)) h = false ->
  discover E host port st
  = match discover E h p (dropped st) with
    | (Raised (ValueError (Some v)), st') => (Done v, st')
    | (Raised (ValueError None), st') => (Raised IndexError, st')
    | r => r
    end.
Proof.
  intros H6 Hset Hd Hne Hses Hh.
  unfold discover at 1. change 2%nat with (S 1).
  remember 1%nat as one eqn:Hone. cbn [discover_rec]. rewrite H6, Hset.
  unfold mbind at 1. unfold M_bind. rewrite try_check_session.
  assert (Hclose : _disc_close_to_return st = (Done FNone, dropped st)).
  { unfold _disc_close_to_return, session_close, sleep, dropped. munfold.
    rewrite Hd, Hses. simpl. by rewrite <- app_assoc. }
  assert (Hno : no_open_session (dropped st)) by done.
  assert (Hcs : _disc_check_session (discover_rec E one) h p s st
                = match discover E h p (dropped st) with
                  | (Done r, st') => (Raised (ValueError (Some r)), st')
                  | (Raised e, st') => (Raised e, st')
                  | (Unfinished, st') => (Unfinished, st')
                  end).
  { unfold _disc_check_session. unfold mbind at 1. unfold M_bind, get.
    rewrite Hd, Hses. cbn [closed conns negb andb].
    rewrite bool_decide_eq_false_2 by done. cbn [negb andb]. rewrite Hh.
    rewrite (bind_done _ _ _ _ _ Hclose).
    unfold discover.
    rewrite (proj1 (discover_rec_closed E 1 h p (dropped st) Hno)).
    subst one. unfold mbind, M_bind.
    by destruct (discover_rec E 1 h p (dropped st)) as [[r|e|] st']. }
  rewrite Hcs.
  destruct (discover E h p (dropped st)) as [[r|e|] st'] eqn:Hrec; try done.
  by destruct e as [| | | |[v|]| | | | | | | |].
Qed.

Lemma other_host_drops_cache_witness :
  discover (appliance [PJson sample_box; PJson sample_box] []) (VStr "box.example.org")
    VNone discovered
  = match discover (appliance [PJson sample_box; PJson sample_box] [])
            (VStr "box.example.org") (VStr "80") (dropped discovered) with
    | (Raised (ValueError (Some v)), st') => (Done v, st')
    | (Raised (ValueError None), st') => (Raised IndexError, st')
    | r => r
    end.
Proof.
  apply (other_host_drops_cache (appliance [PJson sample_box; PJson sample_box] [])
           (VStr "box.example.org") VNone (VStr "box.example.org") (VStr "80") ""
           sample_box (ConnKey "mafreebox.freebox.fr" 443 true) [] discovered).
  - reflexivity.
  - reflexivity.
  - vm_compute. reflexivity.
  - intros H. by apply (f_equal (fun m : dict => m !! "device_name")) in H.
  - vm_compute. reflexivity.
  - reflexivity.
Defined.

(** ** The resolved host and port *)

(** X2: whatever the caller gives, the host and the port that
    [_disc_set_host_and_port] returns are truthy, the marker is ["s"] or
    empty, it is empty exactly when the port equals ["80"], and the function
    returns its own result unchanged. *)
Theorem fallback_result_is_complete (host port h p : pyval) (s : string) :
  _disc_set_host_and_port host port = (h, p, s) ->
  py_truthy h = true /\ py_truthy p = true
  /\ (s = "s" \/ s = "")
  /\ (s = "" <-> py_eqb p (VStr "80") = true)
  /\ _disc_set_host_and_port h p = (h, p, s).
Proof.
  intros H. pose proof (set_host_and_port_idem _ _ _ _ _ H) as Hidem.
  split; [|split; [|split; [|split; [|done]]]]; clear Hidem;
    revert H; unfold _disc_set_host_and_port; simpl;
    destruct (py_truthy host) eqn:Hh, (py_truthy port) eqn:Hp; simpl;
    intros [= <- <- <-]; rewrite ?falsy_not_http_port by done; simpl;
    try done; auto;
    destruct (py_eqb port _); simpl; auto; by split.
Qed.

Lemma fallback_result_is_complete_witness :
  py_truthy (VStr "192.168.0.254") = true /\ py_truthy (VStr "80") = true
  /\ ("" = "s" \/ "" = "")
  /\ ("" = "" <-> py_eqb (VStr "80") (VStr "80") = true)
  /\ _disc_set_host_and_port (VStr "192.168.0.254") (VStr "80")
     = (VStr "192.168.0.254", VStr "80", "").
Proof.
  apply (fallback_result_is_complete (VStr "192.168.0.254") VNone).
  reflexivity.
Defined.

(** ** The version of the appliance as request *)

Lemma check_api_version_pinned (d : dict) (full : string) (st : state) :
  fbx_desc st = Some d -> d !! "api_version" = Some (VStr full) ->
  api_version st = "server" ->
  _check_api_version st
  = _check_api_version (set_api_version ("v" +:+ before_dot full) st).
Proof.
  intros Hdesc Hver Hreq.
  unfold _check_api_version. munfold.
  cbn [fbx_desc set_api_version]. rewrite Hdesc, Hver.
  cbn [api_version set_api_version]. rewrite Hreq.
  rewrite (bool_decide_eq_true_2 ("server" = "server")) by done.
  rewrite (bool_decide_eq_false_2 ("v" +:+ before_dot full = "server"))
    by (by change ("v" +:+ before_dot full) with (String "v" (before_dot full))).
  reflexivity.
Qed.

(** X11: the request ["server"] pins [api_version] to ["v"] and the major
    version of the appliance. A major version above ["6"] is kept with the
    warning of a new version, ["6"] is kept in silence, and one below ["6"]
    that is a positive integer is kept with the deprecation warning. *)
Theorem server_request_pins_version (d : dict) (full : string) (st : state) :
  fbx_desc st = Some d -> d !! "api_version" = Some (VStr full) ->
  api_version st = "server" ->
  let server := before_dot full in
  let pinned := set_api_version ("v" +:+ server) st in
  (str_lt "6" server = true ->
     _check_api_version st
     = (Done tt, warned ("Using new API version v" +:+ server
                         +:+ ", results may vary.") pinned))
  /\ (server = "6" -> _check_api_version st = (Done tt, pinned))
  /\ (forall n, str_lt server "6" = true -> int_of_str server = Some n -> 0 < n ->
        _check_api_version st
        = (Done tt, warned ("Using deprecated API version v" +:+ server
                            +:+ ", results may vary.") pinned)).
Proof.
  intros Hdesc Hver Hreq server pinned.
  rewrite (check_api_version_pinned d full) by done. fold server. fold pinned.
  assert (Hp : api_version pinned <> "server").
  { subst pinned. simpl.
    change ("v" +:+ server) with (String "v" server). done. }
  assert (Hshort : drop_first (api_version pinned) = server) by done.
  rewrite (check_api_version_branches d full pinned) by done.
  fold server. rewrite Hshort.
  split; [|split].
  - intros H6. rewrite H6, bool_decide_eq_true_2 by done. reflexivity.
  - intros ->. reflexivity.
  - intros n Hlt Hint Hn.
    assert (str_lt "6" server = false) as ->.
    { destruct (str_lt "6" server) eqn:H6; [|done].
      exfalso. revert Hlt H6. unfold str_lt, String.ltb.
      rewrite (String.compare_antisym "6" server).
      by destruct (String.compare server "6"). }
    cbn [andb]. cbv zeta. rewrite Hlt, Hint.
    assert (Z.ltb 0 n = true) as -> by lia.
    reflexivity.
Qed.

Lemma server_request_pins_version_witness :
  _check_api_version (probed "server" "8.0")
  = (Done tt, warned ("Using new API version v" +:+ before_dot "8.0"
                      +:+ ", results may vary.")
                (set_api_version ("v" +:+ before_dot "8.0") (probed "server" "8.0"))).
Proof.
  refine (proj1 (server_request_pins_version _ "8.0" (probed "server" "8.0") _ _ _) _);
    reflexivity.
Defined.

(** ** The prompt and the waits *)

Lemma pendings_cons (s : string) (l : list string) :
  pendings (s :: l) = ((if is_pending s then 1 else 0) + pendings l)%nat.
Proof.
  unfold pendings. rewrite filter_cons.
  destruct (is_pending s); by rewrite ?decide_True, ?decide_False by done.
Qed.

Lemma statuses_of_status (url s : string) (evs : list event) :
  statuses_of (EGetStatus url s :: evs) = s :: statuses_of evs.
Proof. reflexivity. Qed.

Section Prompt.
Variable E : env.
Variables (base_url : string) (track_id : pyval).

Let url := status_url base_url track_id.

Lemma poll_loop_prompts (fuel : nat) :
  forall (flag : bool) (status : option string) (st : state),
  exists evs,
    (poll_loop E fuel base_url track_id flag status st).2
      = set_trace (trace st ++ evs) st
    /\ count is_print evs
       = (if flag then 0 else if existsb is_pending (statuses_of evs) then 1 else 0)%nat
    /\ count is_sleep evs = pendings (statuses_of evs)
    /\ count is_status evs = length (statuses_of evs).
Proof.
  induction fuel as [|fuel IH]; intros flag status st;
    destruct (decide (status = Some "granted")) as [-> | Hs].
  1, 3: rewrite poll_loop_granted; exists []; simpl;
        rewrite app_nil_r, set_trace_same; by destruct flag.
  - rewrite poll_loop_no_fuel by done. exists []. simpl.
    rewrite app_nil_r, set_trace_same. by destruct flag.
  - rewrite poll_loop_step by done. cbn zeta. fold url.
    set (s := get_status E (count is_status (trace st)) url).
    assert (Hone : forall flag' : bool, is_pending s = false ->
      exists evs,
        set_trace (trace st ++ [EGetStatus url s]) st = set_trace (trace st ++ evs) st
        /\ count is_print evs
           = (if flag' then 0 else if existsb is_pending (statuses_of evs) then 1 else 0)%nat
        /\ count is_sleep evs = pendings (statuses_of evs)
        /\ count is_status evs = length (statuses_of evs)).
    { intros flag' Hp. exists [EGetStatus url s]. split; [done|].
      rewrite statuses_of_status. cbn [existsb]. rewrite pendings_cons, Hp.
      by destruct flag'. }
    case_bool_decide as Hd.
    { apply Hone. unfold is_pending. rewrite Hd. done. }
    case_bool_decide as Hp.
    { destruct (IH true (Some s)
        (set_trace (trace st ++ EGetStatus url s
                      :: (if flag then [] else [EPrint confirm_message])
                      ++ [ESleep 1000]) st)) as (evs & Hst & Hpr & Hsl & Hcs).
      exists (EGetStatus url s :: (if flag then [] else [EPrint confirm_message])
                ++ ESleep 1000 :: evs).
      assert (Hso : statuses_of (EGetStatus url s
                      :: (if flag then [] else [EPrint confirm_message])
                      ++ ESleep 1000 :: evs) = s :: statuses_of evs).
      { change (EGetStatus url s :: ?a ++ ?b)
          with ([EGetStatus url s] ++ a ++ b)%list.
        rewrite !statuses_of_app. by destruct flag. }
      rewrite Hso.
      assert (His : is_pending s = true)
        by (unfold is_pending; by rewrite bool_decide_eq_true_2).
      split; [|split; [|split]].
      - rewrite Hst. simpl. rewrite set_trace_twice. f_equal.
        rewrite <- app_assoc. simpl. by rewrite <- app_assoc.
      - rewrite count_cons, count_app, count_cons, Hpr. cbn [existsb].
        rewrite His. by destruct flag.
      - rewrite count_cons, count_app, count_cons, Hsl, pendings_cons, His.
        by destruct flag.
      - rewrite count_cons, count_app, count_cons, Hcs. by destruct flag. }
    assert (His : is_pending s = false)
      by (unfold is_pending; by rewrite bool_decide_eq_false_2).
    case_bool_decide as Ht.
    { by apply Hone. }
    destruct (IH flag (Some s) (set_trace (trace st ++ [EGetStatus url s]) st))
      as (evs & Hst & Hpr & Hsl & Hcs).
    exists (EGetStatus url s :: evs). split; [|split; [|split]].
    + rewrite Hst. simpl. rewrite set_trace_twice. f_equal. by rewrite <- app_assoc.
    + rewrite count_cons, Hpr, statuses_of_status. cbn [existsb].
      by rewrite His.
    + by rewrite count_cons, Hsl, statuses_of_status, pendings_cons, His.
    + by rewrite count_cons, Hcs, statuses_of_status.
Qed.

End Prompt.

(** X13: in every run of the polling loop of [_get_app_access], however it
    ends, the prompt is printed once if some request was answered
    [pending] and never otherwise, and the loop waits as many times as it
    was answered [pending]. *)
Theorem prompt_once_and_one_wait_per_pending (E : env) (fuel : nat)
    (base_url : string) (track_id : pyval) (st : state) :
  exists evs,
    (poll_loop E fuel base_url track_id false None st).2
      = set_trace (trace st ++ evs) st
    /\ count is_print evs
       = (if existsb is_pending (statuses_of evs) then 1 else 0)%nat
    /\ count is_sleep evs = pendings (statuses_of evs)
    /\ count is_status evs = length (statuses_of evs).
Proof. apply (poll_loop_prompts E base_url track_id fuel false None st). Qed.

(** ** Writing and reading the credential file *)

Lemma fingerprint_lookup (cred : dict) (k : string) :
  fingerprint cred !! k = if bool_decide (k ∈ desc_keys) then cred !! k else None.
Proof.
  unfold fingerprint. case_bool_decide as Hk.
  - destruct (cred !! k) as [v|] eqn:Hc.
    + by apply map_lookup_filter_Some.
    + apply map_lookup_filter_None. left. done.
  - apply map_lookup_filter_None. right. intros v _. done.
Qed.

Lemma fingerprint_misses_extra (cred desc : dict) (k : string) :
  is_Some (desc !! k) -> k ∉ desc_keys -> dict_eqb (fingerprint cred) desc = false.
Proof.
  intros [v Hv] Hk. unfold dict_eqb. apply bool_decide_eq_false_2. intros Heq.
  assert (H : (py_norm <$> fingerprint cred) !! k = (py_norm <$> desc) !! k)
    by by rewrite Heq.
  rewrite !lookup_fmap, fingerprint_lookup, Hv in H.
  by rewrite bool_decide_eq_false_2 in H.
Qed.

(** X16: [_writefile_app_token] replaces the file at its path, whatever it
    held, and no other file; the token and the track id it stores are those
    of the call, also when the descriptor has fields of these names; and
    what [_readfile_app_token] then returns as descriptor is the descriptor
    cut down to the four identity fields. *)
Theorem write_replaces_one_file (app_token track_id : pyval) (desc : dict)
    (path : string) (st : state) :
  exists st' cred,
    _writefile_app_token app_token track_id desc path st = (Done tt, st')
    /\ files st' !! path = Some (FJson cred)
    /\ (forall q, q <> path -> files st' !! q = files st !! q)
    /\ cred !! "app_token" = Some app_token /\ cred !! "track_id" = Some track_id
    /\ (forall k, k <> "app_token" -> k <> "track_id" -> cred !! k = desc !! k)
    /\ (forall tok0 tid0 desc0,
          files (_writefile_app_token app_token track_id desc path
                   (_writefile_app_token tok0 tid0 desc0 path st).2).2 = files st')
    /\ _readfile_app_token path st'
       = (Done (app_token, track_id, Some (fingerprint desc)), st').
Proof.
  destruct (read_after_write app_token track_id desc path st) as (st' & Hw & Hf & Hr).
  exists st', (<["track_id" := track_id]> (<["app_token" := app_token]> desc)).
  split; [done|]. rewrite Hf. split; [by rewrite lookup_insert_eq|].
  split; [by intros q Hq; rewrite lookup_insert_ne|].
  split; [by rewrite lookup_insert_ne, lookup_insert_eq|].
  split; [by rewrite lookup_insert_eq|].
  split; [by intros k H1 H2; rewrite !lookup_insert_ne|].
  split; [|done].
  intros tok0 tid0 desc0. simpl. by rewrite insert_insert_eq.
Qed.

(** X17: fields of the credential file outside the token, the track id and
    the four identity fields do not change what [_readfile_app_token]
    returns. *)
Theorem read_ignores_unknown_fields (path k : string) (v : pyval) (cred : dict)
    (st : state) :
  k ∉ desc_keys -> k <> "app_token" -> k <> "track_id" ->
  files st !! path = Some (FJson cred) ->
  (_readfile_app_token path
     (set_files (<[path := FJson (<[k := v]> cred)]> (files st)) st)).1
  = (_readfile_app_token path st).1.
Proof.
  intros Hk Ht Hi Hf. unfold _readfile_app_token. munfold. simpl.
  rewrite lookup_insert_eq, Hf. rewrite !lookup_insert_ne by done.
  destruct (cred !! "app_token") as [tok|]; [|done].
  destruct (cred !! "track_id") as [tid|]; [|done]. simpl.
  by rewrite map_filter_insert_not by (by intros y).
Qed.

Lemma read_ignores_unknown_fields_witness :
  (_readfile_app_token "app_auth"
     (set_files (<["app_auth" := FJson (<["comment" := VStr "mine"]>
                    (stored_record (VStr "old") (VInt 3) sample_desc))]>
                 (files stored_client)) stored_client)).1
  = (_readfile_app_token "app_auth" stored_client).1.
Proof.
  apply (read_ignores_unknown_fields "app_auth" "comment" (VStr "mine")
           (stored_record (VStr "old") (VInt 3) sample_desc) stored_client).
  - by apply (bool_decide_unpack _).
  - done.
  - done.
  - reflexivity.
Defined.

(** ** Access without a usable credential *)

Lemma count_authorize_after_reading (st : state) :
  count is_authorize (trace (set_trace (trace st ++ [ELog DEBUG reading_message]) st))
  = count is_authorize (trace st).
Proof. rewrite trace_set_trace, count_app. simpl. by rewrite Nat.add_0_r. Qed.

(** X12: when there is no credential file and the appliance does not answer
    the token request with a success, [_get_app_access] raises the
    [AuthorizationError] with the answer in its message, whatever the fuel:
    it asks for no status and writes no file. *)
Theorem refused_token_request_is_fatal (E : env) (fuel : nat) (host port : pyval)
    (version path base : string) (desc : dict) (st : state) :
  _get_base_url host port (Some version) st = (Done base, st) ->
  files st !! path = None ->
  py_truthy (ar_success (post_authorize E (count is_authorize (trace st))
                           (urljoin base "login/authorize/") desc)) = false ->
  _get_app_access E fuel host port version path desc st
  = (Raised (AuthorizationError
       ("Authorization failed (APIResponse: "
        +:+ ar_dump (post_authorize E (count is_authorize (trace st))
                       (urljoin base "login/authorize/") desc) +:+ ").")),
     set_trace (trace st ++ [ELog DEBUG reading_message;
                  ELog WARNING
                    "No valid authorization file found, requesting authorization.";
                  EPostAuthorize (urljoin base "login/authorize/") desc]) st).
Proof.
  intros Hb Hf Hno.
  destruct (get_app_access_stops E fuel host port version path desc st)
    as (_ & _ & Hdone).
  specialize (Hdone base Hb). rewrite Hf in Hdone. rewrite Hdone.
  rewrite pairing_run_unfold, count_authorize_after_reading, Hno. simpl.
  unfold after_request. rewrite trace_set_trace, set_trace_twice.
  by rewrite <- app_assoc.
Qed.

Lemma refused_token_request_is_fatal_witness :
  _get_app_access refusing 0 (VStr "mafreebox.freebox.fr") (VStr "443") "v6"
    "app_auth" sample_desc discovered
  = (Raised (AuthorizationError
       ("Authorization failed (APIResponse: "
        +:+ ar_dump (post_authorize refusing (count is_authorize (trace discovered))
                       (urljoin discovered_base_url "login/authorize/") sample_desc)
        +:+ ").")),
     set_trace (trace discovered ++ [ELog DEBUG reading_message;
                  ELog WARNING
                    "No valid authorization file found, requesting authorization.";
                  EPostAuthorize (urljoin discovered_base_url "login/authorize/")
                    sample_desc]) discovered).
Proof.
  apply (refused_token_request_is_fatal refusing 0 (VStr "mafreebox.freebox.fr")
           (VStr "443") "v6" "app_auth" discovered_base_url sample_desc discovered).
  - vm_compute. reflexivity.
  - reflexivity.
  - reflexivity.
Defined.

(** X14: a credential file that is damaged is not replaced by a pairing:
    [_get_app_access] raises the error of the reading, after the message
    of the reading, and sends no request. The error is [JSONDecodeError]
    for a text that is no JSON, [TypeError] for a JSON value that is no
    object, [KeyError] on [app_token] for an object without the token, and
    [KeyError] on [track_id] for an object with the token and without the
    track id. *)
Theorem damaged_credential_file_is_fatal (E : env) (fuel : nat) (host port : pyval)
    (version path base : string) (desc : dict) (f : file) (st : state) :
  _get_base_url host port (Some version) st = (Done base, st) ->
  files st !! path = Some f ->
  let stopped (e : exn) :=
    _get_app_access E fuel host port version path desc st
    = (Raised e, set_trace (trace st ++ [ELog DEBUG reading_message]) st) in
  match f with
  | FGarbage => stopped JSONDecodeError
  | FJsonOther => stopped TypeError
  | FJson cred =>
      (cred !! "app_token" = None -> stopped (KeyError "app_token"))
      /\ (is_Some (cred !! "app_token") -> cred !! "track_id" = None ->
          stopped (KeyError "track_id"))
  end.
Proof.
  intros Hb Hf stopped. subst stopped.
  destruct (get_app_access_stops E fuel host port version path desc st)
    as (_ & _ & Hdone).
  specialize (Hdone base Hb). rewrite Hf in Hdone.
  destruct f as [cred| |]; [|done|done].
  split.
  - intros Ht. by rewrite Ht in Hdone.
  - intros [tok Ht] Hi. by rewrite Ht, Hi in Hdone.
Qed.

Lemma damaged_credential_file_is_fatal_witness :
  (_get_app_access refusing 0 (VStr "mafreebox.freebox.fr") (VStr "443") "v6"
     "app_auth" sample_desc (set_files {["app_auth" := FJson sample_desc]} discovered)).1
  = Raised (KeyError "app_token")
  /\ (_get_app_access refusing 0 (VStr "mafreebox.freebox.fr") (VStr "443") "v6"
        "app_auth" sample_desc
        (set_files {["app_auth" := FJson (<["app_token" := VStr "tok"]> sample_desc)]}
           discovered)).1
     = Raised (KeyError "track_id")
  /\ (_get_app_access refusing 0 (VStr "mafreebox.freebox.fr") (VStr "443") "v6"
        "app_auth" sample_desc (set_files {["app_auth" := FJsonOther]} discovered)).1
     = Raised TypeError
  /\ (_get_app_access refusing 0 (VStr "mafreebox.freebox.fr") (VStr "443") "v6"
        "app_auth" sample_desc (set_files {["app_auth" := FGarbage]} discovered)).1
     = Raised JSONDecodeError.
Proof.
  split; [|split; [|split]].
  - rewrite (proj1 (damaged_credential_file_is_fatal refusing 0
               (VStr "mafreebox.freebox.fr") (VStr "443") "v6" "app_auth"
               discovered_base_url sample_desc (FJson sample_desc)
               (set_files {["app_auth" := FJson sample_desc]} discovered)
               ltac:(vm_compute; reflexivity) eq_refl) eq_refl).
    reflexivity.
  - rewrite (proj2 (damaged_credential_file_is_fatal refusing 0
               (VStr "mafreebox.freebox.fr") (VStr "443") "v6" "app_auth"
               discovered_base_url sample_desc
               (FJson (<["app_token" := VStr "tok"]> sample_desc))
               (set_files
                  {["app_auth" := FJson (<["app_token" := VStr "tok"]> sample_desc)]}
                  discovered)
               ltac:(vm_compute; reflexivity) eq_refl)
               (ex_intro _ (VStr "tok") eq_refl) eq_refl).
    reflexivity.
  - rewrite (damaged_credential_file_is_fatal refusing 0
               (VStr "mafreebox.freebox.fr") (VStr "443") "v6" "app_auth"
               discovered_base_url sample_desc FJsonOther
               (set_files {["app_auth" := FJsonOther]} discovered)
               ltac:(vm_compute; reflexivity) eq_refl).
    reflexivity.
  - rewrite (damaged_credential_file_is_fatal refusing 0
               (VStr "mafreebox.freebox.fr") (VStr "443") "v6" "app_auth"
               discovered_base_url sample_desc FGarbage
               (set_files {["app_auth" := FGarbage]} discovered)
               ltac:(vm_compute; reflexivity) eq_refl).
    reflexivity.
Defined.

(** X15: a descriptor with a field beyond the four identity fields never
    matches a stored credential, since the comparison is with the four
    fields read back: [_get_app_access] then requests a new token at every
    call, whatever the file holds. *)
Theorem extra_descriptor_field_pairs_again (E : env) (fuel : nat) (host port : pyval)
    (version path base : string) (desc cred : dict) (tok tid : pyval) (k : string)
    (st : state) :
  is_Some (desc !! k) -> k ∉ desc_keys ->
  _get_base_url host port (Some version) st = (Done base, st) ->
  files st !! path = Some (FJson cred) ->
  cred !! "app_token" = Some tok -> cred !! "track_id" = Some tid ->
  exists evs,
    trace (_get_app_access E fuel host port version path desc st).2
    = (trace st ++ [ELog DEBUG reading_message;
         ELog WARNING "No valid authorization file found, requesting authorization.";
         EPostAuthorize (urljoin base "login/authorize/") desc] ++ evs)%list.
Proof.
  intros Hsome Hk Hb Hf Ht Hi.
  rewrite (get_app_access_unfold E fuel host port version path desc st base cred tok tid)
    by done.
  cbn zeta. rewrite (fingerprint_misses_extra cred desc k) by done.
  rewrite orb_true_r.
  destruct (pairing_run_trace E fuel path desc base
              (set_trace (trace st ++ [ELog DEBUG reading_message]) st)) as (evs & Hev).
  exists evs. rewrite trace_set_trace, <- app_assoc in Hev.
  destruct (pairing_run _ _ _ _ _ _) as [[[tok' tid']|e|] st']; try done.
  by destruct (desc !! "app_id").
Qed.

Lemma extra_descriptor_field_pairs_again_witness :
  exists evs,
    trace (_get_app_access refusing 0 (VStr "mafreebox.freebox.fr") (VStr "443") "v6"
             "app_auth" (<["note" := VStr "x"]> sample_desc)
             (set_files {["app_auth" := FJson (stored_record (VStr "old") (VInt 3)
                                                 (<["note" := VStr "x"]> sample_desc))]}
                discovered)).2
    = (trace (set_files {["app_auth" := FJson (stored_record (VStr "old") (VInt 3)
                                                 (<["note" := VStr "x"]> sample_desc))]}
                discovered)
       ++ [ELog DEBUG reading_message;
           ELog WARNING "No valid authorization file found, requesting authorization.";
           EPostAuthorize (urljoin discovered_base_url "login/authorize/")
             (<["note" := VStr "x"]> sample_desc)] ++ evs)%list.
Proof.
  apply (extra_descriptor_field_pairs_again refusing 0 (VStr "mafreebox.freebox.fr")
           (VStr "443") "v6" "app_auth" discovered_base_url
           (<["note" := VStr "x"]> sample_desc)
           (stored_record (VStr "old") (VInt 3) (<["note" := VStr "x"]> sample_desc))
           (VStr "old") (VInt 3) "note").
  - by exists (VStr "x").
  - by apply (bool_decide_unpack _).
  - vm_compute. reflexivity.
  - reflexivity.
  - reflexivity.
  - reflexivity.
Defined.

(** ** The descriptor and the setup of [open] *)

Lemma app_desc_valid_iff (desc : dict) :
  _is_app_desc_valid desc = true <-> forall k, k ∈ desc_keys -> is_Some (desc !! k).
Proof.
  unfold _is_app_desc_valid. rewrite forallb_forall. fold desc_keys. split.
  - intros H k Hk. eapply bool_decide_eq_true_1. apply H.
    by apply list_elem_of_In.
  - intros H k Hk. apply bool_decide_eq_true_2. apply H.
    by apply list_elem_of_In.
Qed.

(** X1: [open] on a descriptor that lacks one of the four identity fields
    raises [InvalidTokenError] and does nothing else: the client, the files
    and the trace stay as they are. Only the missing field can make such a
    descriptor valid: with any other field added it stays invalid. *)
Theorem invalid_descriptor_opens_nothing (E : env) (fuel : nat) (host port : pyval)
    (st : state) (k : string) :
  k ∈ desc_keys -> app_desc st !! k = None ->
  open E fuel host port st
  = (Raised (InvalidTokenError "Invalid application descriptor"), st)
  /\ (forall k' v, _is_app_desc_valid (<[k' := v]> (app_desc st)) = true -> k' = k).
Proof.
  intros Hk Hnone. split.
  - apply open_invalid. destruct (_is_app_desc_valid (app_desc st)) eqn:Hv; [|done].
    pose proof (proj1 (app_desc_valid_iff _) Hv k Hk) as Hs.
    rewrite Hnone in Hs. by destruct Hs.
  - intros k' v Hv. pose proof (proj1 (app_desc_valid_iff _) Hv k Hk) as Hs.
    destruct (decide (k' = k)) as [|Hne]; [done|].
    rewrite lookup_insert_ne, Hnone in Hs by done. by destruct Hs.
Qed.

Lemma invalid_descriptor_opens_nothing_witness :
  open refusing 0 VNone VNone (init (delete "app_id" sample_desc) "app_auth" "v6" ∅)
  = (Raised (InvalidTokenError "Invalid application descriptor"),
     init (delete "app_id" sample_desc) "app_auth" "v6" ∅).
Proof.
  apply (invalid_descriptor_opens_nothing refusing 0 VNone VNone
           (init (delete "app_id" sample_desc) "app_auth" "v6" ∅) "app_id").
  - by apply (bool_decide_unpack _).
  - reflexivity.
Defined.

(** X10: [_open_setup] changes nothing in the client and keeps what the
    caller chose: a host that is given and is no IPv4 address, and a port
    that is given and is not ["80"], are returned as they are; without
    HTTPS on the appliance, a missing host or port gets the default. *)
Theorem open_setup_keeps_explicit_choice (E : env) (host port h p : pyval)
    (st st' : state) :
  _open_setup E host port st = (Done (h, p), st') ->
  st' = st
  /\ (host <> VNone -> is_ipv4 E host = false -> h = host)
  /\ (port <> VNone -> py_eqb port (VStr "80") = false -> p = port)
  /\ (forall d, fbx_desc st = Some d ->
        (exists a, d !! "https_available" = Some a /\ py_truthy a = false) ->
        h = (if bool_decide (host = VNone) then VStr "mafreebox.freebox.fr" else host)
        /\ p = (if bool_decide (port = VNone) then VStr "80" else port)).
Proof.
  unfold _open_setup. munfold. simpl.
  destruct (fbx_desc st) as [d|]; [|done].
  destruct (d !! "https_available") as [a|] eqn:Ha; [|done].
  munfold. simpl.
  destruct (py_truthy a) eqn:Hta.
  - destruct (bool_decide (host = VNone) || is_ipv4 E host) eqn:Hh;
      destruct (bool_decide (port = VNone) || py_eqb port (VStr _DEFAULT_HTTP_PORT)) eqn:Hp.
    all: repeat match goal with
         | |- context [match ?x !! ?k with _ => _ end] => destruct (x !! k)
         end; munfold; simpl; try done.
    all: intros [= <- <- <-]; split; [done|].
    all: split; [|split].
    all: try (intros d' [= <-] (a' & Ha' & Hf); congruence).
    all: try done.
    all: try (intros H1 H2; apply orb_true_iff in Hh as [Hh|Hh];
              [by apply bool_decide_eq_true_1 in Hh|congruence]).
    all: try (intros H1 H2; apply orb_true_iff in Hp as [Hp|Hp];
              [by apply bool_decide_eq_true_1 in Hp|unfold _DEFAULT_HTTP_PORT in Hp; congruence]).
  - intros [= <- <- <-]. split; [done|]. split; [|split].
    + intros H _. by rewrite bool_decide_eq_false_2.
    + intros H _. by rewrite bool_decide_eq_false_2.
    + done.
Qed.

Lemma open_setup_keeps_explicit_choice_witness :
  exists h p st',
    _open_setup refusing (VStr "box.example.org") (VStr "8443") discovered
    = (Done (h, p), st')
    /\ st' = discovered /\ h = VStr "box.example.org" /\ p = VStr "8443".
Proof.
  exists (VStr "box.example.org"), (VStr "8443"), discovered.
  assert (H : _open_setup refusing (VStr "box.example.org") (VStr "8443") discovered
              = (Done (VStr "box.example.org", VStr "8443"), discovered))
    by (vm_compute; reflexivity).
  split; [exact H|].
  destruct (open_setup_keeps_explicit_choice refusing (VStr "box.example.org")
              (VStr "8443") (VStr "box.example.org") (VStr "8443") discovered
              discovered H) as (H1 & H2 & H3 & _).
  split; [exact H1|]. split; reflexivity.
Defined.

(** ** What a successful [open] leaves *)

Section Opened.
Variable E : env.

Lemma pairing_run_done (fuel : nat) (base path : string) (desc : dict)
    (tok tid : pyval) (st st' : state) :
  pairing_run E fuel base path desc st = (Done (tok, tid), st') ->
  files st' !! path = Some (FJson (stored_record tok tid desc))
  /\ same_client st st'.
Proof.
  rewrite pairing_run_unfold. destruct (negb _); [done|].
  destruct (poll_loop_run E base
              (ar_track_id (post_authorize E (count is_authorize (trace st))
                              (urljoin base "login/authorize/") desc))
              fuel false None (after_request base desc st)) as (evs & Hst & _).
  destruct (poll_loop _ _ _ _ _ _ _) as [[[]|e|] st0]; try done.
  simpl in Hst. subst st0. intros [= <- <- <-]. split.
  - unfold after_store. simpl. by rewrite lookup_insert_eq.
  - by repeat split.
Qed.

Lemma get_app_access_done (fuel : nat) (host port : pyval) (version path : string)
    (desc : dict) (a : access) (st st' : state) :
  _get_app_access E fuel host port version path desc st = (Done a, st') ->
  _get_base_url host port (Some version) st = (Done (acc_base_url a), st)
  /\ desc !! "app_id" = Some (acc_app_id a)
  /\ (exists cred, files st' !! path = Some (FJson cred)
                   /\ cred !! "app_token" = Some (acc_app_token a))
  /\ same_client st st'.
Proof.
  intros H.
  destruct (get_app_access_stops E fuel host port version path desc st)
    as (Hraise & Hunf & Hdone).
  destruct (_get_base_url host port (Some version) st) as [[base|e|] st0] eqn:Hb;
    pose proof (get_base_url_state _ _ _ _ _ _ Hb) as ->.
  2: { rewrite (Hraise e eq_refl) in H. done. }
  2: { rewrite (Hunf eq_refl) in H. done. }
  specialize (Hdone base eq_refl). clear Hraise Hunf.
  assert (Hpair :
    match pairing_run E fuel base path desc
            (set_trace (trace st ++ [ELog DEBUG reading_message]) st) with
    | (Done (tok', _), st1) =>
        match desc !! "app_id" with
        | Some app_id => (Done (Access base tok' app_id), st1)
        | None => (Raised (KeyError "app_id"), st1)
        end
    | (Raised e, st1) => (Raised e, st1)
    | (Unfinished, st1) => (Unfinished, st1)
    end = (Done a, st') ->
    (Done base, st) = (Done (acc_base_url a), st)
    /\ desc !! "app_id" = Some (acc_app_id a)
    /\ (exists cred, files st' !! path = Some (FJson cred)
                     /\ cred !! "app_token" = Some (acc_app_token a))
    /\ same_client st st').
  { destruct (pairing_run _ _ _ _ _ _) as [[[tok' tid']|e|] st1] eqn:Hrun; try done.
    apply pairing_run_done in Hrun as [Hfile Hsame].
    destruct (desc !! "app_id") as [app_id|]; [|done].
    intros [= <- <-]. split; [done|]. split; [done|]. split.
    - eexists. split; [exact Hfile|]. unfold stored_record.
      by rewrite lookup_insert_ne, lookup_insert_eq.
    - exact Hsame. }
  destruct (files st !! path) as [[cred| |]|] eqn:Hf.
  - destruct (cred !! "app_token") as [tok|] eqn:Ht;
      [destruct (cred !! "track_id") as [tid|] eqn:Hi|].
    + rewrite (get_app_access_unfold E fuel host port version path desc st base cred
                 tok tid) in H by done.
      cbn zeta in H. destruct (bool_decide (tok = VNone) || _).
      * by apply Hpair.
      * destruct (desc !! "app_id") as [app_id|]; [|done].
        injection H as <- <-. split; [done|]. split; [done|]. split.
        -- exists cred. by split.
        -- by repeat split.
    + rewrite Hdone in H. done.
    + rewrite Hdone in H. done.
  - rewrite Hdone in H. done.
  - rewrite Hdone in H. done.
  - rewrite Hdone in H. by apply Hpair.
Qed.

Lemma open_init_done (host port h p : pyval) (st st1 : state) :
  _open_init E host port st = (Done (h, p), st1) ->
  exists st0 url,
    st1 = set_fbx_url url st0 /\ _get_base_url h p None st0 = (Done url, st0).
Proof.
  unfold _open_init. intros H.
  apply bind_inv in H as [(u & sA & _ & H)|[(e & _ & He)|[_ He]]]; try done.
  apply bind_inv in H as [([h' p'] & sB & _ & H)|[(e & _ & He)|[_ He]]]; try done.
  apply bind_inv in H as [(u2 & sC & _ & H)|[(e & _ & He)|[_ He]]]; try done.
  apply bind_inv in H as [(u3 & sD & _ & H)|[(e & _ & He)|[_ He]]]; try done.
  apply bind_inv in H as [(url & sE & Hb & H)|[(e & _ & He)|[_ He]]]; try done.
  pose proof (get_base_url_state _ _ _ _ _ _ Hb) as ->.
  revert H. munfold. intros [= <- <- <-]. by exists sD, url.
Qed.

Lemma get_base_url_versioned (h p : pyval) (v root base u : string) (st : state) :
  _get_base_url h p None st = (Done root, st) ->
  _get_base_url h p (Some v) (set_fbx_url u st) = (Done base, set_fbx_url u st) ->
  exists d abu,
    fbx_desc st = Some d /\ d !! "api_base_url" = Some abu
    /\ base = root +:+ py_str abu +:+ v +:+ "/".
Proof.
  unfold _get_base_url. munfold. cbn [_session fbx_desc set_fbx_url].
  destruct (_session st) as [ses|]; [|done].
  destruct (conns ses) as [|c rest]; [done|].
  intros [= <-].
  destruct (fbx_desc st) as [d|]; [|done].
  destruct (d !! "api_base_url") as [abu|] eqn:Ha; [|done].
  intros [= <-]. by exists d, abu.
Qed.

End Opened.

(** X24: when [open] returns, the client holds an access object whose base
    URL is [fbx_url] followed by the [api_base_url] of the appliance, the
    API version of the client and a slash; its application id is the one
    of the descriptor, and its token is the one that the credential file
    holds, read from it or just written to it. *)
Theorem open_binds_access (E : env) (fuel : nat) (host port : pyval)
    (st st2 : state) :
  open E fuel host port st = (Done tt, st2) ->
  exists a d abu cred,
    _access st2 = Some a
    /\ fbx_desc st2 = Some d /\ d !! "api_base_url" = Some abu
    /\ acc_base_url a = fbx_url st2 +:+ py_str abu +:+ api_version st2 +:+ "/"
    /\ app_desc st !! "app_id" = Some (acc_app_id a)
    /\ files st2 !! token_file st = Some (FJson cred)
    /\ cred !! "app_token" = Some (acc_app_token a).
Proof.
  intros H.
  destruct (_is_app_desc_valid (app_desc st)) eqn:Hv.
  2: { by rewrite open_invalid in H. }
  rewrite open_unfold in H by done.
  destruct (_open_init E host port st) as [[[h p]|e|] st1] eqn:Hi; try done.
  pose proof (discreet_open_init E host port st) as Hu. rewrite Hi in Hu.
  destruct Hu as (_ & Hdesc & Htf & _). simpl in Hdesc, Htf.
  destruct (_get_app_access E fuel h p (api_version st1) (token_file st1)
              (app_desc st1) st1) as [[a|e|] st'] eqn:Ha; try done.
  injection H as <-.
  apply open_init_done in Hi as (st0 & url & -> & Hroot).
  apply get_app_access_done in Ha
    as (Hbase & Hid & (cred & Hfile & Htok) & (Hv1 & _ & Hd1 & Hu1 & _)).
  destruct (get_base_url_versioned _ _ _ _ _ _ _ Hroot Hbase)
    as (d & abu & Hd & Habu & Hb).
  exists a, d, abu, cred. simpl in *.
  split; [done|]. split; [by rewrite Hd1|]. split; [done|].
  split; [by rewrite Hb, Hu1, Hv1|].
  split; [by rewrite <- Hdesc|].
  split; [by rewrite <- Htf|done].
Qed.

Lemma open_binds_access_witness :
  exists a d abu cred,
    _access (open (found_twice ["granted"]) 1 VNone VNone fresh).2 = Some a
    /\ fbx_desc (open (found_twice ["granted"]) 1 VNone VNone fresh).2 = Some d
    /\ d !! "api_base_url" = Some abu
    /\ acc_base_url a
       = fbx_url (open (found_twice ["granted"]) 1 VNone VNone fresh).2 +:+ py_str abu
         +:+ api_version (open (found_twice ["granted"]) 1 VNone VNone fresh).2 +:+ "/"
    /\ app_desc fresh !! "app_id" = Some (acc_app_id a)
    /\ files (open (found_twice ["granted"]) 1 VNone VNone fresh).2 !! token_file fresh
       = Some (FJson cred)
    /\ cred !! "app_token" = Some (acc_app_token a).
Proof.
  apply (open_binds_access (found_twice ["granted"]) 1 VNone VNone fresh).
  vm_compute. reflexivity.
Defined.
